(** * A read-only PostgreSQL gateway: query validation, credential and
      connection lifecycle, and the tool-call boundary

    Shallow embedding of [src/security.py], [src/database.py],
    [src/server.py] and the part of [chat_with_database.py] that calls
    them.

    - A Python [str] is a list of code points ([list N]).  The ASCII part of
      the Unicode tables ([str.upper], [str.isspace], [str.isalnum], the
      case folding of [re.IGNORECASE]) is written out; the part above code
      point 127 belongs to the interpreter and is a field of [PyRuntime].
    - Values that cross the tool boundary or come back from the drivers are
      JSON-like ([value]); a [float] is an IEEE 754 value ([spec_float]).
    - Methods that can raise return a [result]; methods of [DatabaseManager]
      thread its fields and the log of driver calls ([Event]) through a
      state-and-exception monad.  The answers of the secrets backend and of
      the database driver are given by a [World], a function of the log. *)

From Stdlib Require Import List NArith ZArith Bool Lia String Ascii
  Permutation DecimalString SpecFloat.
Import ListNotations.

Set Warnings "-register-all".

(* ================================================================== *)
(** * Python strings *)

Module PyStr.

Definition str := list N.

(** A literal of the source. *)
Definition py (s : string) : str :=
  map N_of_ascii (list_ascii_of_string s).

Definition str_eqb (a b : str) : bool :=
  if list_eq_dec N.eq_dec a b then true else false.

(** ** The ASCII rows of the character tables *)

Definition is_ascii (c : N) : bool := (c <? 128)%N.

Definition ascii_isupper (c : N) : bool := ((65 <=? c) && (c <=? 90))%N.
Definition ascii_islower (c : N) : bool := ((97 <=? c) && (c <=? 122))%N.
Definition ascii_isdigit (c : N) : bool := ((48 <=? c) && (c <=? 57))%N.
Definition ascii_isalpha (c : N) : bool := ascii_isupper c || ascii_islower c.

Definition ascii_upper (c : N) : N :=
  if ascii_islower c then (c - 32)%N else c.

Definition ascii_lower (c : N) : N :=
  if ascii_isupper c then (c + 32)%N else c.

(** [str.isspace] on ASCII: TAB, LF, VT, FF, CR, the separators FS, GS, RS,
    US, and the space. *)
Definition ascii_isspace (c : N) : bool :=
  ((9 <=? c) && (c <=? 13) || (28 <=? c) && (c <=? 31) || (c =? 32))%N.

Definition ascii_isalnum (c : N) : bool :=
  ascii_isalpha c || ascii_isdigit c.

(** ** Generic operations on [str] *)

Fixpoint dropWhile (p : N -> bool) (s : str) : str :=
  match s with
  | [] => []
  | c :: t => if p c then dropWhile p t else s
  end.

Definition lstrip_with (p : N -> bool) (s : str) : str := dropWhile p s.

Definition rstrip_with (p : N -> bool) (s : str) : str :=
  rev (dropWhile p (rev s)).

Definition strip_with (p : N -> bool) (s : str) : str :=
  rstrip_with p (lstrip_with p s).

(** [s.startswith(p)] *)
Fixpoint startswith (p s : str) : bool :=
  match p, s with
  | [], _ => true
  | _ :: _, [] => false
  | a :: p', b :: s' => (a =? b)%N && startswith p' s'
  end.

(** [sub in s] *)
Fixpoint contains (sub s : str) : bool :=
  startswith sub s ||
  match s with
  | [] => false
  | _ :: t => contains sub t
  end.

(** [s.count(c)] for a one-character [c] *)
Definition count (c : N) (s : str) : nat :=
  List.length (filter (N.eqb c) s).

(** [s.replace(c, '')] for a one-character [c] *)
Definition remove_char (c : N) (s : str) : str :=
  filter (fun x => negb (x =? c)%N) s.

(** [s.rstrip(';')] *)
Definition rstrip_char (c : N) (s : str) : str :=
  rstrip_with (N.eqb c) s.

(** [str(n)] of an [int]. *)
Definition str_of_Z (z : Z) : str :=
  py (NilZero.string_of_int (Z.to_int z)).

Definition str_of_nat (n : nat) : str := str_of_Z (Z.of_nat n).

End PyStr.
Export PyStr.

(* ================================================================== *)
(** * Values, exceptions and the interpreter *)

Module Py.

(** JSON-like values: tool arguments, the parsed secret, cells of a row. *)
Inductive value : Type :=
| VNone
| VBool (b : bool)
| VInt (z : Z)
| VStr (s : str)
| VList (l : list value)
| VDict (d : list (str * value))
| VFloat (f : spec_float).

(** [bool(v)] *)
Definition truthy (v : value) : bool :=
  match v with
  | VNone => false
  | VBool b => b
  | VInt z => negb (z =? 0)%Z
  | VStr s => match s with [] => false | _ => true end
  | VList l => match l with [] => false | _ => true end
  | VDict d => match d with [] => false | _ => true end
  | VFloat f => match f with S754_zero _ => false | _ => true end
  end.

(** [type(v).__name__] *)
Definition type_name (v : value) : str :=
  match v with
  | VNone => py "NoneType"
  | VBool _ => py "bool"
  | VInt _ => py "int"
  | VStr _ => py "str"
  | VList _ => py "list"
  | VDict _ => py "dict"
  | VFloat _ => py "float"
  end.

(** [d.get(key, default)] on a dict given as its items. *)
Fixpoint dict_get (d : list (str * value)) (key : str) : option value :=
  match d with
  | [] => None
  | (k, v) :: t => if str_eqb k key then Some v else dict_get t key
  end.

Definition get (d : list (str * value)) (key : str) (default : value) : value :=
  match dict_get d key with
  | Some v => v
  | None => default
  end.

(** [d[key] = v]: replaces in place, or appends. *)
Fixpoint dict_set (d : list (str * value)) (key : str) (v : value)
  : list (str * value) :=
  match d with
  | [] => [(key, v)]
  | (k, w) :: t =>
      if str_eqb k key then (k, v) :: t else (k, w) :: dict_set t key v
  end.

(** [dict(zip(columns, row))] *)
Fixpoint dict_zip (acc : list (str * value)) (columns : list str)
    (row : list value) : list (str * value) :=
  match columns, row with
  | c :: cs, v :: vs => dict_zip (dict_set acc c v) cs vs
  | _, _ => acc
  end.

(** The classes of exception the code names, and [OtherError] for any other
    subclass of [Exception] a driver may raise.  What is not an [Exception]
    (an interrupt, the exit of the interpreter, the cancellation of a task)
    comes from outside the calls embedded here and has no place in this
    type. *)
Inductive exc_class : Type :=
| Exception_ | ValueError | TypeError | AttributeError | KeyError
| IndexError | ClientError | PsycopgError | OtherError.

Definition exc_class_eqb (a b : exc_class) : bool :=
  match a, b with
  | Exception_, Exception_ | ValueError, ValueError | TypeError, TypeError
  | AttributeError, AttributeError | KeyError, KeyError
  | IndexError, IndexError | ClientError, ClientError
  | PsycopgError, PsycopgError | OtherError, OtherError => true
  | _, _ => false
  end.

(** An exception object: its class and [str(e)]. *)
Record exc : Type := mkExc { exc_cls : exc_class; exc_msg : str }.

Inductive result (A : Type) : Type :=
| Ok (a : A)
| Raise (e : exc).
Arguments Ok {A} a.
Arguments Raise {A} e.

(** Operations the interpreter refuses with a message of its own whose
    wording depends on the interpreter's version. *)
Inductive fault : Type :=
| RegexSubject (v : value)          (* re.match(pattern, v), v not a str *)
| Subscript (v : value) (key : str). (* v[key], v not a dict *)

(** What the embedding takes from the interpreter: the character tables
    above ASCII, the iteration order of a set, [repr], and the text of the
    version-dependent faults. *)
Record PyRuntime : Type := {
  (** [chr(c).upper()] for [c >= 128], possibly several code points *)
  upper_ext : N -> str;
  (** [chr(c).isspace()] for [c >= 128] *)
  isspace_ext : N -> bool;
  (** [chr(c).isalnum()] for [c >= 128] *)
  isalnum_ext : N -> bool;
  (** under [re.IGNORECASE]: does the ASCII letter [l] of a pattern match
      the subject character [c >= 128] *)
  ignorecase_ext : N -> N -> bool;
  (** the order in which a set with these elements is iterated *)
  set_iter : list str -> list str;
  set_iter_perm : forall l, Permutation (set_iter l) l;
  (** [repr(v)] *)
  repr : value -> str;
  fault_text : fault -> str
}.

(** A runtime for ASCII text: nothing above 127 is cased, blank or
    alphanumeric; sets are iterated in the order written. *)
Definition ascii_runtime : PyRuntime := {|
  upper_ext := fun c => [c];
  isspace_ext := fun _ => false;
  isalnum_ext := fun _ => false;
  ignorecase_ext := fun _ _ => false;
  set_iter := fun l => l;
  set_iter_perm := fun l => Permutation_refl l;
  repr := fun v => type_name v;
  fault_text := fun _ => []
|}.

Section Strings.
Context (R : PyRuntime).

Definition isspace (c : N) : bool :=
  if is_ascii c then ascii_isspace c else isspace_ext R c.

Definition isalnum_char (c : N) : bool :=
  if is_ascii c then ascii_isalnum c else isalnum_ext R c.

Definition upper_char (c : N) : str :=
  if is_ascii c then [ascii_upper c] else upper_ext R c.

(** [s.upper()]: the full upper-case mapping, character by character. *)
Definition upper (s : str) : str := flat_map upper_char s.

(** [s.strip()] *)
Definition strip (s : str) : str := strip_with isspace s.

(** [s.isalnum()] *)
Definition isalnum (s : str) : bool :=
  match s with
  | [] => false
  | _ => forallb isalnum_char s
  end.

(** [str(v)], as an f-string prints [v]: the text itself for a [str], and
    [repr(v)] otherwise, written out for [None], booleans and integers. *)
Definition format (v : value) : str :=
  match v with
  | VNone => py "None"
  | VBool true => py "True"
  | VBool false => py "False"
  | VInt z => str_of_Z z
  | VStr s => s
  | v => repr R v
  end.

End Strings.

End Py.
Export Py.

(* ================================================================== *)
(** * The fragment of [re] the program uses *)

Module Re.

(** Patterns, as parsed from the source literals. *)
Inductive regex : Type :=
| Empty                              (* the empty pattern *)
| Lit (c : N)                        (* a literal character *)
| Space                              (* \s *)
| Dot                                (* . *)
| Class (ranges : list (N * N))      (* [a-z...] as inclusive ranges *)
| Cat (a b : regex)
| Alt (a b : regex)
| Star (a : regex)
| Plus (a : regex)
| Bol                                (* ^ *)
| Eol.                               (* $ *)

(** A literal word. *)
Definition lits (s : str) : regex :=
  fold_right (fun c r => Cat (Lit c) r) Empty s.

Definition alts (l : list regex) (last : regex) : regex :=
  fold_right Alt last l.

Definition in_ranges (ranges : list (N * N)) (c : N) : bool :=
  existsb (fun r => (fst r <=? c) && (c <=? snd r))%N ranges.

(** A position in the subject: the number of characters before it and the
    characters from it on. *)
Definition pos : Type := nat * str.

Definition advance (p : pos) : list pos :=
  match snd p with
  | [] => []
  | _ :: t => [(S (fst p), t)]
  end.

Definition shorter (p q : pos) : bool :=
  Nat.ltb (List.length (snd q)) (List.length (snd p)).

(** Zero or more rounds of [f], each round consuming at least one
    character (the engine breaks empty rounds of a repeat the same way). *)
Fixpoint repeat_ends (f : pos -> list pos) (fuel : nat) (p : pos) : list pos :=
  p :: match fuel with
       | O => []
       | S n => flat_map (repeat_ends f n) (filter (shorter p) (f p))
       end.

Section Matcher.
Context (R : PyRuntime).
(** [ic]: the flag [re.IGNORECASE]. *)
Variable ic : bool.

Definition lit_matches (l c : N) : bool :=
  if ic then
    if is_ascii c then (ascii_lower c =? ascii_lower l)%N
    else ascii_isalpha l && ignorecase_ext R l c
  else (c =? l)%N.

(** No pattern of the program puts a class under [re.IGNORECASE]; under
    the flag a class also takes the ASCII case variants of its members. *)
Definition class_matches (ranges : list (N * N)) (c : N) : bool :=
  in_ranges ranges c ||
  (ic && (in_ranges ranges (ascii_lower c) || in_ranges ranges (ascii_upper c))).

Definition step (ok : N -> bool) (p : pos) : list pos :=
  match snd p with
  | [] => []
  | c :: _ => if ok c then advance p else []
  end.

(** The positions at which a match of [r] starting at [p] can end. *)
Fixpoint ends (r : regex) (p : pos) : list pos :=
  match r with
  | Empty => [p]
  | Lit l => step (lit_matches l) p
  | Space => step (isspace R) p
  | Dot => step (fun c => negb (c =? 10)%N) p
  | Class ranges => step (class_matches ranges) p
  | Cat a b => flat_map (ends b) (ends a p)
  | Alt a b => ends a p ++ ends b p
  | Star a => repeat_ends (ends a) (List.length (snd p)) p
  | Plus a =>
      flat_map (fun q => repeat_ends (ends a) (List.length (snd q)) q)
               (ends a p)
  | Bol => match fst p with O => [p] | S _ => [] end
  | Eol =>
      match snd p with
      | [] => [p]
      | [c] => if (c =? 10)%N then [p] else []
      | _ => []
      end
  end.

Definition matches_at (r : regex) (p : pos) : bool :=
  match ends r p with [] => false | _ => true end.

(** [re.match(r, s)]: a match that starts at the beginning of [s]. *)
Definition re_match (r : regex) (s : str) : bool := matches_at r (O, s).

Fixpoint search_from (r : regex) (n : nat) (s : str) : bool :=
  matches_at r (n, s) ||
  match s with
  | [] => false
  | _ :: t => search_from r (S n) t
  end.

(** [re.search(r, s)]: a match that starts anywhere in [s]. *)
Definition re_search (r : regex) (s : str) : bool := search_from r O s.

End Matcher.

End Re.
Export Re.

(* ================================================================== *)
(** * [src/security.py]: class [QueryValidator] *)

Module Security.

(** Allowed SQL keywords for SELECT queries only.  The class declares this
    set; no method reads it. *)
Definition ALLOWED_KEYWORDS : list str :=
  map py
    [ "SELECT"; "FROM"; "WHERE"; "ORDER"; "BY"; "GROUP"; "HAVING";
      "LIMIT"; "OFFSET"; "AS"; "AND"; "OR"; "NOT"; "IN"; "LIKE";
      "BETWEEN"; "IS"; "NULL"; "DISTINCT"; "COUNT"; "SUM"; "AVG";
      "MIN"; "MAX"; "INNER"; "LEFT"; "RIGHT"; "OUTER"; "JOIN"; "ON" ]%string.

(** Dangerous keywords that should be blocked (a [set] in the source, so
    the loop of [validate_query] meets them in the interpreter's order). *)
Definition BLOCKED_KEYWORDS : list str :=
  map py
    [ "INSERT"; "UPDATE"; "DELETE"; "DROP"; "CREATE"; "ALTER";
      "TRUNCATE"; "GRANT"; "REVOKE"; "EXEC"; "EXECUTE"; "CALL";
      "PROCEDURE"; "FUNCTION"; "TRIGGER"; "SCHEMA"; "DATABASE" ]%string.

Definition semicolon : N := 59%N.
Definition quote : N := 39%N.
Definition underscore : N := 95%N.
Definition newline : N := 10%N.

(** Suspicious patterns that might indicate SQL injection. *)
Definition INJECTION_PATTERNS : list regex :=
  [ (* ;\s*(DROP|DELETE|UPDATE|INSERT|CREATE|ALTER|TRUNCATE) *)
    Cat (Lit semicolon)
      (Cat (Star Space)
         (alts (map (fun w => lits (py w))
                  ["DROP"; "DELETE"; "UPDATE"; "INSERT"; "CREATE";
                   "ALTER"]%string)
               (lits (py "TRUNCATE"))));
    (* -- *)
    lits (py "--");
    (* /\*.*\*/ *)
    Cat (lits (py "/*")) (Cat (Star Dot) (lits (py "*/")));
    (* UNION\s+SELECT *)
    Cat (lits (py "UNION")) (Cat (Plus Space) (lits (py "SELECT")));
    (* '\s*OR\s*' *)
    Cat (Lit quote)
      (Cat (Star Space) (Cat (lits (py "OR")) (Cat (Star Space) (Lit quote))));
    (* '\s*;\s* *)
    Cat (Lit quote) (Cat (Star Space) (Cat (Lit semicolon) (Star Space)));
    lits (py "xp_cmdshell");
    lits (py "sp_executesql") ].

Definition lower_az : N * N := (97%N, 122%N).
Definition upper_AZ : N * N := (65%N, 90%N).
Definition digit_09 : N * N := (48%N, 57%N).
Definition just_underscore : N * N := (underscore, underscore).

(** ^[a-zA-Z_][a-zA-Z0-9_]*$ *)
Definition TABLE_NAME_PATTERN : regex :=
  Cat Bol
    (Cat (Class [lower_az; upper_AZ; just_underscore])
       (Cat (Star (Class [lower_az; upper_AZ; digit_09; just_underscore]))
          Eol)).

Section QueryValidator.
Context (R : PyRuntime).

(** [query.upper().strip()] *)
Definition query_upper (query : str) : str := strip R (upper R query).

Definition blocked_message (keyword : str) : str :=
  py "Blocked keyword '" ++ keyword ++ py "' found in query".

(** [validate_query(query)], returning [(is_valid, error_message)]. *)
Definition validate_query (query : value) : result (bool * str) :=
  if negb (truthy query) then Ok (false, py "Empty query not allowed")
  else
    match query with
    | VStr q =>
        if negb (truthy (VStr (strip R q))) then
          Ok (false, py "Empty query not allowed")
        else if negb (startswith (py "SELECT") (query_upper q)) then
          Ok (false, py "Only SELECT queries are allowed")
        else
          match find (fun keyword => contains keyword (query_upper q))
                     (set_iter R BLOCKED_KEYWORDS) with
          | Some keyword => Ok (false, blocked_message keyword)
          | None =>
              if existsb (fun pattern => re_search R true pattern q)
                         INJECTION_PATTERNS then
                Ok (false, py "Potentially malicious pattern detected")
              else if Nat.ltb 1 (count semicolon q) then
                Ok (false, py "Multiple statements not allowed")
              else Ok (true, [])
          end
    | v =>
        (* query.strip() on a value that has no such method *)
        Raise (mkExc AttributeError
                 (py "'" ++ type_name v ++
                  py "' object has no attribute 'strip'"))
    end.

(** [sanitize_table_name(table_name)], returning
    [(is_valid, error_message)]. *)
Definition sanitize_table_name (table_name : value) : result (bool * str) :=
  if negb (truthy table_name) then Ok (false, py "Table name cannot be empty")
  else
    match table_name with
    | VStr name =>
        if negb (re_match R false TABLE_NAME_PATTERN name) then
          Ok (false, py "Invalid table name format")
        else if Nat.ltb 63 (List.length name) then
          Ok (false, py "Table name too long")
        else Ok (true, [])
    | v => Raise (mkExc TypeError (fault_text R (RegexSubject v)))
    end.

End QueryValidator.

End Security.
Export Security.

(* ================================================================== *)
(** * [src/database.py]: class [DatabaseManager] *)

Module Database.

(** A connection handle returned by the driver. *)
Definition conn : Type := nat.

(** The calls that leave the process, in the order they are made. *)
Inductive Event : Type :=
| GetSecretValue (secret_id : str)
| Sleep (seconds : Z)
| Connect (host port dbname user password : value) (connect_timeout : Z)
| Cursor (c : conn)
| Execute (c : conn) (query : str) (params : option (list value))
| Rollback (c : conn)
| Close (c : conn).

(** The secrets backend and the database driver.  Each answer is a function
    of the log up to and including the call being answered. *)
Record World : Type := {
  (** [json.loads(get_secret_value(SecretId=...)['SecretString'])], or the
      exception one of these three steps raises *)
  secret_value : list Event -> result value;
  (** [psycopg.connect(...)] *)
  connect : list Event -> result conn;
  (** the attribute [closed] of a connection *)
  closed : list Event -> conn -> bool;
  (** [conn.cursor()], [None] when it does not raise *)
  cursor : list Event -> option exc;
  (** [cursor.execute], the column names of [cursor.description] and
      [cursor.fetchall()], or the exception one of them raises *)
  execute : list Event -> result (list str * list (list value));
  (** [conn.rollback()], [None] when it does not raise *)
  rollback : list Event -> option exc
}.

(** The fields of a [DatabaseManager]. *)
Record DatabaseManager : Type := {
  secret_arn : str;
  region_name : str;
  max_retries : Z;
  _connection : option conn;
  _db_credentials : value
}.

(** [DatabaseManager(secret_arn, region_name, max_retries)] *)
Definition init (secret_arn region_name : str) (max_retries : Z)
  : DatabaseManager :=
  {| secret_arn := secret_arn;
     region_name := region_name;
     max_retries := max_retries;
     _connection := None;
     _db_credentials := VNone |}.

(** The object and the log of its outside calls. *)
Record St : Type := { self : DatabaseManager; log : list Event }.

(** ** State and exceptions *)

Definition M (A : Type) : Type := St -> result A * St.

Definition ret {A} (a : A) : M A := fun s => (Ok a, s).

Definition raise {A} (e : exc) : M A := fun s => (Raise e, s).

Definition bind {A B} (m : M A) (k : A -> M B) : M B :=
  fun s =>
    match m s with
    | (Ok a, s') => k a s'
    | (Raise e, s') => (Raise e, s')
    end.

(** [try: m except Exception as e: handler(e)] *)
Definition try_except {A} (m : M A) (handler : exc -> M A) : M A :=
  fun s =>
    match m s with
    | (Ok a, s') => (Ok a, s')
    | (Raise e, s') => handler e s'
    end.

(** A pure computation that may raise. *)
Definition lift {A} (r : result A) : M A := fun s => (r, s).

Notation "x <- m ;; k" := (bind m (fun x => k))
  (at level 61, m at next level, right associativity).
Notation "m ;;; k" := (bind m (fun _ => k))
  (at level 61, right associativity).

Definition emit (ev : Event) : M unit :=
  fun s => (Ok tt, {| self := self s; log := log s ++ [ev] |}).

Definition read {A} (f : DatabaseManager -> A) : M A :=
  fun s => (Ok (f (self s)), s).

Definition history : M (list Event) := fun s => (Ok (log s), s).

Definition set_credentials (v : value) : M unit :=
  fun s =>
    (Ok tt,
     {| self := {| secret_arn := secret_arn (self s);
                   region_name := region_name (self s);
                   max_retries := max_retries (self s);
                   _connection := _connection (self s);
                   _db_credentials := v |};
        log := log s |}).

Definition set_connection (c : option conn) : M unit :=
  fun s =>
    (Ok tt,
     {| self := {| secret_arn := secret_arn (self s);
                   region_name := region_name (self s);
                   max_retries := max_retries (self s);
                   _connection := c;
                   _db_credentials := _db_credentials (self s) |};
        log := log s |}).

(** [time.sleep(seconds)] *)
Definition sleep (seconds : Z) : M unit := emit (Sleep seconds).

Section Methods.
Context (R : PyRuntime) (W : World).

(** The secrets client: one request, answered by the world. *)
Definition fetch_secret : M value :=
  arn <- read secret_arn ;;
  emit (GetSecretValue arn) ;;;
  h <- history ;;
  lift (secret_value W h).

Definition secret_failure (max_retries : Z) (e : exc) : exc :=
  mkExc Exception_
    (py "Failed to retrieve secret after " ++ str_of_Z max_retries ++
     py " attempts: " ++ exc_msg e).

(** The body of [for attempt in range(self.max_retries)] in [get_secret],
    with [remaining] iterations left; falling out of the loop returns
    [None]. *)
Fixpoint get_secret_loop (remaining : nat) (attempt : Z) : M value :=
  match remaining with
  | O => ret VNone
  | S remaining' =>
      try_except
        (credentials <- fetch_secret ;;
         set_credentials credentials ;;;
         ret credentials)
        (fun e =>
           match exc_cls e with
           | ClientError =>
               n <- read max_retries ;;
               if (attempt =? n - 1)%Z then raise (secret_failure n e)
               else
                 sleep (2 ^ attempt)%Z ;;;
                 get_secret_loop remaining' (attempt + 1)%Z
           | _ => raise e
           end)
  end.

(** [get_secret()] *)
Definition get_secret : M value :=
  cached <- read _db_credentials ;;
  if truthy cached then ret cached
  else
    n <- read max_retries ;;
    get_secret_loop (Z.to_nat n) 0%Z.

(** [v[key]] *)
Definition getitem (v : value) (key : str) : result value :=
  match v with
  | VDict d =>
      match dict_get d key with
      | Some x => Ok x
      | None => Raise (mkExc KeyError (repr R (VStr key)))
      end
  | _ => Raise (mkExc TypeError (fault_text R (Subscript v key)))
  end.

(** [v.get(key, default)] *)
Definition get_method (v : value) (key : str) (default : value)
  : result value :=
  match v with
  | VDict d => Ok (get d key default)
  | _ =>
      Raise (mkExc AttributeError
               (py "'" ++ type_name v ++ py "' object has no attribute 'get'"))
  end.

(** [psycopg.connect(host=credentials['host'], ...)]: the arguments are
    evaluated in order, then the driver is called. *)
Definition open_connection (credentials : value) : M conn :=
  host <- lift (getitem credentials (py "host")) ;;
  port <- lift (get_method credentials (py "port") (VInt 5432)) ;;
  dbname <- lift (getitem credentials (py "dbname")) ;;
  user <- lift (getitem credentials (py "username")) ;;
  password <- lift (getitem credentials (py "password")) ;;
  emit (Connect host port dbname user password 30) ;;;
  h <- history ;;
  lift (connect W h).

Definition connect_failure (max_retries : Z) (e : exc) : exc :=
  mkExc Exception_
    (py "Failed to connect to database after " ++ str_of_Z max_retries ++
     py " attempts: " ++ exc_msg e).

Fixpoint get_connection_loop (credentials : value) (remaining : nat)
    (attempt : Z) : M (option conn) :=
  match remaining with
  | O => ret None
  | S remaining' =>
      try_except
        (c <- open_connection credentials ;;
         set_connection (Some c) ;;;
         ret (Some c))
        (fun e =>
           match exc_cls e with
           | PsycopgError =>
               n <- read max_retries ;;
               if (attempt =? n - 1)%Z then raise (connect_failure n e)
               else
                 sleep (2 ^ attempt)%Z ;;;
                 get_connection_loop credentials remaining' (attempt + 1)%Z
           | _ => raise e
           end)
  end.

(** [self._connection and not self._connection.closed] *)
Definition live_connection : M (option conn) :=
  current <- read _connection ;;
  h <- history ;;
  ret match current with
      | Some c => if closed W h c then None else Some c
      | None => None
      end.

(** [get_connection()] *)
Definition get_connection : M (option conn) :=
  live <- live_connection ;;
  match live with
  | Some c => ret (Some c)
  | None =>
      credentials <- get_secret ;;
      n <- read max_retries ;;
      get_connection_loop credentials (Z.to_nat n) 0%Z
  end.

Definition execution_failure (e : exc) : exc :=
  mkExc Exception_ (py "Query execution failed: " ++ exc_msg e).

(** [query.strip().rstrip(';')], then [LIMIT] appended when the upper-cased
    text does not contain it. *)
Definition limited_query (query : str) (limit : value) : str :=
  let query := rstrip_char semicolon (strip R query) in
  if negb (contains (py "LIMIT") (upper R query)) then
    query ++ py " LIMIT " ++ format R limit
  else query.

(** [query.strip()] is the first use of [query] as a [str]. *)
Definition as_query (query : value) : result str :=
  match query with
  | VStr q => Ok q
  | v =>
      Raise (mkExc AttributeError
               (py "'" ++ type_name v ++
                py "' object has no attribute 'strip'"))
  end.

(** The block under [with conn.cursor() as cursor]. *)
Definition run_cursor (c : conn) (query : value)
    (params : option (list value)) (limit : value) : M (list value) :=
  emit (Cursor c) ;;;
  h <- history ;;
  match cursor W h with
  | Some e => raise e
  | None =>
      q <- lift (as_query query) ;;
      let query := limited_query q limit in
      emit (Execute c query params) ;;;
      h <- history ;;
      answer <- lift (execute W h) ;;
      let (columns, rows) := answer in
      ret (map (fun row => VDict (dict_zip [] columns row)) rows)
  end.

Definition do_rollback (c : conn) : M unit :=
  emit (Rollback c) ;;;
  h <- history ;;
  match rollback W h with
  | Some e => raise e
  | None => ret tt
  end.

(** [execute_query(query, params, limit)] *)
Definition execute_query (query : value) (params : option (list value))
    (limit : value) : M (list value) :=
  connection <- get_connection ;;
  match connection with
  | None =>
      (* conn.cursor() on None, inside the try, is not a psycopg.Error *)
      raise (mkExc AttributeError
               (py "'NoneType' object has no attribute 'cursor'"))
  | Some c =>
      try_except (run_cursor c query params limit)
        (fun e =>
           match exc_cls e with
           | PsycopgError =>
               do_rollback c ;;;
               raise (execution_failure e)
           | _ => raise e
           end)
  end.

Definition line_feed : str := [newline].

Definition unlines (ls : list string) : str :=
  List.concat (map (fun l => py l ++ line_feed) ls).

(** The triple-quoted text of [get_table_names]. *)
Definition TABLE_NAMES_QUERY : str :=
  line_feed ++
  unlines [ "        SELECT table_name ";
            "        FROM information_schema.tables ";
            "        WHERE table_schema = 'public' ";
            "        ORDER BY table_name;" ]%string ++
  py "        ".

(** The triple-quoted text of [describe_table]. *)
Definition DESCRIBE_QUERY : str :=
  line_feed ++
  unlines [ "        SELECT ";
            "            column_name,";
            "            data_type,";
            "            is_nullable,";
            "            column_default,";
            "            character_maximum_length";
            "        FROM information_schema.columns ";
            "        WHERE table_name = %s AND table_schema = 'public'";
            "        ORDER BY ordinal_position;" ]%string ++
  py "        ".

(** [[row[key] for row in rows]] *)
Fixpoint column (key : str) (rows : list value) : result (list value) :=
  match rows with
  | [] => Ok []
  | row :: rest =>
      match getitem row key with
      | Raise e => Raise e
      | Ok v =>
          match column key rest with
          | Raise e => Raise e
          | Ok vs => Ok (v :: vs)
          end
      end
  end.

(** [get_table_names()] *)
Definition get_table_names : M (list value) :=
  results <- execute_query (VStr TABLE_NAMES_QUERY) None (VInt 1000) ;;
  lift (column (py "table_name") results).

(** [describe_table(table_name)] *)
Definition describe_table (table_name : value) : M (list value) :=
  execute_query (VStr DESCRIBE_QUERY) (Some [table_name]) (VInt 1000).

(** [table_name.replace('_', '')] is the first use of [table_name] as a
    [str]. *)
Definition as_table_name (table_name : value) : result str :=
  match table_name with
  | VStr name => Ok name
  | v =>
      Raise (mkExc AttributeError
               (py "'" ++ type_name v ++
                py "' object has no attribute 'replace'"))
  end.

(** [count_table_records(table_name)] *)
Definition count_table_records (table_name : value) : M value :=
  name <- lift (as_table_name table_name) ;;
  if negb (isalnum R (remove_char underscore name)) then
    raise (mkExc ValueError (py "Invalid table name"))
  else
    let query := py "SELECT COUNT(*) as count FROM " ++ name ++ py ";" in
    rows <- execute_query (VStr query) None (VInt 1000) ;;
    match rows with
    | [] => raise (mkExc IndexError (py "list index out of range"))
    | first :: _ => lift (getitem first (py "count"))
    end.

(** [close()] *)
Definition close : M unit :=
  live <- live_connection ;;
  match live with
  | Some c => emit (Close c)
  | None => ret tt
  end.

End Methods.

End Database.
Export Database.

(* ================================================================== *)
(** * [src/config.py] and [src/server.py] *)

Module Server.

(** [Config]: the settings read from the environment. *)
Record Config : Type := {
  cfg_secret_arn : option str;
  aws_region : str;
  mcp_server_name : str;
  log_level : str;
  max_query_rows : Z;
  connection_timeout : Z
}.

(** [Config.validate()] *)
Definition validate (config : Config) : result bool :=
  match cfg_secret_arn config with
  | None | Some [] =>
      Raise (mkExc ValueError
               (py "SECRET_ARN environment variable is required"))
  | Some _ =>
      match aws_region config with
      | [] =>
          Raise (mkExc ValueError
                   (py "AWS_REGION environment variable is required"))
      | _ => Ok true
      end
  end.

(** [PostgreSQLMCPServer()]: the manager is built with the default
    [max_retries = 3]. *)
Definition new_db_manager (config : Config) : result St :=
  match validate config with
  | Raise e => Raise e
  | Ok _ =>
      Ok {| self := init (match cfg_secret_arn config with
                          | Some arn => arn
                          | None => []
                          end)
                         (aws_region config) 3;
            log := [] |}
  end.

(** [types.TextContent] *)
Record TextContent : Type := { type : str; text : str }.

Definition text_content (t : str) : list TextContent :=
  [ {| type := py "text"; text := t |} ].

(** [b < f] for an [int] [b] and a [float] [f]: the comparison is exact,
    and false against a NaN. *)
Definition int_lt_float (b : Z) (f : spec_float) : bool :=
  match f with
  | S754_zero _ => (b <? 0)%Z
  | S754_infinity negative => negb negative
  | S754_nan => false
  | S754_finite negative m e =>
      let mantissa := if negative then Z.neg m else Z.pos m in
      if (0 <=? e)%Z then (b <? mantissa * 2 ^ e)%Z
      else (b * 2 ^ (- e) <? mantissa)%Z
  end.

(** [min(a, b)] for an [int] [b]: [a] unless [b < a]. *)
Definition py_min (a : value) (b : Z) : result value :=
  match a with
  | VInt z => Ok (if (b <? z)%Z then VInt b else VInt z)
  | VBool t =>
      Ok (if (b <? (if t then 1 else 0))%Z then VInt b else VBool t)
  | VFloat f => Ok (if int_lt_float b f then VInt b else VFloat f)
  | v =>
      Raise (mkExc TypeError
               (py "'<' not supported between instances of 'int' and '" ++
                type_name v ++ py "'"))
  end.

(** [types.Tool] *)
Record Tool : Type := { name : str; description : str; inputSchema : value }.

(** [handle_list_tools()] *)
Definition handle_list_tools : list Tool :=
  [ {| name := py "execute_select";
       description := py "Execute a SELECT query on the PostgreSQL database";
       inputSchema :=
         VDict
           [ (py "type", VStr (py "object"));
             (py "properties",
              VDict
                [ (py "query",
                   VDict
                     [ (py "type", VStr (py "string"));
                       (py "description",
                        VStr (py "SQL SELECT query to execute")) ]);
                  (py "limit",
                   VDict
                     [ (py "type", VStr (py "integer"));
                       (py "description",
                        VStr (py "Maximum number of rows to return (default: 1000)"));
                       (py "default", VInt 1000);
                       (py "maximum", VInt 10000) ]) ]);
             (py "required", VList [VStr (py "query")]) ] |};
    {| name := py "get_tables";
       description := py "Get list of all tables in the database";
       inputSchema :=
         VDict
           [ (py "type", VStr (py "object"));
             (py "properties", VDict []) ] |};
    {| name := py "describe_table";
       description := py "Get schema information for a specific table";
       inputSchema :=
         VDict
           [ (py "type", VStr (py "object"));
             (py "properties",
              VDict
                [ (py "table_name",
                   VDict
                     [ (py "type", VStr (py "string"));
                       (py "description",
                        VStr (py "Name of the table to describe")) ]) ]);
             (py "required", VList [VStr (py "table_name")]) ] |};
    {| name := py "count_records";
       description := py "Count the number of records in a specific table";
       inputSchema :=
         VDict
           [ (py "type", VStr (py "object"));
             (py "properties",
              VDict
                [ (py "table_name",
                   VDict
                     [ (py "type", VStr (py "string"));
                       (py "description",
                        VStr (py "Name of the table to count records")) ]) ]);
             (py "required", VList [VStr (py "table_name")]) ] |} ].

Section Tools.
Context (R : PyRuntime) (W : World) (config : Config).

(** [_execute_select(arguments)] *)
Definition _execute_select (arguments : list (str * value))
  : M (list TextContent) :=
  let query := get arguments (py "query") (VStr []) in
  limit <- lift (py_min (get arguments (py "limit") (VInt 1000))
                        (max_query_rows config)) ;;
  verdict <- lift (validate_query R query) ;;
  let (is_valid, error_msg) := verdict in
  if negb is_valid then
    ret (text_content (py "Query validation failed: " ++ error_msg))
  else
    try_except
      (results <- execute_query R W query None limit ;;
       ret (text_content
              (py "Query executed successfully. Returned " ++
               str_of_nat (List.length results) ++ py " rows:" ++
               line_feed ++ repr R (VList results))))
      (fun e =>
         ret (text_content (py "Query execution failed: " ++ exc_msg e))).

(** [_get_tables(arguments)] *)
Definition _get_tables (arguments : list (str * value))
  : M (list TextContent) :=
  try_except
    (tables <- get_table_names R W ;;
     ret (text_content
            (py "Database tables:" ++ line_feed ++ repr R (VList tables))))
    (fun e => ret (text_content (py "Failed to get tables: " ++ exc_msg e))).

(** [_describe_table(arguments)] *)
Definition _describe_table (arguments : list (str * value))
  : M (list TextContent) :=
  let table_name := get arguments (py "table_name") (VStr []) in
  verdict <- lift (sanitize_table_name R table_name) ;;
  let (is_valid, error_msg) := verdict in
  if negb is_valid then
    ret (text_content (py "Table name validation failed: " ++ error_msg))
  else
    try_except
      (schema <- describe_table R W table_name ;;
       ret (text_content
              (py "Schema for table '" ++ format R table_name ++ py "':" ++
               line_feed ++ repr R (VList schema))))
      (fun e =>
         ret (text_content (py "Failed to describe table: " ++ exc_msg e))).

(** [_count_records(arguments)] *)
Definition _count_records (arguments : list (str * value))
  : M (list TextContent) :=
  let table_name := get arguments (py "table_name") (VStr []) in
  verdict <- lift (sanitize_table_name R table_name) ;;
  let (is_valid, error_msg) := verdict in
  if negb is_valid then
    ret (text_content (py "Table name validation failed: " ++ error_msg))
  else
    try_except
      (count <- count_table_records R W table_name ;;
       ret (text_content
              (py "Table '" ++ format R table_name ++ py "' has " ++
               format R count ++ py " records")))
      (fun e =>
         ret (text_content (py "Failed to count records: " ++ exc_msg e))).

(** [handle_call_tool(name, arguments)] *)
Definition handle_call_tool (name : str) (arguments : list (str * value))
  : M (list TextContent) :=
  try_except
    (if str_eqb name (py "execute_select") then _execute_select arguments
     else if str_eqb name (py "get_tables") then _get_tables arguments
     else if str_eqb name (py "describe_table") then _describe_table arguments
     else if str_eqb name (py "count_records") then _count_records arguments
     else raise (mkExc ValueError (py "Unknown tool: " ++ name)))
    (fun e => ret (text_content (py "Error: " ++ exc_msg e))).

End Tools.

End Server.
Export Server.

(* ================================================================== *)
(** * [chat_with_database.py]: class [DatabaseChatBot] *)

Module Chat.

(** [initialize()]: the value it leaves in [self.available_tables], which
    [__init__] set to the empty list. *)
Definition initialize (R : PyRuntime) (W : World) : M (list str) :=
  try_except
    (tables_result <- _get_tables R W [] ;;
     match tables_result with
     | [] => raise (mkExc IndexError (py "list index out of range"))
     | first :: _ =>
         if contains (py "['web_items'") (text first) then
           ret (map py ["web_items"; "web_raw_content";
                        "web_translated_content"]%string)
         else ret []
     end)
    (fun _ => ret []).

Section DatabaseChatBot.
(** [str.lower]: the interpreter's full lower-case mapping, which is not a
    character-by-character one. *)
Variable str_lower : str -> str.

Definition TITLES_QUERY : str := py "SELECT title, url FROM web_items LIMIT 5".

Definition RECENT_QUERY : str :=
  py "SELECT title, url, created_at FROM web_items ORDER BY created_at DESC LIMIT 5".

(** [any(word in text for word in words)] *)
Definition any_in (words : list string) (text : str) : bool :=
  existsb (fun word => contains (py word) text) words.

(** [detect_database_intent(user_input)], given [self.available_tables];
    returns the tool's name, or [None], and the tool's arguments. *)
Definition detect_database_intent (available_tables : list str)
    (user_input : str) : option str * list (str * value) :=
  let user_lower := str_lower user_input in
  if any_in ["how many table"; "number of table"; "what tables";
             "list tables"]%string user_lower
     || str_eqb user_lower (py "tables") then
    (Some (py "get_tables"), [])
  else if any_in ["schema"; "structure"; "columns"; "describe"; "column";
                  "most column"]%string user_lower then
    if any_in ["most"; "all"; "compare"; "which"]%string user_lower then
      (Some (py "get_all_schemas"), [])
    else
      match find (fun table => contains table user_lower) available_tables with
      | Some table =>
          (Some (py "describe_table"), [(py "table_name", VStr table)])
      | None =>
          (Some (py "describe_table"),
           [(py "table_name", VStr (py "web_items"))])
      end
  else if any_in ["count"; "how many"; "records"; "rows"]%string user_lower
          && negb (contains (py "table") user_lower) then
    match find (fun table => contains table user_lower) available_tables with
    | Some table =>
        (Some (py "count_records"), [(py "table_name", VStr table)])
    | None =>
        (Some (py "count_records"), [(py "table_name", VStr (py "web_items"))])
    end
  else if any_in ["select"; "show"; "find"; "search"; "get data";
                  "sample"]%string user_lower then
    let query :=
      if contains (py "title") user_lower then TITLES_QUERY
      else if contains (py "recent") user_lower
              || contains (py "latest") user_lower then RECENT_QUERY
      else TITLES_QUERY in
    (Some (py "execute_select"), [(py "query", VStr query)])
  else (None, []).

End DatabaseChatBot.

End Chat.
Export Chat.
(* ================================================================== *)
(** * Inputs and notions the properties below are stated with *)

Module Cases.

(** The text of two statements that the validator lets through. *)
Definition two_statements : str := py "SELECT 1; SELECT 2".

(** The pattern [[A-Za-z_][A-Za-z0-9_]*] read as a description of the whole
    name: a letter or underscore, then letters, digits and underscores. *)
Definition identifier_start (c : N) : bool :=
  ascii_isalpha c || (c =? underscore)%N.

Definition identifier_char (c : N) : bool :=
  ascii_isalnum c || (c =? underscore)%N.

Definition is_identifier (name : str) : bool :=
  match name with
  | [] => false
  | c :: rest => identifier_start c && forallb identifier_char rest
  end.

Definition hyphen : N := 45%N.
Definition dot : N := 46%N.

(** A name made of [n] underscores. *)
Definition underscores (n : nat) : str := repeat underscore n.

(** The pauses recorded in a log, in order. *)
Definition sleeps (l : list Event) : list Z :=
  flat_map (fun ev => match ev with Sleep n => [n] | _ => [] end) l.

(** The number of requests to the secrets backend in a log. *)
Definition secret_requests (l : list Event) : nat :=
  List.length
    (filter (fun ev => match ev with GetSecretValue _ => true | _ => false end)
       l).

(** The statements handed to [cursor.execute] in a log, in order. *)
Definition executed (l : list Event) : list str :=
  flat_map (fun ev => match ev with Execute _ q _ => [q] | _ => [] end) l.

(** The delays between [k + 1] failing attempts, the first of which is
    attempt number [attempt]. *)
Definition backoff (attempt : Z) (k : nat) : list Z :=
  map (fun i => (2 ^ (attempt + Z.of_nat i))%Z) (seq 0 k).

(** ** Worlds and states to run the code in *)

Definition access_denied : exc := mkExc ClientError (py "AccessDenied").
Definition refused : exc := mkExc PsycopgError (py "connection refused").
Definition no_such_table : exc :=
  mkExc PsycopgError (py "relation does not exist").

Definition sample_secret : value :=
  VDict [ (py "host", VStr (py "db.internal"));
          (py "dbname", VStr (py "app"));
          (py "username", VStr (py "reader"));
          (py "password", VStr (py "s3cret")) ].

(** Everything answers: one table of one row. *)
Definition world_up : World := {|
  secret_value := fun _ => Ok sample_secret;
  connect := fun _ => Ok 7%nat;
  closed := fun _ _ => false;
  cursor := fun _ => None;
  execute := fun _ => Ok ([py "count"], [[VInt 42]]);
  rollback := fun _ => None
|}.

(** The secrets backend refuses every request. *)
Definition world_no_secret : World := {|
  secret_value := fun _ => Raise access_denied;
  connect := fun _ => Raise refused;
  closed := fun _ _ => true;
  cursor := fun _ => None;
  execute := fun _ => Raise no_such_table;
  rollback := fun _ => None
|}.

(** The database is reachable and rejects every statement. *)
Definition world_bad_sql : World := {|
  secret_value := fun _ => Ok sample_secret;
  connect := fun _ => Ok 7%nat;
  closed := fun _ _ => false;
  cursor := fun _ => None;
  execute := fun _ => Raise no_such_table;
  rollback := fun _ => None
|}.

Definition fresh : St :=
  {| self := init (py "arn:aws:secretsmanager:db") (py "ap-southeast-3") 3;
     log := [] |}.

Definition sample_config : Config := {|
  cfg_secret_arn := Some (py "arn:aws:secretsmanager:db");
  aws_region := py "ap-southeast-3";
  mcp_server_name := py "postgres-local-mcp-server";
  log_level := py "INFO";
  max_query_rows := 1000;
  connection_timeout := 30
|}.

(** ** States the methods pass through *)

(** The state once the request for the secret is out. *)
Definition after_request (s : St) : St :=
  {| self := self s;
     log := log s ++ [GetSecretValue (secret_arn (self s))] |}.

(** The state once the cursor is open and the statement handed over. *)
Definition after_execute (s1 : St) (c : conn) (sent : str)
    (params : option (list value)) : St :=
  {| self := self s1;
     log := (log s1 ++ [Cursor c]) ++ [Execute c sent params] |}.

(** The state once the rollback is out. *)
Definition after_rollback (s2 : St) (c : conn) : St :=
  {| self := self s2; log := log s2 ++ [Rollback c] |}.

(** The rows [execute_query] makes of the driver's answer. *)
Definition as_rows (answer : list str * list (list value)) : list value :=
  map (fun row => VDict (dict_zip [] (fst answer) row)) (snd answer).

(** ** Observers and states for the lifecycle of credentials and
       connections *)


(** The number of calls of [psycopg.connect] in a log. *)
Definition connects (l : list Event) : nat :=
  List.length
    (filter (fun ev => match ev with
                       | Connect _ _ _ _ _ _ => true
                       | _ => false
                       end) l).

(** The number of rollbacks in a log. *)
Definition rollbacks (l : list Event) : nat :=
  List.length
    (filter (fun ev => match ev with Rollback _ => true | _ => false end) l).

(** The manager with [_db_credentials] set. *)
Definition with_credentials (m : DatabaseManager) (v : value)
  : DatabaseManager :=
  {| secret_arn := secret_arn m;
     region_name := region_name m;
     max_retries := max_retries m;
     _connection := _connection m;
     _db_credentials := v |}.

(** The manager with [_connection] set. *)
Definition with_connection (m : DatabaseManager) (c : conn)
  : DatabaseManager :=
  {| secret_arn := secret_arn m;
     region_name := region_name m;
     max_retries := max_retries m;
     _connection := Some c;
     _db_credentials := _db_credentials m |}.

(** A secrets backend that refuses the first two requests and then
    answers. *)
Definition world_slow_secret : World := {|
  secret_value := fun h =>
    if Nat.leb (secret_requests h) 2 then Raise access_denied
    else Ok sample_secret;
  connect := fun _ => Ok 7%nat;
  closed := fun _ _ => false;
  cursor := fun _ => None;
  execute := fun _ => Ok ([py "count"], [[VInt 42]]);
  rollback := fun _ => None
|}.

(** A secrets backend that breaks in a way that is not a client error. *)
Definition timed_out : exc := mkExc OtherError (py "Connect timeout on endpoint").

Definition world_broken_secret : World := {|
  secret_value := fun _ => Raise timed_out;
  connect := fun _ => Ok 7%nat;
  closed := fun _ _ => false;
  cursor := fun _ => None;
  execute := fun _ => Ok ([py "count"], [[VInt 42]]);
  rollback := fun _ => None
|}.


(** A manager allowed [n] attempts. *)
Definition fresh_with (n : Z) : St :=
  {| self := init (py "arn:aws:secretsmanager:db") (py "ap-southeast-3") n;
     log := [] |}.

(** The call of [psycopg.connect] made with the credentials [d]. *)
Definition connect_event (d : list (str * value)) : Event :=
  Connect (get d (py "host") VNone) (get d (py "port") (VInt 5432))
          (get d (py "dbname") VNone) (get d (py "username") VNone)
          (get d (py "password") VNone) 30.

(** The keys [get_connection] subscripts, in the order it does. *)
Definition REQUIRED_KEYS : list str :=
  map py ["host"; "dbname"; "username"; "password"]%string.

Definition has_key (d : list (str * value)) (key : str) : bool :=
  match dict_get d key with Some _ => true | None => false end.

(** No connection is stored, or the stored one reports itself closed. *)
Definition no_live_connection (W : World) (s : St) : bool :=
  match _connection (self s) with
  | Some c => closed W (log s) c
  | None => true
  end.

(** The state once [psycopg.connect] has been called. *)
Definition after_connect (s : St) (d : list (str * value)) : St :=
  {| self := self s; log := log s ++ [connect_event d] |}.

(** A manager that holds the sample credentials. *)
Definition with_secret (n : Z) : St :=
  {| self := with_credentials
               (init (py "arn:aws:secretsmanager:db") (py "ap-southeast-3") n)
               sample_secret;
     log := [] |}.

(** A manager that holds credentials without a password. *)
Definition half_secret : St :=
  {| self := with_credentials
               (init (py "arn:aws:secretsmanager:db") (py "ap-southeast-3") 3)
               (VDict [ (py "host", VStr (py "db.internal"));
                        (py "dbname", VStr (py "app"));
                        (py "username", VStr (py "reader")) ]);
     log := [] |}.

(** Events of the lifecycle of credentials and connections only: no
    cursor, no statement, no rollback. *)
Definition lifecycle_only (l : list Event) : bool :=
  forallb (fun ev => match ev with
                     | GetSecretValue _ | Sleep _ | Connect _ _ _ _ _ _ => true
                     | _ => false
                     end) l.

(** The statement [describe_table] sends: its text trimmed, with the
    default limit. *)
Definition DESCRIBE_STATEMENT : str :=
  py "SELECT " ++ line_feed ++
  unlines [ "            column_name,";
            "            data_type,";
            "            is_nullable,";
            "            column_default,";
            "            character_maximum_length";
            "        FROM information_schema.columns ";
            "        WHERE table_name = %s AND table_schema = 'public'" ]%string ++
  py "        ORDER BY ordinal_position LIMIT 1000".

(** The statement [get_table_names] sends. *)
Definition TABLE_NAMES_STATEMENT : str :=
  unlines [ "SELECT table_name ";
            "        FROM information_schema.tables ";
            "        WHERE table_schema = 'public' " ]%string ++
  py "        ORDER BY table_name LIMIT 1000".

(** The text [count_table_records] builds around the table name. *)
Definition COUNT_PREFIX : str := py "SELECT COUNT(*) as count FROM ".

(** The database answers every statement with an empty result. *)
Definition world_empty : World := {|
  secret_value := fun _ => Ok sample_secret;
  connect := fun _ => Ok 7%nat;
  closed := fun _ _ => false;
  cursor := fun _ => None;
  execute := fun _ => Ok ([py "count"], []);
  rollback := fun _ => None
|}.

(** The database lists two tables. *)
Definition world_two_tables : World := {|
  secret_value := fun _ => Ok sample_secret;
  connect := fun _ => Ok 7%nat;
  closed := fun _ _ => false;
  cursor := fun _ => None;
  execute := fun _ =>
    Ok ([py "table_name"], [[VStr (py "orders")]; [VStr (py "web_items")]]);
  rollback := fun _ => None
|}.

(** The driver breaks, on every statement, in a way that is not a
    [psycopg.Error]. *)
Definition world_driver_fault : World := {|
  secret_value := fun _ => Ok sample_secret;
  connect := fun _ => Ok 7%nat;
  closed := fun _ _ => false;
  cursor := fun _ => None;
  execute := fun _ => Raise timed_out;
  rollback := fun _ => None
|}.

(** Statements fail and so does the rollback. *)
Definition lost : exc := mkExc PsycopgError (py "the connection is lost").

Definition world_lost : World := {|
  secret_value := fun _ => Ok sample_secret;
  connect := fun _ => Ok 7%nat;
  closed := fun _ _ => false;
  cursor := fun _ => None;
  execute := fun _ => Raise no_such_table;
  rollback := fun _ => Some lost
|}.

(** The cursor cannot be opened. *)
Definition world_no_cursor : World := {|
  secret_value := fun _ => Ok sample_secret;
  connect := fun _ => Ok 7%nat;
  closed := fun _ _ => false;
  cursor := fun _ => Some lost;
  execute := fun _ => Raise no_such_table;
  rollback := fun _ => None
|}.

(** Upper-casing, above ASCII, leaves blank characters as they are and
    turns no other character into nothing or into blanks (as the Unicode
    tables do). *)
Definition upper_keeps_blanks (R : PyRuntime) : Prop :=
  forall c, is_ascii c = false ->
    if isspace_ext R c then upper_ext R c = [c]
    else exists d rest,
           upper_ext R c = d :: rest /\
           forallb (fun x => negb (isspace R x)) (d :: rest) = true.

(** Every statement of a list begins, upper-cased, with SELECT. *)
Definition all_select (R : PyRuntime) (sent : list str) : bool :=
  forallb (fun statement => startswith (py "SELECT") (upper R statement)) sent.

(** The state once the connection has been told to close. *)
Definition after_close (s : St) (c : conn) : St :=
  {| self := self s; log := log s ++ [Close c] |}.

(** A driver whose connections are numbered as they are opened and report
    themselves closed once they have been closed. *)
Definition world_closable : World := {|
  secret_value := fun _ => Ok sample_secret;
  connect := fun h => Ok (connects h);
  closed := fun h c =>
    existsb (fun ev => match ev with Close c' => Nat.eqb c c' | _ => false end)
            h;
  cursor := fun _ => None;
  execute := fun _ => Ok ([py "count"], [[VInt 42]]);
  rollback := fun _ => None
|}.

(** The manager after its first connection to that driver. *)
Definition connected_once : St :=
  snd (get_connection ascii_runtime world_closable fresh).

(** The chatbot takes the "recent items" query: the text asks for recent
    or latest items and does not mention a title. *)
Definition asks_recent (lowered : str) : bool :=
  negb (contains (py "title") lowered) &&
  (contains (py "recent") lowered || contains (py "latest") lowered).

(** ** The tool boundary *)

Definition TOOL_NAMES : list str :=
  map py ["execute_select"; "get_tables"; "describe_table";
          "count_records"]%string.

Definition is_tool (name : str) : bool := existsb (str_eqb name) TOOL_NAMES.

(** The argument names a tool's schema lists under [required]. *)
Definition required_arguments (t : Tool) : list str :=
  match inputSchema t with
  | VDict schema =>
      match dict_get schema (py "required") with
      | Some (VList keys) =>
          flat_map (fun k => match k with VStr key => [key] | _ => [] end) keys
      | _ => []
      end
  | _ => []
  end.

(** A tool of that name is listed. *)
Definition is_listed (tool : str) : bool :=
  existsb (fun t => str_eqb tool (name t)) handle_list_tools.

(** The [float] 2.5, as 5 * 2 ^ -1. *)
Definition two_and_a_half : spec_float := S754_finite false 5 (-1).

(** What a result shows apart from its text: that the handler returned
    rather than raised, and the [type] of each content it holds. *)
Definition shape (r : result (list TextContent)) : option (list str) :=
  match r with
  | Ok contents => Some (map type contents)
  | Raise _ => None
  end.

(** The database answers every statement but those that read the table
    [missing]. *)
Definition world_missing_table : World := {|
  secret_value := fun _ => Ok sample_secret;
  connect := fun _ => Ok 7%nat;
  closed := fun _ _ => false;
  cursor := fun _ => None;
  execute := fun h =>
    match rev h with
    | Execute _ statement _ :: _ =>
        if contains (py "FROM missing") statement then Raise no_such_table
        else Ok ([py "count"], [[VInt 42]])
    | _ => Ok ([py "count"], [[VInt 42]])
    end;
  rollback := fun _ => None
|}.

(** The texts with which the tools and the handler report a failure. *)
Definition FAILURE_PREFIXES : list str :=
  map py ["Error: "; "Query validation failed: "; "Query execution failed: ";
          "Failed to get tables: "; "Table name validation failed: ";
          "Failed to describe table: "; "Failed to count records: "]%string.

(** A result object whose text reports a failure. *)
Definition reports_error (r : result (list TextContent)) : bool :=
  match r with
  | Ok [c] => existsb (fun p => startswith p (text c)) FAILURE_PREFIXES
  | _ => false
  end.

(** The [try] block of [_execute_select]: an accepted query run with a
    given row limit. *)
Definition run_select (R : PyRuntime) (W : World) (query limit : value)
  : M (list TextContent) :=
  try_except
    (results <- execute_query R W query None limit ;;
     ret (text_content
            (py "Query executed successfully. Returned " ++
             str_of_nat (List.length results) ++ py " rows:" ++
             line_feed ++ repr R (VList results))))
    (fun e =>
       ret (text_content (py "Query execution failed: " ++ exc_msg e))).

(** The validation a tool runs on its arguments before it reaches the
    database. *)
Definition validation (R : PyRuntime) (name : str)
    (arguments : list (str * value)) : result (bool * str) :=
  if str_eqb name (py "execute_select") then
    validate_query R (get arguments (py "query") (VStr []))
  else if str_eqb name (py "describe_table")
          || str_eqb name (py "count_records") then
    sanitize_table_name R (get arguments (py "table_name") (VStr []))
  else Ok (true, []).

(** How a call of a tool can end, seen from the state [s] it started in:
    with an exception before anything was done, with a text that reports a
    failure, or with a text after [execute_query] returned rows. *)
Definition settled (R : PyRuntime) (W : World) (s : St)
    (r : result (list TextContent) * St) : Prop :=
  (exists e, r = (Raise e, s)) \/
  (exists t, r = (Ok (text_content t), snd r) /\
             reports_error (fst r) = true) \/
  (exists t query params limit rows,
     r = (Ok (text_content t), snd r) /\
     execute_query R W query params limit s = (Ok rows, snd r)).

End Cases.
Export Cases.

(* ================================================================== *)
(** * Facts about strings *)

Section StrFacts.

Lemma startswith_app (p t : str) : startswith p (p ++ t) = true.
Proof.
  induction p as [|c p IH]; simpl; [reflexivity|].
  now rewrite N.eqb_refl, IH.
Qed.

Lemma startswith_inv (p s : str) :
  startswith p s = true -> exists t, s = p ++ t.
Proof.
  revert s; induction p as [|c p IH]; intros s H.
  - now exists s.
  - destruct s as [|d s]; simpl in H; [discriminate|].
    apply andb_true_iff in H as [Hc Hp].
    apply N.eqb_eq in Hc; subst d.
    destruct (IH _ Hp) as [t ->]. now exists t.
Qed.

Lemma contains_here (sub s : str) :
  startswith sub s = true -> contains sub s = true.
Proof. intros H; destruct s; simpl in *; now rewrite H. Qed.

Lemma contains_later (sub : str) (c : N) (s : str) :
  contains sub s = true -> contains sub (c :: s) = true.
Proof. intros H; simpl. rewrite H. apply orb_true_r. Qed.

Lemma contains_app (sub a b : str) : contains sub (a ++ sub ++ b) = true.
Proof.
  induction a as [|c a IH]; simpl app.
  - apply contains_here, startswith_app.
  - now apply contains_later.
Qed.

Lemma contains_inv (sub s : str) :
  contains sub s = true -> exists a b, s = a ++ sub ++ b.
Proof.
  induction s as [|c s IH]; simpl; intros H.
  - rewrite orb_false_r in H.
    destruct (startswith_inv _ _ H) as [t Ht]. now exists [], t.
  - apply orb_true_iff in H as [H|H].
    + destruct (startswith_inv _ _ H) as [t Ht]. now exists [], t.
    + destruct (IH H) as (a & b & ->). now exists (c :: a), b.
Qed.

(** Stripping from the left stops at the first character kept. *)
Lemma dropWhile_stops (p : N -> bool) (a : str) (c : N) (k : str) :
  p c = false ->
  exists a', dropWhile p (a ++ c :: k) = a' ++ c :: k.
Proof.
  intros Hc; induction a as [|d a [a' IH]]; simpl.
  - rewrite Hc. now exists [].
  - destruct (p d); [now exists a'|now exists (d :: a)].
Qed.

Lemma dropWhile_nil (p : N -> bool) (s : str) :
  dropWhile p s = [] <-> forallb p s = true.
Proof.
  induction s as [|c s IH]; simpl; [tauto|].
  destruct (p c); simpl; [exact IH|]. split; discriminate.
Qed.

Lemma dropWhile_all (p : N -> bool) (s : str) :
  forallb p s = true -> dropWhile p s = [].
Proof. apply dropWhile_nil. Qed.

Lemma strip_with_nil (p : N -> bool) (s : str) :
  strip_with p s = [] <-> forallb p s = true.
Proof.
  unfold strip_with, rstrip_with, lstrip_with. split.
  - intros H.
    assert (Hr : dropWhile p (rev (dropWhile p s)) = []).
    { rewrite <- (rev_involutive (dropWhile p (rev (dropWhile p s)))).
      now rewrite H. }
    clear H. induction s as [|c s IH]; [reflexivity|].
    simpl in *. destruct (p c) eqn:Hc; [now apply IH|].
    exfalso. simpl in Hr.
    destruct (dropWhile_stops p (rev s) c [] Hc) as [a' Ha'].
    rewrite Ha' in Hr. now destruct a'.
  - intros H. now rewrite (dropWhile_all _ _ H).
Qed.

(** A word without strippable characters survives [strip]. *)
Lemma strip_with_keeps (p : N -> bool) (a k b : str) :
  k <> [] ->
  (forall c, In c k -> p c = false) ->
  exists a' b', strip_with p (a ++ k ++ b) = a' ++ k ++ b'.
Proof.
  intros Hk Hp.
  destruct k as [|c k]; [congruence|]. clear Hk.
  unfold strip_with, rstrip_with, lstrip_with.
  destruct (dropWhile_stops p a c (k ++ b)) as [a' Ha'].
  { apply Hp; now left. }
  simpl app. rewrite Ha'.
  assert (Hrev : rev (a' ++ c :: k ++ b) = rev b ++ rev (c :: k) ++ rev a').
  { change (c :: k ++ b) with ((c :: k) ++ b).
    now rewrite !rev_app_distr, app_assoc. }
  rewrite Hrev.
  destruct (rev (c :: k)) as [|d r] eqn:Hr.
  { apply (f_equal (@List.length N)) in Hr. rewrite length_rev in Hr.
    discriminate. }
  assert (Hd : p d = false).
  { apply Hp. apply in_rev. rewrite Hr. now left. }
  destruct (dropWhile_stops p (rev b) d (r ++ rev a') Hd) as [b' Hb'].
  simpl app. rewrite Hb'.
  exists a', (rev b').
  change (d :: r ++ rev a') with ((d :: r) ++ rev a').
  rewrite <- Hr, !rev_app_distr, !rev_involutive.
  now rewrite <- app_assoc.
Qed.

End StrFacts.

(* ================================================================== *)
(** * The query validator *)

Section ValidatorFacts.
Context (R : PyRuntime).

Lemma upper_app (a b : str) : upper R (a ++ b) = upper R a ++ upper R b.
Proof. apply flat_map_app. Qed.

Lemma upper_of_letter (c : N) :
  ascii_isupper (ascii_upper c) = true -> upper_char R c = [ascii_upper c].
Proof.
  unfold upper_char, is_ascii, ascii_upper, ascii_isupper, ascii_islower.
  intros H. destruct (c <? 128)%N eqn:Hc; [reflexivity|].
  apply N.ltb_ge in Hc.
  destruct ((97 <=? c) && (c <=? 122))%N eqn:Hl.
  - apply andb_true_iff in Hl as [_ Hl]. apply N.leb_le in Hl. lia.
  - apply andb_true_iff in H as [_ H]. apply N.leb_le in H. lia.
Qed.

(** A word that is upper case after ASCII folding is folded by [upper]
    exactly. *)
Lemma upper_of_word (w : str) :
  forallb ascii_isupper (map ascii_upper w) = true ->
  upper R w = map ascii_upper w.
Proof.
  induction w as [|c w IH]; simpl; [reflexivity|].
  intros H. apply andb_true_iff in H as [Hc Hw].
  now rewrite (upper_of_letter _ Hc), IH.
Qed.

Lemma upper_letter_not_space (c : N) :
  ascii_isupper c = true -> isspace R c = false.
Proof.
  unfold isspace, is_ascii, ascii_isspace, ascii_isupper. intros H.
  apply andb_true_iff in H as [H1 H2].
  apply N.leb_le in H1. apply N.leb_le in H2.
  replace (c <? 128)%N with true by (symmetry; apply N.ltb_lt; lia).
  replace (c <=? 13)%N with false by (symmetry; apply N.leb_gt; lia).
  replace (c <=? 31)%N with false by (symmetry; apply N.leb_gt; lia).
  replace (c =? 32)%N with false by (symmetry; apply N.eqb_neq; lia).
  now rewrite !andb_false_r.
Qed.

Lemma keywords_upper_case :
  forallb (fun k => negb (str_eqb k []) && forallb ascii_isupper k)
          BLOCKED_KEYWORDS = true.
Proof. reflexivity. Qed.

Lemma keyword_upper_case (k : str) :
  In k BLOCKED_KEYWORDS -> k <> [] /\ forallb ascii_isupper k = true.
Proof.
  intros Hin.
  pose proof (proj1 (forallb_forall _ _) keywords_upper_case k Hin) as H.
  apply andb_true_iff in H as [Hne Hup]. split; [|exact Hup].
  intros ->. discriminate.
Qed.

(** [k] occurs in the ASCII-folded text exactly when the text has a
    stretch that reads [k] once its letters are put in upper case. *)
Lemma contains_folded (k q : str) :
  contains k (map ascii_upper q) = true <->
  exists a w b, q = a ++ w ++ b /\ map ascii_upper w = k.
Proof.
  split.
  - intros Hc. destruct (contains_inv _ _ Hc) as (a' & b' & Hq).
    apply map_eq_app in Hq as (a & wb & -> & <- & Hwb).
    apply map_eq_app in Hwb as (w & b & -> & Hw & <-).
    now exists a, w, b.
  - intros (a & w & b & -> & <-). rewrite !map_app. apply contains_app.
Qed.

(** A keyword found in the text, whatever the case of its letters, is found
    in the text as [validate_query] normalises it. *)
Lemma keyword_survives_normalisation (k q : str) :
  In k BLOCKED_KEYWORDS ->
  contains k (map ascii_upper q) = true ->
  contains k (query_upper R q) = true.
Proof.
  intros Hin Hc.
  destruct (keyword_upper_case _ Hin) as [Hne Hup].
  apply contains_folded in Hc as (a & w & b & -> & Hw).
  unfold query_upper. rewrite !upper_app.
  rewrite (upper_of_word w) by now rewrite Hw.
  rewrite Hw.
  destruct (strip_with_keeps (isspace R) (upper R a) k (upper R b) Hne)
    as (x & y & Hs).
  { intros c Hc'. apply upper_letter_not_space.
    exact (proj1 (forallb_forall _ _) Hup c Hc'). }
  unfold strip. rewrite Hs. apply contains_app.
Qed.

Lemma find_none_iff {A} (f : A -> bool) (l : list A) :
  find f l = None <-> forallb (fun x => negb (f x)) l = true.
Proof.
  induction l as [|x l IH]; simpl; [tauto|].
  destruct (f x); simpl; [split; discriminate|exact IH].
Qed.

Lemma forallb_perm {A} (f : A -> bool) (l l' : list A) :
  Permutation l l' -> forallb f l = forallb f l'.
Proof.
  intros H; induction H as [|x l l' _ IH|x y l|l l' l'' _ IH1 _ IH2]; simpl.
  - reflexivity.
  - now rewrite IH.
  - now rewrite !andb_assoc, (andb_comm (f y)).
  - congruence.
Qed.

(** The keyword loop finds nothing exactly when no keyword of the set
    occurs, in whatever order the set is iterated. *)
Lemma keyword_loop_none (text : str) :
  find (fun keyword => contains keyword text) (set_iter R BLOCKED_KEYWORDS)
    = None <->
  forallb (fun k => negb (contains k text)) BLOCKED_KEYWORDS = true.
Proof.
  rewrite find_none_iff.
  now rewrite (forallb_perm _ _ _ (set_iter_perm R BLOCKED_KEYWORDS)).
Qed.

(** The verdict on a text, rule by rule. *)
Lemma validate_query_accepts (q : str) (msg : str) :
  validate_query R (VStr q) = Ok (true, msg) <->
  msg = [] /\
  strip R q <> [] /\
  startswith (py "SELECT") (query_upper R q) = true /\
  forallb (fun k => negb (contains k (query_upper R q))) BLOCKED_KEYWORDS
    = true /\
  existsb (fun pattern => re_search R true pattern q) INJECTION_PATTERNS
    = false /\
  (count semicolon q <= 1)%nat.
Proof.
  unfold validate_query.
  destruct q as [|c q]; cbn [truthy negb].
  { split; [discriminate|]. intros (_ & H & _). now elim H. }
  destruct (strip R (c :: q)) as [|d s] eqn:Hs; cbn [truthy negb].
  { split; [discriminate|]. intros (_ & H & _). now elim H. }
  destruct (startswith (py "SELECT") (query_upper R (c :: q))); cbn [negb].
  2:{ split; [discriminate|]. intros (_ & _ & H & _). discriminate. }
  destruct (find _ _) eqn:Hf.
  { split; [discriminate|]. intros (_ & _ & _ & H & _).
    apply keyword_loop_none in H. congruence. }
  apply keyword_loop_none in Hf.
  destruct (existsb _ INJECTION_PATTERNS).
  { split; [discriminate|]. intros (_ & _ & _ & _ & H & _). discriminate. }
  destruct (Nat.ltb 1 (count semicolon (c :: q))) eqn:Hn.
  { split; [discriminate|]. intros (_ & _ & _ & _ & _ & H).
    apply Nat.ltb_lt in Hn. lia. }
  apply Nat.ltb_ge in Hn.
  split.
  - intros H. injection H as <-. repeat split; try assumption; discriminate.
  - intros (-> & _). reflexivity.
Qed.

Lemma validate_query_total (q : str) :
  exists verdict msg, validate_query R (VStr q) = Ok (verdict, msg).
Proof.
  unfold validate_query.
  destruct q as [|c q]; cbn [truthy negb]; [eauto|].
  destruct (strip R (c :: q)); cbn [negb]; [eauto|].
  destruct (startswith _ _); cbn [negb]; [|eauto].
  destruct (find _ _); [eauto|].
  destruct (existsb _ _); [eauto|].
  destruct (Nat.ltb _ _); eauto.
Qed.

End ValidatorFacts.


(* ================================================================== *)
(** * The table-name pattern *)

(** Equations between boolean range tests, by arithmetic. *)
Ltac bool_arith :=
  apply eq_true_iff_eq;
  rewrite ?orb_true_iff, ?andb_true_iff, ?N.leb_le, ?N.eqb_eq, ?N.ltb_lt;
  lia.

Section PatternFacts.
Context (R : PyRuntime).

Lemma matches_at_iff (ic : bool) (r : regex) (p : pos) :
  matches_at R ic r p = true <-> exists q, In q (ends R ic r p).
Proof.
  unfold matches_at. destruct (ends R ic r p) as [|q l].
  - split; [discriminate|]. now intros [q []].
  - split; [|reflexivity]. intros _. exists q. now left.
Qed.

Lemma repeat_step_nil (ok : N -> bool) (fuel n : nat) :
  repeat_ends (step ok) fuel (n, []) = [(n, [])].
Proof. destruct fuel; reflexivity. Qed.

Lemma repeat_step_cons (ok : N -> bool) (fuel n : nat) (c : N) (t : str) :
  repeat_ends (step ok) (S fuel) (n, c :: t) =
  (n, c :: t) ::
    (if ok c then repeat_ends (step ok) fuel (S n, t) else []).
Proof.
  change (repeat_ends (step ok) (S fuel) (n, c :: t))
    with ((n, c :: t) ::
          flat_map (repeat_ends (step ok) fuel)
            (filter (shorter (n, c :: t)) (step ok (n, c :: t)))).
  f_equal.
  change (step ok (n, c :: t)) with (if ok c then [(S n, t)] else []).
  destruct (ok c); [|reflexivity].
  cbn [filter]. unfold shorter. cbn [snd].
  rewrite (proj2 (Nat.ltb_lt (List.length t) (List.length (c :: t))))
    by (simpl; lia).
  cbn [flat_map]. apply app_nil_r.
Qed.

(** A repeat of a one-character pattern ends after any prefix whose
    characters all pass. *)
Lemma repeat_step_ends (ok : N -> bool) (t : str) :
  forall (fuel n : nat) (q : pos),
    (List.length t <= fuel)%nat ->
    In q (repeat_ends (step ok) fuel (n, t)) <->
    exists pre rest,
      t = pre ++ rest /\ forallb ok pre = true /\
      q = ((n + List.length pre)%nat, rest).
Proof.
  induction t as [|c t IH]; intros fuel n q Hfuel.
  - rewrite repeat_step_nil. simpl. split.
    + intros [<-|[]]. exists [], []. simpl. rewrite Nat.add_0_r. auto.
    + intros (pre & rest & Ht & _ & ->).
      symmetry in Ht. apply app_eq_nil in Ht as [-> ->]. simpl.
      rewrite Nat.add_0_r. now left.
  - destruct fuel as [|fuel]; [simpl in Hfuel; lia|].
    simpl in Hfuel. rewrite repeat_step_cons.
    split.
    + intros [<-|Hin].
      * exists [], (c :: t). simpl. rewrite Nat.add_0_r. auto.
      * destruct (ok c) eqn:Hc; [|now simpl in Hin].
        apply IH in Hin as (pre & rest & -> & Hpre & ->); [|lia].
        exists (c :: pre), rest. simpl. rewrite Hc, Hpre.
        repeat split. f_equal. lia.
    + intros (pre & rest & Ht & Hpre & ->).
      destruct pre as [|d pre].
      * simpl in Ht. subst rest. left. simpl. now rewrite Nat.add_0_r.
      * right. simpl in Ht. injection Ht as <- ->.
        simpl in Hpre. apply andb_true_iff in Hpre as [Hc Hpre].
        rewrite Hc.
        apply IH; [lia|]. exists pre, rest. repeat split; [assumption|].
        f_equal. simpl. lia.
Qed.

Lemma first_class_is_identifier_start (c : N) :
  class_matches false [lower_az; upper_AZ; just_underscore] c
    = identifier_start c.
Proof.
  unfold class_matches, in_ranges, identifier_start, ascii_isalpha,
    ascii_isupper, ascii_islower, lower_az, upper_AZ, just_underscore,
    underscore. cbn [existsb fst snd andb orb].
  rewrite !orb_false_r. bool_arith.
Qed.

Lemma rest_class_is_identifier_char (c : N) :
  class_matches false [lower_az; upper_AZ; digit_09; just_underscore] c
    = identifier_char c.
Proof.
  unfold class_matches, in_ranges, identifier_char, ascii_isalnum,
    ascii_isalpha, ascii_isupper, ascii_islower, ascii_isdigit, lower_az,
    upper_AZ, digit_09, just_underscore, underscore.
  cbn [existsb fst snd andb orb].
  rewrite !orb_false_r. bool_arith.
Qed.

(** The positions at which the table-name pattern can end. *)
Lemma table_name_pattern_ends (c : N) (t : str) :
  ends R false TABLE_NAME_PATTERN (O, c :: t) =
  if identifier_start c then
    flat_map (ends R false Eol)
      (repeat_ends
         (step (class_matches false
                  [lower_az; upper_AZ; digit_09; just_underscore]))
         (List.length t) (1%nat, t))
  else [].
Proof.
  rewrite <- first_class_is_identifier_start.
  transitivity
    (flat_map
       (ends R false
          (Cat (Star (Class [lower_az; upper_AZ; digit_09; just_underscore]))
             Eol))
       (if class_matches false [lower_az; upper_AZ; just_underscore] c
        then [(1%nat, t)] else []) ++ []).
  { reflexivity. }
  rewrite app_nil_r.
  destruct (class_matches false [lower_az; upper_AZ; just_underscore] c);
    [|reflexivity].
  cbn [flat_map]. rewrite app_nil_r. reflexivity.
Qed.

Lemma eol_ends (p : pos) (q : pos) :
  In q (ends R false Eol p) <->
  q = p /\ (snd p = [] \/ snd p = [newline]).
Proof.
  destruct p as [n [|d [|e rest]]]; cbn [ends snd].
  - simpl. split; [intros [<-|[]]; auto|intros [-> _]; auto].
  - unfold newline. destruct (N.eqb_spec d 10) as [->|Hd]; simpl.
    + split; [intros [<-|[]]; auto|intros [-> _]; auto].
    + split; [tauto|]. intros [_ [H|H]]; [discriminate|congruence].
  - simpl. split; [tauto|]. intros [_ [H|H]]; discriminate.
Qed.

(** What [re.match] with the table-name pattern accepts: an identifier,
    or an identifier followed by one line feed, which [$] lets pass. *)
Lemma table_name_pattern_matches (name : str) :
  re_match R false TABLE_NAME_PATTERN name = true <->
  is_identifier name = true \/
  exists stem, name = stem ++ [newline] /\ is_identifier stem = true.
Proof.
  unfold re_match. rewrite matches_at_iff.
  destruct name as [|c t].
  { split; [now intros [q []]|].
    intros [H|(stem & H & _)]; [discriminate|]. now destruct stem. }
  rewrite table_name_pattern_ends.
  cbn [is_identifier].
  destruct (identifier_start c) eqn:Hc.
  2:{ split; [now intros [q []]|].
      intros [H|(stem & H & Hs)]; [discriminate|].
      destruct stem as [|d stem]; [discriminate|].
      injection H as <- _. simpl in Hs. now rewrite Hc in Hs. }
  cbn [andb].
  assert (Hext : forall l,
             forallb (class_matches false
                        [lower_az; upper_AZ; digit_09; just_underscore]) l
             = forallb identifier_char l).
  { intros l. induction l as [|x l IHl]; [reflexivity|].
    simpl. now rewrite rest_class_is_identifier_char, IHl. }
  split.
  - intros [q Hq]. apply in_flat_map in Hq as (p & Hp & Hq).
    apply repeat_step_ends in Hp as (pre & rest & -> & Hpre & ->);
      [|lia].
    rewrite Hext in Hpre.
    apply eol_ends in Hq as [_ Hrest]. cbn [snd] in Hrest.
    destruct Hrest as [->| ->].
    + left. now rewrite app_nil_r.
    + right. exists (c :: pre). split; [reflexivity|].
      simpl. now rewrite Hc.
  - intros [Hid|(stem & Hname & Hid)].
    + exists ((1 + List.length t)%nat, []).
      apply in_flat_map. exists ((1 + List.length t)%nat, []).
      split; [|apply eol_ends; auto].
      apply repeat_step_ends; [lia|].
      exists t, []. rewrite app_nil_r, Hext. auto.
    + destruct stem as [|d stem]; [discriminate|].
      injection Hname as <- ->. simpl in Hid. rewrite Hc in Hid.
      exists ((1 + List.length stem)%nat, [newline]).
      apply in_flat_map. exists ((1 + List.length stem)%nat, [newline]).
      split; [|apply eol_ends; auto].
      apply repeat_step_ends; [lia|].
      exists stem, [newline]. rewrite Hext. auto.
Qed.

(** The verdict on a table name, rule by rule. *)
Lemma sanitize_table_name_accepts (name : str) (msg : str) :
  sanitize_table_name R (VStr name) = Ok (true, msg) <->
  msg = [] /\
  (is_identifier name = true \/
   exists stem, name = stem ++ [newline] /\ is_identifier stem = true) /\
  (List.length name <= 63)%nat.
Proof.
  rewrite <- table_name_pattern_matches.
  unfold sanitize_table_name.
  destruct name as [|c t]; cbn [truthy negb].
  { split; [discriminate|]. intros (_ & H & _). discriminate. }
  destruct (re_match R false TABLE_NAME_PATTERN (c :: t)); cbn [negb].
  2:{ split; [discriminate|]. intros (_ & H & _). discriminate. }
  destruct (Nat.ltb 63 (List.length (c :: t))) eqn:Hn.
  - apply Nat.ltb_lt in Hn. split; [discriminate|]. intros (_ & _ & H). lia.
  - apply Nat.ltb_ge in Hn. split.
    + intros H. injection H as <-. now repeat split.
    + now intros (-> & _).
Qed.

Lemma sanitize_table_name_total (name : str) :
  exists verdict msg, sanitize_table_name R (VStr name) = Ok (verdict, msg).
Proof.
  unfold sanitize_table_name.
  destruct name as [|c t]; cbn [truthy negb]; [eauto|].
  destruct (re_match _ _ _ _); cbn [negb]; [|eauto].
  destruct (Nat.ltb _ _); eauto.
Qed.

(** Every character of an accepted name is a letter, a digit or an
    underscore, except that the last one may be a line feed. *)
Lemma accepted_name_characters (name : str) (msg : str) :
  sanitize_table_name R (VStr name) = Ok (true, msg) ->
  exists stem last,
    name = stem ++ last /\ is_identifier stem = true /\
    (last = [] \/ last = [newline]).
Proof.
  intros H. apply sanitize_table_name_accepts in H as (_ & [H|H] & _).
  - exists name, []. rewrite app_nil_r. auto.
  - destruct H as (stem & -> & H). exists stem, [newline]. auto.
Qed.

End PatternFacts.

(* ================================================================== *)
(** * Credentials and connections *)

(** Unfolding the monad. *)
Ltac run :=
  unfold bind, ret, raise, lift, try_except, read, emit, history, sleep,
    set_credentials, set_connection;
  cbn [fst snd self log].

Section LifecycleFacts.
Context (R : PyRuntime) (W : World).

Lemma sleeps_app (a b : list Event) : sleeps (a ++ b) = sleeps a ++ sleeps b.
Proof. apply flat_map_app. Qed.

Lemma secret_requests_app (a b : list Event) :
  secret_requests (a ++ b) = (secret_requests a + secret_requests b)%nat.
Proof. unfold secret_requests. now rewrite filter_app, length_app. Qed.

Lemma executed_app (a b : list Event) :
  executed (a ++ b) = executed a ++ executed b.
Proof. apply flat_map_app. Qed.

Lemma fetch_secret_eq (s : St) :
  fetch_secret W s = (secret_value W (log (after_request s)), after_request s).
Proof. reflexivity. Qed.

(** One failing attempt: the last one raises, any other sleeps and goes
    round again. *)
Lemma get_secret_loop_failure (k : nat) (attempt : Z) (s : St) (e : exc) :
  secret_value W (log (after_request s)) = Raise e ->
  exc_cls e = ClientError ->
  get_secret_loop W (S k) attempt s =
  if (attempt =? max_retries (self s) - 1)%Z then
    (Raise (secret_failure (max_retries (self s)) e), after_request s)
  else
    get_secret_loop W k (attempt + 1)
      {| self := self s;
         log := log (after_request s) ++ [Sleep (2 ^ attempt)] |}.
Proof.
  intros He Hc. cbn [get_secret_loop].
  unfold try_except at 1. unfold bind at 1. rewrite fetch_secret_eq, He.
  rewrite Hc. run. cbn [after_request self].
  destruct (attempt =? max_retries (self s) - 1)%Z; reflexivity.
Qed.


End LifecycleFacts.


(* ================================================================== *)
(** * Query execution *)

Section ExecutionFacts.
Context (R : PyRuntime) (W : World).

(** [execute_query] once the connection is there and the cursor opens. *)
Lemma execute_query_connected (s s1 : St) (c : conn) (q : str)
    (params : option (list value)) (limit : value) :
  get_connection R W s = (Ok (Some c), s1) ->
  cursor W (log s1 ++ [Cursor c]) = None ->
  let s2 := after_execute s1 c (limited_query R q limit) params in
  execute_query R W (VStr q) params limit s =
  match execute W (log s2) with
  | Ok answer => (Ok (as_rows answer), s2)
  | Raise e =>
      match exc_cls e with
      | PsycopgError =>
          match rollback W (log (after_rollback s2 c)) with
          | Some e' => (Raise e', after_rollback s2 c)
          | None => (Raise (execution_failure e), after_rollback s2 c)
          end
      | _ => (Raise e, s2)
      end
  end.
Proof.
  intros Hconn Hcur s2. subst s2. unfold execute_query.
  unfold bind at 1. rewrite Hconn.
  unfold try_except, run_cursor.
  unfold bind at 1. unfold emit at 1. cbn [self log].
  unfold bind at 1. unfold history at 1. cbn [log]. rewrite Hcur.
  unfold as_query, do_rollback. run.
  cbn [after_execute after_rollback log self].
  destruct (execute W _) as [[columns rows]|e]; [reflexivity|].
  destruct (exc_cls e); try reflexivity.
  run. destruct (rollback W _); reflexivity.
Qed.

(** The log after [execute_query]: the cursor, the statement, and a
    rollback when the driver raised. *)
Lemma execute_query_log (s s1 : St) (c : conn) (q : str)
    (params : option (list value)) (limit : value) :
  get_connection R W s = (Ok (Some c), s1) ->
  cursor W (log s1 ++ [Cursor c]) = None ->
  exists tail,
    log (snd (execute_query R W (VStr q) params limit s))
      = log s1 ++
        [Cursor c; Execute c (limited_query R q limit) params] ++ tail /\
    (tail = [] \/ tail = [Rollback c]).
Proof.
  intros Hconn Hcur.
  rewrite (execute_query_connected s s1 c q params limit Hconn Hcur).
  destruct (execute W _) as [answer|e].
  - exists []. cbn [snd after_execute log]. rewrite <- app_assoc. auto.
  - destruct (exc_cls e);
      try (exists []; cbn [snd after_execute log]; rewrite <- app_assoc;
           now auto).
    destruct (rollback W _);
      exists [Rollback c]; cbn [snd after_rollback after_execute log];
      rewrite <- !app_assoc; auto.
Qed.

(** A failure to connect is a failure of [execute_query], in the same
    state. *)
Lemma execute_query_not_connected (s s' : St) (e : exc) (query : value)
    (params : option (list value)) (limit : value) :
  get_connection R W s = (Raise e, s') ->
  execute_query R W query params limit s = (Raise e, s').
Proof. intros H. unfold execute_query, bind. now rewrite H. Qed.

(** [execute_query] returns rows only if the driver answered a statement. *)
Lemma execute_query_returns (s s' : St) (query : value)
    (params : option (list value)) (limit : value) (rows : list value) :
  execute_query R W query params limit s = (Ok rows, s') ->
  exists c s1 answer,
    get_connection R W s = (Ok (Some c), s1) /\
    execute W (log s') = Ok answer /\ rows = as_rows answer.
Proof.
  unfold execute_query. unfold bind at 1.
  destruct (get_connection R W s) as [[[c|]|e] s1]; [|discriminate..].
  unfold try_except, run_cursor.
  unfold bind at 1. unfold emit at 1. cbn [self log].
  unfold bind at 1. unfold history at 1. cbn [log].
  destruct (cursor W _) as [e|].
  { unfold raise. destruct (exc_cls e); [discriminate..| |discriminate].
    unfold do_rollback. run. destruct (rollback W _); discriminate. }
  unfold bind at 1. unfold lift at 1.
  destruct (as_query query) as [q|e].
  2:{ destruct (exc_cls e); [discriminate..| |discriminate].
      unfold do_rollback. run. destruct (rollback W _); discriminate. }
  run.
  destruct (execute W _) as [[columns rows']|e] eqn:He.
  - intros H. injection H as <- <-.
    exists c, s1, (columns, rows'). repeat split. exact He.
  - destruct (exc_cls e); [discriminate..| |discriminate].
    unfold do_rollback. run. destruct (rollback W _); discriminate.
Qed.

End ExecutionFacts.

Lemma py_min_int (n m : Z) : py_min (VInt n) m = Ok (VInt (Z.min n m)).
Proof.
  unfold py_min. f_equal.
  destruct (Z.ltb_spec m n); f_equal; lia.
Qed.


(* ================================================================== *)
(** * The tools *)

Section ToolFacts.
Context (R : PyRuntime) (W : World) (config : Config).

Lemma str_eqb_eq (a b : str) : str_eqb a b = true <-> a = b.
Proof.
  unfold str_eqb. destruct (list_eq_dec N.eq_dec a b); split;
    congruence.
Qed.

Lemma failure_prefix_reported (p t : str) :
  In p FAILURE_PREFIXES ->
  reports_error (Ok (text_content (p ++ t))) = true.
Proof.
  intros Hp. cbn [reports_error text_content text].
  apply existsb_exists. exists p. split; [exact Hp|apply startswith_app].
Qed.

(** What a [try] whose handler reports the exception returns. *)
Lemma try_report (m : M (list TextContent)) (prefix : str) (s : St) :
  try_except m (fun e => ret (text_content (prefix ++ exc_msg e))) s =
  match m s with
  | (Ok a, s') => (Ok a, s')
  | (Raise e, s') => (Ok (text_content (prefix ++ exc_msg e)), s')
  end.
Proof. unfold try_except, ret. now destruct (m s) as [[a|e] s']. Qed.

Ltac reported :=
  right; left; eexists; split; [reflexivity|];
  cbn [fst]; apply failure_prefix_reported;
  vm_compute; repeat first [left; reflexivity | right].

Lemma run_select_settled (query limit : value) (s : St) :
  settled R W s (run_select R W query limit s).
Proof.
  unfold run_select. rewrite try_report. unfold bind, ret.
  destruct (execute_query R W query None limit s) as [[rows|e] s'] eqn:Hq.
  - right. right. eexists _, query, None, limit, rows.
    split; [reflexivity|exact Hq].
  - reported.
Qed.

Lemma execute_select_settled (arguments : list (str * value)) (s : St) :
  settled R W s (_execute_select R W config arguments s).
Proof.
  unfold _execute_select. unfold bind at 1. unfold lift at 1.
  destruct (py_min _ _) as [limit|e]; [|left; now exists e].
  unfold bind at 1. unfold lift at 1.
  destruct (validate_query R _) as [[[|] reason]|e]; [| |left; now exists e].
  - cbn [negb]. apply run_select_settled.
  - cbn [negb]. unfold ret. reported.
Qed.

Lemma get_tables_settled (arguments : list (str * value)) (s : St) :
  settled R W s (_get_tables R W arguments s).
Proof.
  unfold _get_tables. rewrite try_report.
  unfold get_table_names. unfold bind at 1. unfold bind at 1.
  destruct (execute_query R W _ None _ s) as [[rows|e] s'] eqn:Hq.
  - unfold lift. destruct (column R _ rows) as [tables|e].
    + unfold ret. right. right. eexists _, _, None, _, rows.
      split; [reflexivity|exact Hq].
    + reported.
  - reported.
Qed.

Lemma describe_table_settled (arguments : list (str * value)) (s : St) :
  settled R W s (_describe_table R W arguments s).
Proof.
  unfold _describe_table. unfold bind at 1. unfold lift at 1.
  destruct (sanitize_table_name R _) as [[[|] reason]|e];
    [| |left; now exists e]; cbn [negb].
  - rewrite try_report. unfold describe_table, bind, ret.
    destruct (execute_query R W _ _ _ s) as [[rows|e] s'] eqn:Hq.
    + right. right. eexists _, _, _, _, rows.
      split; [reflexivity|exact Hq].
    + reported.
  - unfold ret. reported.
Qed.

Lemma count_records_settled (arguments : list (str * value)) (s : St) :
  settled R W s (_count_records R W arguments s).
Proof.
  unfold _count_records. unfold bind at 1. unfold lift at 1.
  destruct (sanitize_table_name R _) as [[[|] reason]|e];
    [| |left; now exists e]; cbn [negb].
  - rewrite try_report. unfold count_table_records.
    unfold bind at 1. unfold bind at 1. unfold lift at 1.
    destruct (as_table_name _) as [name|e];
      [|reported].
    destruct (negb (isalnum R (remove_char underscore name)));
      [unfold raise; reported|].
    unfold bind at 1.
    destruct (execute_query R W _ _ _ s) as [[rows|e] s'] eqn:Hq;
      [|reported].
    destruct rows as [|first rest];
      [unfold raise; reported|].
    unfold lift. destruct (getitem R first _) as [n|e];
      [|reported].
    unfold ret. right. right. eexists _, _, _, _, (first :: rest).
    split; [reflexivity|exact Hq].
  - unfold ret. reported.
Qed.

(** The handler never raises: it answers with one text, which reports a
    failure unless [execute_query] returned rows. *)
Lemma handle_call_tool_settled (name : str) (arguments : list (str * value))
    (s : St) :
  let r := handle_call_tool R W config name arguments s in
  exists t,
    r = (Ok (text_content t), snd r) /\
    (reports_error (fst r) = true \/
     exists query params limit rows,
       execute_query R W query params limit s = (Ok rows, snd r)).
Proof.
  intros r. subst r. unfold handle_call_tool. rewrite try_report.
  assert (H : settled R W s
                ((if str_eqb name (py "execute_select")
                  then _execute_select R W config arguments
                  else if str_eqb name (py "get_tables")
                  then _get_tables R W arguments
                  else if str_eqb name (py "describe_table")
                  then _describe_table R W arguments
                  else if str_eqb name (py "count_records")
                  then _count_records R W arguments
                  else raise (mkExc ValueError (py "Unknown tool: " ++ name)))
                   s)).
  { destruct (str_eqb name (py "execute_select"));
      [apply execute_select_settled|].
    destruct (str_eqb name (py "get_tables")); [apply get_tables_settled|].
    destruct (str_eqb name (py "describe_table"));
      [apply describe_table_settled|].
    destruct (str_eqb name (py "count_records"));
      [apply count_records_settled|].
    left. now eexists. }
  destruct H as [(e & ->)|[(t & -> & Hrep)|(t & q & p & l & rows & -> & Hq)]].
  - eexists. split; [reflexivity|]. left.
    cbn [fst]. apply failure_prefix_reported.
    vm_compute. now left.
  - exists t. split; [reflexivity|]. now left.
  - exists t. split; [reflexivity|]. right. now exists q, p, l, rows.
Qed.

Lemma unknown_tool (name : str) (arguments : list (str * value)) (s : St) :
  is_tool name = false ->
  handle_call_tool R W config name arguments s
    = (Ok (text_content (py "Error: Unknown tool: " ++ name)), s).
Proof.
  unfold is_tool, TOOL_NAMES. cbn [existsb map]. intros H.
  rewrite orb_false_r in H.
  apply orb_false_iff in H as [H1 H]. apply orb_false_iff in H as [H2 H].
  apply orb_false_iff in H as [H3 H4].
  unfold handle_call_tool. rewrite try_report.
  rewrite H1, H2, H3, H4. reflexivity.
Qed.

End ToolFacts.


Section MoreToolFacts.
Context (R : PyRuntime) (W : World) (config : Config).

(** The texts of success do not read as failures. *)
Lemma success_not_reported (t : str) :
  reports_error
    (Ok (text_content (py "Query executed successfully. Returned " ++ t)))
    = false /\
  reports_error (Ok (text_content (py "Database tables:" ++ t))) = false /\
  reports_error (Ok (text_content (py "Schema for table '" ++ t))) = false /\
  reports_error (Ok (text_content (py "Table '" ++ t))) = false.
Proof. repeat split; reflexivity. Qed.

Lemma rejected_describe_table (arguments : list (str * value))
    (reason : str) (s : St) :
  sanitize_table_name R (get arguments (py "table_name") (VStr []))
    = Ok (false, reason) ->
  _describe_table R W arguments s
    = (Ok (text_content (py "Table name validation failed: " ++ reason)), s).
Proof.
  intros H. unfold _describe_table, bind, lift. now rewrite H.
Qed.

Lemma rejected_count_records (arguments : list (str * value))
    (reason : str) (s : St) :
  sanitize_table_name R (get arguments (py "table_name") (VStr []))
    = Ok (false, reason) ->
  _count_records R W arguments s
    = (Ok (text_content (py "Table name validation failed: " ++ reason)), s).
Proof.
  intros H. unfold _count_records, bind, lift. now rewrite H.
Qed.

Lemma dispatch_execute_select (arguments : list (str * value)) (s : St) :
  handle_call_tool R W config (py "execute_select") arguments s =
  match _execute_select R W config arguments s with
  | (Ok a, s') => (Ok a, s')
  | (Raise e, s') => (Ok (text_content (py "Error: " ++ exc_msg e)), s')
  end.
Proof. unfold handle_call_tool. now rewrite try_report. Qed.

Lemma dispatch_describe_table (arguments : list (str * value)) (s : St) :
  handle_call_tool R W config (py "describe_table") arguments s =
  match _describe_table R W arguments s with
  | (Ok a, s') => (Ok a, s')
  | (Raise e, s') => (Ok (text_content (py "Error: " ++ exc_msg e)), s')
  end.
Proof. unfold handle_call_tool. now rewrite try_report. Qed.

Lemma dispatch_count_records (arguments : list (str * value)) (s : St) :
  handle_call_tool R W config (py "count_records") arguments s =
  match _count_records R W arguments s with
  | (Ok a, s') => (Ok a, s')
  | (Raise e, s') => (Ok (text_content (py "Error: " ++ exc_msg e)), s')
  end.
Proof. unfold handle_call_tool. now rewrite try_report. Qed.

(** A rejected argument ends the call where it started, with a text that
    reports the failure. *)
Lemma rejected_arguments_reported (name : str)
    (arguments : list (str * value)) (reason : str) (s : St) :
  validation R name arguments = Ok (false, reason) ->
  let r := handle_call_tool R W config name arguments s in
  snd r = s /\ reports_error (fst r) = true.
Proof.
  intros H r. subst r. unfold validation in H.
  destruct (str_eqb name (py "execute_select")) eqn:H1.
  { apply str_eqb_eq in H1. subst name. rewrite dispatch_execute_select.
    unfold _execute_select. unfold bind at 1. unfold lift at 1.
    destruct (py_min _ _) as [limit|e].
    - unfold bind, lift. rewrite H. cbn [negb ret fst snd]. split;
        [reflexivity|].
      apply failure_prefix_reported.
      vm_compute; repeat first [left; reflexivity | right].
    - cbn [fst snd]. split; [reflexivity|].
      apply failure_prefix_reported. vm_compute. now left. }
  destruct (str_eqb name (py "describe_table")) eqn:H2.
  { apply str_eqb_eq in H2. subst name. cbn [orb] in H.
    rewrite dispatch_describe_table.
    rewrite (rejected_describe_table arguments reason s H).
    cbn [fst snd]. split; [reflexivity|].
    apply failure_prefix_reported.
    vm_compute; repeat first [left; reflexivity | right]. }
  destruct (str_eqb name (py "count_records")) eqn:H3.
  { apply str_eqb_eq in H3. subst name. cbn [orb] in H.
    rewrite dispatch_count_records.
    rewrite (rejected_count_records arguments reason s H).
    cbn [fst snd]. split; [reflexivity|].
    apply failure_prefix_reported.
    vm_compute; repeat first [left; reflexivity | right]. }
  cbn [orb] in H. discriminate.
Qed.

Lemma underscores_identifier (n : nat) :
  is_identifier (underscores (S n)) = true.
Proof.
  unfold underscores. cbn [repeat is_identifier].
  replace (identifier_start underscore) with true by reflexivity.
  cbn [andb]. induction n as [|n IH]; [reflexivity|].
  cbn [repeat forallb]. rewrite IH. reflexivity.
Qed.

Lemma underscores_removed (n : nat) :
  remove_char underscore (underscores n) = [].
Proof.
  unfold underscores, remove_char.
  induction n as [|n IH]; [reflexivity|].
  cbn [repeat filter]. rewrite N.eqb_refl. exact IH.
Qed.

End MoreToolFacts.



Section TableNameFacts.
Context (R : PyRuntime).

Lemma identifier_start_is_char (c : N) :
  identifier_start c = true -> identifier_char c = true.
Proof.
  unfold identifier_start, identifier_char, ascii_isalnum.
  intros H. apply orb_true_iff in H as [H|H]; rewrite H;
    [reflexivity|apply orb_true_r].
Qed.

Lemma identifier_start_not_digit (c : N) :
  identifier_start c = true -> ascii_isdigit c = false.
Proof.
  unfold identifier_start, ascii_isalpha, ascii_isupper, ascii_islower,
    ascii_isdigit, underscore.
  rewrite !orb_true_iff, !andb_true_iff, !N.leb_le, N.eqb_eq.
  intros H. apply andb_false_iff.
  destruct (N.leb_spec 48 c); [right; apply N.leb_gt; lia|now left].
Qed.

Lemma identifier_characters (name : str) :
  is_identifier name = true -> forallb identifier_char name = true.
Proof.
  destruct name as [|c t]; [discriminate|]. cbn [is_identifier forallb].
  intros H. apply andb_true_iff in H as [Hc Ht].
  now rewrite (identifier_start_is_char c Hc), Ht.
Qed.

(** Names the validator turns down whatever else they contain: a leading
    digit, a hyphen, a dot. *)
Lemma sanitize_table_name_rejects (name : str) :
  (exists d rest, name = d :: rest /\ ascii_isdigit d = true) \/
  In hyphen name \/ In dot name ->
  exists reason, sanitize_table_name R (VStr name) = Ok (false, reason).
Proof.
  intros Hbad.
  destruct (sanitize_table_name_total R name) as ([|] & msg & Hv); [|eauto].
  exfalso.
  apply accepted_name_characters in Hv
    as (stem & last & -> & Hid & Hlast).
  pose proof (identifier_characters stem Hid) as Hall.
  assert (Hother : forall c, identifier_char c = false -> c <> newline ->
                             ~ In c (stem ++ last)).
  { intros c Hc Hnl Hin. apply in_app_or in Hin as [Hin|Hin].
    - pose proof (proj1 (forallb_forall _ _) Hall c Hin). congruence.
    - destruct Hlast as [-> | ->]; [easy|].
      destruct Hin as [Heq|[]]. now apply Hnl. }
  destruct Hbad as [(d & rest & Hname & Hd)|[Hin|Hin]].
  - destruct stem as [|c t]; [discriminate|].
    simpl in Hname. injection Hname as -> _.
    cbn [is_identifier] in Hid. apply andb_true_iff in Hid as [Hc _].
    rewrite (identifier_start_not_digit d Hc) in Hd. discriminate.
  - now apply (Hother hyphen).
  - now apply (Hother dot).
Qed.

(** Every name of the form the pattern describes, of at most 63
    characters, is accepted. *)
Lemma sanitize_table_name_accepts_identifier (name : str) :
  is_identifier name = true -> (List.length name <= 63)%nat ->
  sanitize_table_name R (VStr name) = Ok (true, []).
Proof.
  intros Hid Hlen. apply sanitize_table_name_accepts. auto.
Qed.

End TableNameFacts.


Section SuccessFacts.
Context (R : PyRuntime) (W : World) (config : Config).

(** When the manager returns, the tool's text is not one that reports a
    failure. *)
Lemma get_tables_success (arguments : list (str * value)) (s s' : St)
    (tables : list value) :
  get_table_names R W s = (Ok tables, s') ->
  _get_tables R W arguments s
    = (Ok (text_content
             (py "Database tables:" ++ line_feed ++ repr R (VList tables))),
       s') /\
  reports_error (fst (_get_tables R W arguments s)) = false.
Proof.
  intros H. unfold _get_tables. rewrite try_report.
  unfold bind, ret. rewrite H. split; reflexivity.
Qed.

Lemma count_records_success (arguments : list (str * value)) (s s' : St)
    (name : str) (n : value) :
  get arguments (py "table_name") (VStr []) = VStr name ->
  sanitize_table_name R (VStr name) = Ok (true, []) ->
  count_table_records R W (VStr name) s = (Ok n, s') ->
  _count_records R W arguments s
    = (Ok (text_content
             (py "Table '" ++ name ++ py "' has " ++ format R n ++
              py " records")), s') /\
  reports_error (fst (_count_records R W arguments s)) = false.
Proof.
  intros Ha Hv H.
  assert (E : _count_records R W arguments s
              = (Ok (text_content
                       (py "Table '" ++ name ++ py "' has " ++ format R n ++
                        py " records")), s')).
  { unfold _count_records. rewrite Ha.
    unfold bind at 1. unfold lift at 1. rewrite Hv. cbn [negb].
    rewrite try_report. unfold bind, ret. now rewrite H. }
  rewrite E. split; reflexivity.
Qed.

Lemma run_select_success (q : str) (limit : value) (s s' : St)
    (rows : list value) :
  execute_query R W (VStr q) None limit s = (Ok rows, s') ->
  reports_error (fst (run_select R W (VStr q) limit s)) = false.
Proof.
  intros H. unfold run_select. rewrite try_report.
  unfold bind, ret. rewrite H. reflexivity.
Qed.

End SuccessFacts.


Section ReturnFacts.
Context (R : PyRuntime) (W : World).

(** When [execute_query] returns rows, the cursor opened and the statement
    it handed over is the last thing in the log. *)
Lemma execute_query_returns_state (s s' : St) (query : value)
    (params : option (list value)) (limit : value) (rows : list value) :
  execute_query R W query params limit s = (Ok rows, s') ->
  exists c s1 q answer,
    get_connection R W s = (Ok (Some c), s1) /\
    query = VStr q /\
    cursor W (log s1 ++ [Cursor c]) = None /\
    s' = after_execute s1 c (limited_query R q limit) params /\
    execute W (log s') = Ok answer.
Proof.
  unfold execute_query. unfold bind at 1.
  destruct (get_connection R W s) as [[[c|]|e] s1] eqn:Hconn;
    [|discriminate..].
  unfold try_except, run_cursor.
  unfold bind at 1. unfold emit at 1. cbn [self log].
  unfold bind at 1. unfold history at 1. cbn [log].
  destruct (cursor W _) as [e|] eqn:Hcur.
  { unfold raise. destruct (exc_cls e); [discriminate..| |discriminate].
    unfold do_rollback. run. destruct (rollback W _); discriminate. }
  unfold bind at 1. unfold lift at 1.
  destruct query as [| | |q| | |]; cbn [as_query];
    try (cbn [exc_cls]; unfold raise; discriminate).
  run.
  destruct (execute W _) as [[columns rows']|e] eqn:He.
  - intros H. injection H as <- <-.
    exists c, s1, q, (columns, rows'). repeat split; assumption.
  - destruct (exc_cls e); [discriminate..| |discriminate].
    unfold do_rollback. run. destruct (rollback W _); discriminate.
Qed.

End ReturnFacts.
(* ================================================================== *)
(** * The properties *)

Ltac pick_member := repeat first [left; reflexivity | right].

(** C1: a query that [validate_query] accepts has none of the 17 blocked
    keywords in its upper-cased, trimmed text; and a query that contains a
    blocked keyword anywhere, in any mix of upper and lower case, is
    rejected. *)
Theorem C1_blocked_keywords_rejected (R : PyRuntime) (q : str) :
  List.length BLOCKED_KEYWORDS = 17%nat /\
  (forall msg, validate_query R (VStr q) = Ok (true, msg) ->
     forall k, In k BLOCKED_KEYWORDS ->
       contains k (query_upper R q) = false) /\
  (forall k, In k BLOCKED_KEYWORDS ->
     contains k (map ascii_upper q) = true ->
     exists msg, validate_query R (VStr q) = Ok (false, msg)).
Proof.
  split; [reflexivity|]. split.
  - intros msg Hv k Hk.
    apply validate_query_accepts in Hv as (_ & _ & _ & Hb & _).
    pose proof (proj1 (forallb_forall _ _) Hb k Hk) as H.
    now apply negb_true_iff in H.
  - intros k Hk Hc.
    destruct (validate_query_total R q) as ([|] & msg & Hv); [|eauto].
    exfalso.
    apply validate_query_accepts in Hv as (_ & _ & _ & Hb & _).
    pose proof (proj1 (forallb_forall _ _) Hb k Hk) as H.
    apply negb_true_iff in H.
    now rewrite (keyword_survives_normalisation R k q Hk Hc) in H.
Qed.

Lemma C1_witness :
  contains (py "DROP") (query_upper ascii_runtime (py "select name from t"))
    = false /\
  exists msg,
    validate_query ascii_runtime
      (VStr (py "Select * from t where note = 'Drop it'")) = Ok (false, msg).
Proof.
  split.
  - apply (proj1 (proj2 (C1_blocked_keywords_rejected ascii_runtime
                           (py "select name from t"))) []).
    + vm_compute; reflexivity.
    + vm_compute; pick_member.
  - apply (proj2 (proj2 (C1_blocked_keywords_rejected ascii_runtime
                           (py "Select * from t where note = 'Drop it'")))
             (py "DROP")).
    + vm_compute; pick_member.
    + vm_compute; reflexivity.
Defined.

(** C2: for every operation name and argument mapping the handler returns
    and raises nothing.  What it returns has no error flag: failure or
    success, it is one content of type [text].  An unrecognised name is
    answered with "Error: Unknown tool: <name>" and nothing else happens;
    an argument the validator rejects, a connection that cannot be
    obtained, a cursor that cannot be opened and a statement the driver
    raises on each end in a text that reports the failure (one of the
    texts that start with [Error: ], [Query validation failed: ],
    [Query execution failed: ], [Failed to get tables: ],
    [Table name validation failed: ], [Failed to describe table: ] or
    [Failed to count records: ]). *)
Theorem C2_handler_always_answers (R : PyRuntime) (W : World)
    (config : Config) (name : str) (arguments : list (str * value))
    (s : St) :
  let r := handle_call_tool R W config name arguments s in
  (exists t, r = (Ok (text_content t), snd r)) /\
  shape (fst r) = Some [py "text"] /\
  (is_tool name = false ->
   r = (Ok (text_content (py "Error: Unknown tool: " ++ name)), s) /\
   reports_error (fst r) = true) /\
  (forall reason,
     validation R name arguments = Ok (false, reason) ->
     snd r = s /\ reports_error (fst r) = true) /\
  (forall e s',
     get_connection R W s = (Raise e, s') -> reports_error (fst r) = true) /\
  (forall c s1 e,
     get_connection R W s = (Ok (Some c), s1) ->
     cursor W (log s1 ++ [Cursor c]) = Some e ->
     reports_error (fst r) = true) /\
  (forall c s1 statement params tail e,
     get_connection R W s = (Ok (Some c), s1) ->
     log (snd r) = log s1 ++ Cursor c :: Execute c statement params :: tail ->
     execute W (log s1 ++ [Cursor c; Execute c statement params]) = Raise e ->
     reports_error (fst r) = true) /\
  ((forall h, exists e, execute W h = Raise e) ->
   reports_error (fst r) = true).
Proof.
  intros r.
  destruct (handle_call_tool_settled R W config name arguments s)
    as (t & Ht & Hcases).
  fold r in Ht, Hcases.
  split; [now exists t|].
  split; [rewrite Ht; reflexivity|].
  split; [|split; [|split; [|split; [|split]]]].
  - intros Hname. subst r.
    rewrite (unknown_tool R W config name arguments s Hname).
    split; [reflexivity|].
    cbn [fst]. change (py "Error: Unknown tool: " ++ name)
      with (py "Error: " ++ (py "Unknown tool: " ++ name)).
    apply failure_prefix_reported. vm_compute. now left.
  - intros reason Hv.
    exact (rejected_arguments_reported R W config name arguments reason s Hv).
  - intros e s' Hconn.
    destruct Hcases as [Hrep|(q & p & l & rows & Hq)]; [exact Hrep|].
    rewrite (execute_query_not_connected R W s s' e q p l Hconn) in Hq.
    discriminate.
  - intros c s1 e Hconn Hcur.
    destruct Hcases as [Hrep|(q & p & l & rows & Hq)]; [exact Hrep|].
    apply execute_query_returns_state in Hq
      as (c' & s1' & q' & answer & Hconn' & _ & Hcur' & _).
    rewrite Hconn in Hconn'. injection Hconn' as <- <-. congruence.
  - intros c s1 statement params tail e Hconn Hlog He.
    destruct Hcases as [Hrep|(q & p & l & rows & Hq)]; [exact Hrep|].
    apply execute_query_returns_state in Hq
      as (c' & s1' & q' & answer & Hconn' & _ & _ & Hs' & Hanswer).
    rewrite Hconn in Hconn'. injection Hconn' as <- <-.
    rewrite Hs' in Hlog, Hanswer. cbn [after_execute log] in Hlog, Hanswer.
    rewrite <- app_assoc in Hlog, Hanswer.
    apply app_inv_head in Hlog. cbn [app] in Hlog, Hanswer.
    injection Hlog as <- <- _. congruence.
  - intros Hdown.
    destruct Hcases as [Hrep|(q & p & l & rows & Hq)]; [exact Hrep|].
    apply execute_query_returns in Hq as (c & s1 & answer & _ & He & _).
    destruct (Hdown (log (snd r))) as (e & He'). congruence.
Qed.

Lemma C2_witness :
  (handle_call_tool ascii_runtime world_up sample_config
     (py "drop_everything") [] fresh
   = (Ok (text_content (py "Error: Unknown tool: drop_everything")), fresh) /\
   reports_error
     (fst (handle_call_tool ascii_runtime world_up sample_config
             (py "drop_everything") [] fresh)) = true) /\
  (snd (handle_call_tool ascii_runtime world_up sample_config
          (py "execute_select")
          [(py "query", VStr (py "DELETE FROM t"))] fresh) = fresh /\
   reports_error
     (fst (handle_call_tool ascii_runtime world_up sample_config
             (py "execute_select")
             [(py "query", VStr (py "DELETE FROM t"))] fresh)) = true) /\
  reports_error
    (fst (handle_call_tool ascii_runtime world_no_secret sample_config
            (py "get_tables") [] fresh)) = true /\
  reports_error
    (fst (handle_call_tool ascii_runtime world_no_cursor sample_config
            (py "get_tables") [] fresh)) = true /\
  reports_error
    (fst (handle_call_tool ascii_runtime world_missing_table sample_config
            (py "count_records")
            [(py "table_name", VStr (py "missing"))] fresh)) = true /\
  reports_error
    (fst (handle_call_tool ascii_runtime world_bad_sql sample_config
            (py "count_records")
            [(py "table_name", VStr (py "web_items"))] fresh)) = true.
Proof.
  split; [|split; [|split; [|split; [|split]]]].
  - apply (proj1 (proj2 (proj2
             (C2_handler_always_answers ascii_runtime world_up
                sample_config (py "drop_everything") [] fresh)))).
    vm_compute; reflexivity.
  - apply (proj1 (proj2 (proj2 (proj2
             (C2_handler_always_answers ascii_runtime world_up sample_config
                (py "execute_select")
                [(py "query", VStr (py "DELETE FROM t"))] fresh))))
             (py "Only SELECT queries are allowed")).
    vm_compute; reflexivity.
  - apply (proj1 (proj2 (proj2 (proj2 (proj2
             (C2_handler_always_answers ascii_runtime world_no_secret
                sample_config (py "get_tables") [] fresh)))))
             (mkExc Exception_
                (py "Failed to retrieve secret after 3 attempts: AccessDenied"))
             (snd (get_connection ascii_runtime world_no_secret fresh))).
    vm_compute; reflexivity.
  - apply (proj1 (proj2 (proj2 (proj2 (proj2 (proj2
             (C2_handler_always_answers ascii_runtime world_no_cursor
                sample_config (py "get_tables") [] fresh))))))
             7%nat (snd (get_connection ascii_runtime world_no_cursor fresh))
             lost);
      vm_compute; reflexivity.
  - apply (proj1 (proj2 (proj2 (proj2 (proj2 (proj2 (proj2
             (C2_handler_always_answers ascii_runtime world_missing_table
                sample_config (py "count_records")
                [(py "table_name", VStr (py "missing"))] fresh)))))))
             7%nat
             (snd (get_connection ascii_runtime world_missing_table fresh))
             (py "SELECT COUNT(*) as count FROM missing LIMIT 1000") None
             [Rollback 7%nat] no_such_table);
      vm_compute; reflexivity.
  - apply (proj2 (proj2 (proj2 (proj2 (proj2 (proj2 (proj2
             (C2_handler_always_answers ascii_runtime world_bad_sql
                sample_config (py "count_records")
                [(py "table_name", VStr (py "web_items"))] fresh)))))))).
    intros h. exists no_such_table. reflexivity.
Defined.

(** A call that fails and a call that succeeds, against the same database,
    return results of the same form, one content of type [text] each:
    nothing but the text tells the failure from the success. *)
Lemma C2_counterexample :
  shape (fst (handle_call_tool ascii_runtime world_missing_table
                sample_config (py "count_records")
                [(py "table_name", VStr (py "missing"))] fresh))
  = Some [py "text"] /\
  shape (fst (handle_call_tool ascii_runtime world_missing_table
                sample_config (py "count_records")
                [(py "table_name", VStr (py "web_items"))] fresh))
  = Some [py "text"] /\
  fst (handle_call_tool ascii_runtime world_missing_table sample_config
         (py "count_records") [(py "table_name", VStr (py "missing"))] fresh)
  = Ok (text_content
          (py "Failed to count records: Query execution failed: relation does not exist"))
  /\
  fst (handle_call_tool ascii_runtime world_missing_table sample_config
         (py "count_records") [(py "table_name", VStr (py "web_items"))]
         fresh)
  = Ok (text_content (py "Table 'web_items' has 42 records")).
Proof. repeat split; vm_compute; reflexivity. Qed.

(** C3: [_execute_select] runs an accepted query with the smaller of the
    requested limit (1000 when the caller gives none) and the configured
    maximum; when the query has no LIMIT of its own that number is the one
    appended to the statement sent to the database. *)
Theorem C3_limit_is_clamped (R : PyRuntime) (W : World) (config : Config)
    (arguments : list (str * value)) (q : str) (n : Z) (s : St) :
  get arguments (py "query") (VStr []) = VStr q ->
  validate_query R (VStr q) = Ok (true, []) ->
  get arguments (py "limit") (VInt 1000) = VInt n ->
  let limit := Z.min n (max_query_rows config) in
  (dict_get arguments (py "limit") = None -> n = 1000%Z) /\
  _execute_select R W config arguments s
    = run_select R W (VStr q) (VInt limit) s /\
  (forall c s1,
     get_connection R W s = (Ok (Some c), s1) ->
     cursor W (log s1 ++ [Cursor c]) = None ->
     contains (py "LIMIT") (upper R (rstrip_char semicolon (strip R q)))
       = false ->
     executed (log (snd (_execute_select R W config arguments s)))
       = executed (log s1) ++
         [rstrip_char semicolon (strip R q) ++ py " LIMIT " ++
          str_of_Z limit]).
Proof.
  intros Hq Hv Hn limit.
  assert (Hrun : _execute_select R W config arguments s
                 = run_select R W (VStr q) (VInt limit) s).
  { unfold _execute_select. rewrite Hq, Hn, py_min_int, Hv. reflexivity. }
  split; [|split].
  - intros Hnone. unfold get in Hn. rewrite Hnone in Hn. congruence.
  - exact Hrun.
  - intros c s1 Hconn Hcur Hno.
    rewrite Hrun.
    destruct (execute_query_log R W s s1 c q None (VInt limit) Hconn Hcur)
      as (tail & Hlog & Htail).
    assert (Hsame : log (snd (run_select R W (VStr q) (VInt limit) s))
                    = log (snd (execute_query R W (VStr q) None
                                  (VInt limit) s))).
    { unfold run_select, try_except, bind, ret.
      destruct (execute_query R W (VStr q) None (VInt limit) s) as [[rows|e] s'];
        reflexivity. }
    rewrite Hsame, Hlog. unfold limited_query. rewrite Hno. cbn [negb format].
    rewrite !executed_app.
    destruct Htail as [-> | ->]; cbn [executed flat_map app];
      now rewrite ?app_nil_r.
Qed.

Lemma C3_witness :
  executed
    (log (snd (_execute_select ascii_runtime world_up sample_config
                 [(py "query", VStr (py "SELECT * FROM t"));
                  (py "limit", VInt 5000)] fresh)))
    = [py "SELECT * FROM t LIMIT 1000"].
Proof.
  apply (proj2 (proj2 (C3_limit_is_clamped ascii_runtime world_up
                         sample_config
                         [(py "query", VStr (py "SELECT * FROM t"));
                          (py "limit", VInt 5000)]
                         (py "SELECT * FROM t") 5000 fresh
                         eq_refl eq_refl eq_refl))
           7%nat (snd (get_connection ascii_runtime world_up fresh)));
    vm_compute; reflexivity.
Defined.




Import ListNotations.

(** C5, where the code departs from it: "a" followed by a line feed is not
    of the form letter-or-underscore then letters, digits and underscores,
    yet [sanitize_table_name] accepts it, because [$] also matches before a
    final line feed; the check inside [count_table_records] turns the same
    name down. *)
Theorem C5_trailing_newline_accepted (R : PyRuntime) :
  is_identifier (py "a" ++ [newline]) = false /\
  sanitize_table_name R (VStr (py "a" ++ [newline])) = Ok (true, []) /\
  isalnum R (remove_char underscore (py "a" ++ [newline])) = false.
Proof.
  split; [reflexivity|]. split; [|reflexivity].
  apply sanitize_table_name_accepts. split; [reflexivity|]. split.
  - right. exists (py "a"). split; reflexivity.
  - vm_compute. lia.
Qed.

(** C6: an empty or whitespace-only query is rejected as an empty query; a
    query whose upper-cased, trimmed text does not start with SELECT is
    rejected; so an accepted query is not empty, not blank, and starts with
    SELECT once upper-cased and trimmed. *)
Theorem C6_empty_and_non_select_rejected (R : PyRuntime) (q : str) :
  (forallb (isspace R) q = true ->
     validate_query R (VStr q) = Ok (false, py "Empty query not allowed")) /\
  (startswith (py "SELECT") (query_upper R q) = false ->
     exists msg, validate_query R (VStr q) = Ok (false, msg)) /\
  (forall msg, validate_query R (VStr q) = Ok (true, msg) ->
     q <> [] /\ forallb (isspace R) q = false /\
     startswith (py "SELECT") (query_upper R q) = true).
Proof.
  split; [|split].
  - intros Hb. apply strip_with_nil in Hb.
    unfold validate_query.
    destruct q as [|c q]; [reflexivity|].
    cbn [truthy negb]. unfold strip. now rewrite Hb.
  - intros Hs.
    destruct (validate_query_total R q) as ([|] & msg & Hv); [|eauto].
    apply validate_query_accepts in Hv as (_ & _ & Hs' & _). congruence.
  - intros msg Hv.
    apply validate_query_accepts in Hv as (_ & Hne & Hs & _).
    repeat split; [| |exact Hs].
    + intros ->. now apply Hne.
    + destruct (forallb (isspace R) q) eqn:Hb; [|reflexivity].
      apply strip_with_nil in Hb. now elim Hne.
Qed.

Lemma C6_witness :
  validate_query ascii_runtime (VStr (py "   "))
    = Ok (false, py "Empty query not allowed") /\
  (exists msg,
     validate_query ascii_runtime (VStr (py "show tables")) = Ok (false, msg)) /\
  (forallb (isspace ascii_runtime) (py " select 1") = false /\
   startswith (py "SELECT") (query_upper ascii_runtime (py " select 1"))
     = true).
Proof.
  split; [|split].
  - apply (proj1 (C6_empty_and_non_select_rejected ascii_runtime (py "   "))).
    vm_compute; reflexivity.
  - apply (proj1 (proj2 (C6_empty_and_non_select_rejected ascii_runtime
                           (py "show tables")))).
    vm_compute; reflexivity.
  - apply (proj2 (proj2 (C6_empty_and_non_select_rejected ascii_runtime
                           (py " select 1"))) []).
    vm_compute; reflexivity.
Defined.

(** C7: [execute_query] strips surrounding whitespace and then trailing
    semicolons; if the upper-cased result does not contain LIMIT it appends
    " LIMIT n" with the limit it was given, and if it contains LIMIT
    anywhere the text goes to the database as trimmed, with no second
    limit.  This is the one statement the call executes. *)
Theorem C7_limit_appended_when_absent (R : PyRuntime) (W : World)
    (s s1 : St) (c : conn) (q : str) (params : option (list value))
    (limit : value) :
  get_connection R W s = (Ok (Some c), s1) ->
  cursor W (log s1 ++ [Cursor c]) = None ->
  let trimmed := rstrip_char semicolon (strip R q) in
  let sent :=
    if contains (py "LIMIT") (upper R trimmed) then trimmed
    else trimmed ++ py " LIMIT " ++ format R limit in
  let s' := snd (execute_query R W (VStr q) params limit s) in
  executed (log s') = executed (log s1) ++ [sent] /\
  In (Execute c sent params) (log s').
Proof.
  intros Hconn Hcur trimmed sent s'.
  assert (Hsent : limited_query R q limit = sent).
  { unfold limited_query. fold trimmed. subst sent.
    now destruct (contains (py "LIMIT") (upper R trimmed)). }
  destruct (execute_query_log R W s s1 c q params limit Hconn Hcur)
    as (tail & Hlog & Htail).
  fold s' in Hlog. rewrite Hsent in Hlog. rewrite Hlog. split.
  - rewrite !executed_app.
    destruct Htail as [-> | ->]; cbn [executed flat_map app];
      now rewrite ?app_nil_r.
  - apply in_or_app. right. right. now left.
Qed.

Lemma C7_witness :
  (executed (log (snd (execute_query ascii_runtime world_up
                         (VStr (py "  SELECT * FROM t LIMIT 5000; "))
                         None (VInt 10) fresh)))
     = [py "SELECT * FROM t LIMIT 5000"]) /\
  (executed (log (snd (execute_query ascii_runtime world_up
                         (VStr (py "SELECT * FROM t;;"))
                         None (VInt 10) fresh)))
     = [py "SELECT * FROM t LIMIT 10"]).
Proof.
  split.
  - apply (C7_limit_appended_when_absent ascii_runtime world_up fresh
             (snd (get_connection ascii_runtime world_up fresh)) 7%nat
             (py "  SELECT * FROM t LIMIT 5000; ") None (VInt 10));
      vm_compute; reflexivity.
  - apply (C7_limit_appended_when_absent ascii_runtime world_up fresh
             (snd (get_connection ascii_runtime world_up fresh)) 7%nat
             (py "SELECT * FROM t;;") None (VInt 10));
      vm_compute; reflexivity.
Defined.

(** C8: when [sanitize_table_name] rejects the name, [describe_table] and
    [count_records] answer "Table name validation failed: " followed by the
    reason and leave the manager and the log of outside calls exactly as
    they were: no secret is fetched, no connection opened, no statement
    run. *)
Theorem C8_rejected_name_touches_nothing (R : PyRuntime) (W : World)
    (config : Config) (arguments : list (str * value)) (reason : str)
    (s : St) :
  sanitize_table_name R (get arguments (py "table_name") (VStr []))
    = Ok (false, reason) ->
  let answer :=
    (Ok (text_content (py "Table name validation failed: " ++ reason)), s) in
  _describe_table R W arguments s = answer /\
  _count_records R W arguments s = answer /\
  handle_call_tool R W config (py "describe_table") arguments s = answer /\
  handle_call_tool R W config (py "count_records") arguments s = answer.
Proof.
  intros H answer. subst answer.
  pose proof (rejected_describe_table R W arguments reason s H) as Hd.
  pose proof (rejected_count_records R W arguments reason s H) as Hc.
  repeat split; try assumption.
  - rewrite dispatch_describe_table. now rewrite Hd.
  - rewrite dispatch_count_records. now rewrite Hc.
Qed.

Lemma C8_witness :
  _describe_table ascii_runtime world_up
    [(py "table_name", VStr (py "public.users"))] fresh
    = (Ok (text_content
             (py "Table name validation failed: Invalid table name format")),
       fresh) /\
  handle_call_tool ascii_runtime world_up sample_config (py "count_records")
    [(py "table_name", VStr (py "1st-table"))] fresh
    = (Ok (text_content
             (py "Table name validation failed: Invalid table name format")),
       fresh).
Proof.
  split.
  - apply (C8_rejected_name_touches_nothing ascii_runtime world_up
             sample_config [(py "table_name", VStr (py "public.users"))]
             (py "Invalid table name format") fresh).
    vm_compute; reflexivity.
  - apply (C8_rejected_name_touches_nothing ascii_runtime world_up
             sample_config [(py "table_name", VStr (py "1st-table"))]
             (py "Invalid table name format") fresh).
    vm_compute; reflexivity.
Defined.

(** C9: [validate_query] accepts "SELECT 1; SELECT 2", two statements
    separated by one semicolon; the multiple-statement rule fires only on a
    text with more than one semicolon. *)
Theorem C9_two_statements_accepted (R : PyRuntime) :
  validate_query R (VStr two_statements) = Ok (true, []) /\
  count semicolon two_statements = 1%nat /\
  (forall q,
     validate_query R (VStr q)
       = Ok (false, py "Multiple statements not allowed") ->
     (1 < count semicolon q)%nat).
Proof.
  split; [|split].
  - apply validate_query_accepts.
    split; [reflexivity|]. split; [vm_compute; discriminate|].
    repeat split; vm_compute; reflexivity.
  - reflexivity.
  - intros q. unfold validate_query.
    destruct q as [|c q]; cbn [truthy negb]; [discriminate|].
    destruct (strip R (c :: q)); cbn [negb]; [discriminate|].
    destruct (startswith _ _); cbn [negb]; [|discriminate].
    destruct (find _ _); [discriminate|].
    destruct (existsb _ _); [discriminate|].
    destruct (Nat.ltb 1 (count semicolon (c :: q))) eqn:Hn; [|discriminate].
    intros _. now apply Nat.ltb_lt.
Qed.

Lemma C9_witness : (1 < count semicolon (py "SELECT 1;;"))%nat.
Proof.
  apply (proj2 (proj2 (C9_two_statements_accepted ascii_runtime))).
  vm_compute; reflexivity.
Defined.

(** C10, as the code has it: a name of 1 to 63 underscores passes
    [sanitize_table_name], and [count_table_records] then raises
    ValueError("Invalid table name") from its own check before any query is
    built, so [count_records] answers "Failed to count records: Invalid
    table name" and nothing outside is called. *)
Theorem C10_underscore_names (R : PyRuntime) (W : World)
    (arguments : list (str * value)) (n : nat) (s : St) :
  (1 <= n <= 63)%nat ->
  get arguments (py "table_name") (VStr []) = VStr (underscores n) ->
  sanitize_table_name R (VStr (underscores n)) = Ok (true, []) /\
  count_table_records R W (VStr (underscores n)) s
    = (Raise (mkExc ValueError (py "Invalid table name")), s) /\
  _count_records R W arguments s
    = (Ok (text_content (py "Failed to count records: Invalid table name")),
       s).
Proof.
  intros Hn Harg.
  assert (Hs : sanitize_table_name R (VStr (underscores n)) = Ok (true, [])).
  { apply sanitize_table_name_accepts. split; [reflexivity|]. split.
    - left. destruct n as [|n]; [lia|]. apply underscores_identifier.
    - unfold underscores. rewrite repeat_length. lia. }
  assert (Hc : count_table_records R W (VStr (underscores n)) s
               = (Raise (mkExc ValueError (py "Invalid table name")), s)).
  { unfold count_table_records, bind, lift. cbn [as_table_name].
    rewrite underscores_removed. reflexivity. }
  repeat split; try assumption.
  unfold _count_records. rewrite Harg. unfold bind at 1. unfold lift at 1.
  rewrite Hs. cbn [negb]. rewrite try_report.
  unfold bind at 1. rewrite Hc. reflexivity.
Qed.

Lemma C10_witness :
  sanitize_table_name ascii_runtime (VStr (underscores 1)) = Ok (true, []) /\
  count_table_records ascii_runtime world_up (VStr (underscores 1)) fresh
    = (Raise (mkExc ValueError (py "Invalid table name")), fresh) /\
  _count_records ascii_runtime world_up
    [(py "table_name", VStr (py "_"))] fresh
    = (Ok (text_content (py "Failed to count records: Invalid table name")),
       fresh).
Proof.
  apply (C10_underscore_names ascii_runtime world_up
           [(py "table_name", VStr (py "_"))] 1 fresh).
  - lia.
  - reflexivity.
Defined.

(** A name of 64 underscores consists only of underscores and is not
    accepted. *)
Lemma C10_counterexample :
  forallb (N.eqb underscore) (underscores 64) = true /\
  sanitize_table_name ascii_runtime (VStr (underscores 64))
    = Ok (false, py "Table name too long").
Proof. split; vm_compute; reflexivity. Qed.


(* ================================================================== *)
(** * Further properties of the validator *)

Section LiteralPatterns.
Context (R : PyRuntime).

Lemma contains_map (f : N -> N) (w q : str) :
  contains w q = true -> contains (map f w) (map f q) = true.
Proof.
  intros H. destruct (contains_inv _ _ H) as (a & b & ->).
  rewrite !map_app. apply contains_app.
Qed.

Lemma ascii_lower_ascii (c : N) : is_ascii (ascii_lower c) = is_ascii c.
Proof.
  unfold is_ascii, ascii_lower, ascii_isupper.
  destruct ((65 <=? c) && (c <=? 90))%N eqn:H; [|reflexivity].
  apply andb_true_iff in H as [H1 H2].
  apply N.leb_le in H1. apply N.leb_le in H2.
  rewrite (proj2 (N.ltb_lt (c + 32) 128)) by lia.
  symmetry. apply N.ltb_lt. lia.
Qed.

(** Under [re.IGNORECASE] an ASCII literal matches every character that
    folds to the same lower-case letter. *)
Lemma lit_matches_folded (l c : N) :
  is_ascii l = true -> ascii_lower c = ascii_lower l ->
  lit_matches R true l c = true.
Proof.
  intros Hl Hc. unfold lit_matches.
  assert (Hasc : is_ascii c = true).
  { rewrite <- ascii_lower_ascii, Hc, ascii_lower_ascii. exact Hl. }
  rewrite Hasc, Hc. apply N.eqb_refl.
Qed.

(** A literal word matches where the subject reads the same up to case. *)
Lemma lits_match (w v rest : str) (n : nat) :
  forallb is_ascii w = true ->
  map ascii_lower v = map ascii_lower w ->
  In ((n + List.length v)%nat, rest) (ends R true (lits w) (n, v ++ rest)).
Proof.
  revert v n. induction w as [|l w IH]; intros v n Hw Hv.
  - destruct v; [|discriminate]. simpl. rewrite Nat.add_0_r. now left.
  - destruct v as [|c v]; [discriminate|].
    simpl in Hv. injection Hv as Hc Hv.
    simpl in Hw. apply andb_true_iff in Hw as [Hl Hw].
    change (lits (l :: w)) with (Cat (Lit l) (lits w)).
    cbn [ends]. apply in_flat_map.
    exists (S n, v ++ rest). split.
    + unfold step. cbn [snd app]. rewrite (lit_matches_folded l c Hl Hc).
      now left.
    + replace (n + List.length (c :: v))%nat
        with (S n + List.length v)%nat by (simpl; lia).
      now apply IH.
Qed.

Lemma search_from_later (r : regex) (a rest : str) (n : nat) :
  matches_at R true r ((n + List.length a)%nat, rest) = true ->
  search_from R true r n (a ++ rest) = true.
Proof.
  revert n. induction a as [|c a IH]; intros n H.
  - simpl in H. rewrite Nat.add_0_r in H.
    destruct rest; simpl; rewrite H; reflexivity.
  - simpl app. cbn [search_from]. apply orb_true_iff. right.
    apply IH. now replace (S n + List.length a)%nat
      with (n + List.length (c :: a))%nat by (simpl; lia).
Qed.

(** [re.search] finds a literal word wherever the text contains it, in any
    mix of upper and lower case. *)
Lemma search_literal (w q : str) :
  forallb is_ascii w = true ->
  contains (map ascii_lower w) (map ascii_lower q) = true ->
  re_search R true (lits w) q = true.
Proof.
  intros Hw Hc. destruct (contains_inv _ _ Hc) as (a' & b' & Hq).
  apply map_eq_app in Hq as (a & vb & -> & <- & Hvb).
  apply map_eq_app in Hvb as (v & b & -> & Hv & <-).
  unfold re_search. apply search_from_later.
  apply matches_at_iff. eexists. apply (lits_match w v b _ Hw Hv).
Qed.

End LiteralPatterns.


(** X1: [sanitize_table_name] accepts exactly the names of at most 63
    characters that are a letter or underscore followed by letters, digits
    and underscores, or such a name followed by one line feed. *)
Theorem X1_table_name_acceptance (R : PyRuntime) (name : str) :
  sanitize_table_name R (VStr name) = Ok (true, []) <->
  (is_identifier name = true \/
   exists stem, name = stem ++ [newline] /\ is_identifier stem = true) /\
  (List.length name <= 63)%nat.
Proof.
  rewrite sanitize_table_name_accepts. split.
  - now intros (_ & H).
  - intros H. now split.
Qed.

(** X2: a name with a leading digit, or with any character other than a
    letter, a digit, an underscore or a line feed (a hyphen, a dot, a
    space, a quote, a semicolon), or with more than 63 characters, is
    rejected by [sanitize_table_name]. *)
Theorem X2_table_name_rejections (R : PyRuntime) (name : str) :
  (exists d rest, name = d :: rest /\ ascii_isdigit d = true) \/
  (exists c, In c name /\ identifier_char c = false /\
             (c =? newline)%N = false) \/
  (63 < List.length name)%nat ->
  exists reason, sanitize_table_name R (VStr name) = Ok (false, reason).
Proof.
  intros Hbad.
  destruct (sanitize_table_name_total R name) as ([|] & msg & Hv); [|eauto].
  exfalso.
  pose proof (proj1 (sanitize_table_name_accepts R name msg) Hv)
    as (_ & _ & Hlen).
  apply accepted_name_characters in Hv as (stem & last & -> & Hid & Hlast).
  pose proof (identifier_characters stem Hid) as Hall.
  destruct Hbad as [(d & rest & Hname & Hd)|[(c & Hin & Hc & Hnl)|Hlong]].
  - destruct stem as [|c t]; [discriminate|].
    simpl in Hname. injection Hname as -> _.
    cbn [is_identifier] in Hid. apply andb_true_iff in Hid as [Hc _].
    rewrite (identifier_start_not_digit d Hc) in Hd. discriminate.
  - apply in_app_or in Hin as [Hin|Hin].
    + pose proof (proj1 (forallb_forall _ _) Hall c Hin). congruence.
    + destruct Hlast as [-> | ->]; [easy|].
      destruct Hin as [<-|[]]. now rewrite N.eqb_refl in Hnl.
  - lia.
Qed.

Lemma X2_witness :
  (exists reason,
     sanitize_table_name ascii_runtime (VStr (py "9lives")) = Ok (false, reason)) /\
  (exists reason,
     sanitize_table_name ascii_runtime (VStr (py "users; DROP TABLE users"))
       = Ok (false, reason)).
Proof.
  split.
  - apply (X2_table_name_rejections ascii_runtime (py "9lives")).
    left. exists 57%N, (py "lives"). split; reflexivity.
  - apply (X2_table_name_rejections ascii_runtime
             (py "users; DROP TABLE users")).
    right. left. exists semicolon. repeat split.
    vm_compute. repeat first [left; reflexivity | right].
Defined.

(** X3: [validate_query] rejects every text that contains the comment
    marker [--], or the procedure names [xp_cmdshell] or [sp_executesql] in
    any mix of upper and lower case, or more than one semicolon. *)
Theorem X3_markers_rejected (R : PyRuntime) (q : str) :
  contains (py "--") q = true \/
  contains (py "xp_cmdshell") (map ascii_lower q) = true \/
  contains (py "sp_executesql") (map ascii_lower q) = true \/
  (1 < count semicolon q)%nat ->
  exists msg, validate_query R (VStr q) = Ok (false, msg).
Proof.
  intros Hbad.
  destruct (validate_query_total R q) as ([|] & msg & Hv); [|eauto].
  exfalso.
  apply validate_query_accepts in Hv as (_ & _ & _ & _ & Hpat & Hsemi).
  assert (Hnone : forall p, In p INJECTION_PATTERNS ->
                            re_search R true p q = false).
  { intros p Hp. destruct (re_search R true p q) eqn:E; [|reflexivity].
    assert (existsb (fun pattern => re_search R true pattern q)
              INJECTION_PATTERNS = true)
      by (apply existsb_exists; now exists p).
    congruence. }
  destruct Hbad as [H|[H|[H|H]]].
  - apply (contains_map ascii_lower) in H.
    apply (search_literal R (py "--")) in H; [|reflexivity].
    rewrite Hnone in H; [discriminate|].
    unfold INJECTION_PATTERNS. right. now left.
  - apply (search_literal R (py "xp_cmdshell")) in H; [|reflexivity].
    rewrite Hnone in H; [discriminate|].
    unfold INJECTION_PATTERNS. do 6 right. now left.
  - apply (search_literal R (py "sp_executesql")) in H; [|reflexivity].
    rewrite Hnone in H; [discriminate|].
    unfold INJECTION_PATTERNS. do 7 right. now left.
  - lia.
Qed.

Lemma X3_witness :
  (exists msg,
     validate_query ascii_runtime (VStr (py "SELECT 1 -- rest")) = Ok (false, msg)) /\
  (exists msg,
     validate_query ascii_runtime (VStr (py "SELECT XP_CmdShell")) = Ok (false, msg)) /\
  (exists msg,
     validate_query ascii_runtime (VStr (py "SELECT 1; SELECT 2;")) = Ok (false, msg)).
Proof.
  split; [|split].
  - apply (X3_markers_rejected ascii_runtime (py "SELECT 1 -- rest")).
    left. vm_compute; reflexivity.
  - apply (X3_markers_rejected ascii_runtime (py "SELECT XP_CmdShell")).
    right. left. vm_compute; reflexivity.
  - apply (X3_markers_rejected ascii_runtime (py "SELECT 1; SELECT 2;")).
    right. right. right. vm_compute. lia.
Defined.




(* ================================================================== *)
(** * Further properties of the credential store *)

Section SecretFacts.
Context (W : World).


Lemma backoff_cons (attempt : Z) (k : nat) :
  backoff attempt (S k) = (2 ^ attempt)%Z :: backoff (attempt + 1) k.
Proof.
  unfold backoff. cbn [seq map]. rewrite Z.add_0_r. f_equal.
  rewrite <- seq_shift, map_map. apply map_ext. intros i. f_equal. lia.
Qed.



(** One attempt that is answered. *)
Lemma get_secret_loop_answer (k : nat) (attempt : Z) (s : St) (v : value) :
  secret_value W (log (after_request s)) = Ok v ->
  get_secret_loop W (S k) attempt s
  = (Ok v, {| self := with_credentials (self s) v;
              log := log (after_request s) |}).
Proof.
  intros Hv. cbn [get_secret_loop].
  unfold try_except. unfold bind at 1. rewrite fetch_secret_eq, Hv.
  reflexivity.
Qed.

(** One attempt that fails with something else than a client error. *)
Lemma get_secret_loop_other (k : nat) (attempt : Z) (s : St) (e : exc) :
  secret_value W (log (after_request s)) = Raise e ->
  exc_class_eqb (exc_cls e) ClientError = false ->
  get_secret_loop W (S k) attempt s = (Raise e, after_request s).
Proof.
  intros He Hc. cbn [get_secret_loop].
  unfold try_except. unfold bind at 1. rewrite fetch_secret_eq, He.
  destruct (exc_cls e); try reflexivity. discriminate.
Qed.

(** [k] refusals, then an answer. *)
Lemma get_secret_loop_succeeds (v : value) (base : nat) :
  forall (k : nat) (remaining : nat) (attempt : Z) (s : St),
    (k < remaining)%nat ->
    (attempt + Z.of_nat k < max_retries (self s))%Z ->
    (forall h, (secret_requests h <= base + k)%nat ->
               exists e, secret_value W h = Raise e /\
                         exc_cls e = ClientError) ->
    (forall h, secret_requests h = (base + S k)%nat ->
               secret_value W h = Ok v) ->
    secret_requests (log s) = base ->
    exists s',
      get_secret_loop W remaining attempt s = (Ok v, s') /\
      self s' = with_credentials (self s) v /\
      sleeps (log s') = sleeps (log s) ++ backoff attempt k /\
      secret_requests (log s') = (base + S k)%nat.
Proof.
  intros k. revert base.
  induction k as [|k IH]; intros base remaining attempt s Hrem Hn Hfail Hok Hb.
  - destruct remaining as [|remaining]; [lia|].
    assert (Hreq : secret_requests (log (after_request s)) = (base + 1)%nat).
    { cbn [after_request log]. rewrite secret_requests_app, Hb. reflexivity. }
    rewrite (get_secret_loop_answer remaining attempt s v)
      by (apply Hok; lia).
    eexists. split; [reflexivity|]. cbn [self log]. repeat split.
    + cbn [after_request log]. rewrite sleeps_app. reflexivity.
    + rewrite Hreq. lia.
  - destruct remaining as [|remaining]; [lia|].
    assert (Hreq : secret_requests (log (after_request s)) = (base + 1)%nat).
    { cbn [after_request log]. rewrite secret_requests_app, Hb. reflexivity. }
    destruct (Hfail (log (after_request s))) as (e & He & Hc); [lia|].
    rewrite (get_secret_loop_failure W remaining attempt s e He Hc).
    replace (attempt =? max_retries (self s) - 1)%Z with false
      by (symmetry; apply Z.eqb_neq; lia).
    destruct (IH (base + 1)%nat remaining (attempt + 1)%Z
                {| self := self s;
                   log := log (after_request s) ++ [Sleep (2 ^ attempt)] |})
      as (s' & Hrun & Hself & Hsleeps & Hcount).
    + lia.
    + cbn [self]. lia.
    + intros h Hh. apply Hfail. lia.
    + intros h Hh. apply Hok. lia.
    + cbn [log]. rewrite secret_requests_app, Hreq. cbn. lia.
    + exists s'. split; [exact Hrun|]. cbn [self log] in *. repeat split.
      * exact Hself.
      * rewrite Hsleeps. cbn [after_request log].
        rewrite !sleeps_app. cbn [sleeps flat_map app].
        rewrite <- !app_assoc. cbn [app]. now rewrite backoff_cons.
      * rewrite Hcount. lia.
Qed.

(** What the loop returns is what it stored, unless it fell out with
    [None]. *)
Lemma get_secret_loop_stores :
  forall (remaining : nat) (attempt : Z) (s s1 : St) (v : value),
    get_secret_loop W remaining attempt s = (Ok v, s1) ->
    v = VNone \/ _db_credentials (self s1) = v.
Proof.
  induction remaining as [|remaining IH]; intros attempt s s1 v.
  - cbn [get_secret_loop]. unfold ret. intros H. injection H as <- _.
    now left.
  - cbn [get_secret_loop]. unfold try_except. unfold bind at 1.
    rewrite fetch_secret_eq.
    destruct (secret_value W (log (after_request s))) as [v'|e].
    + run. intros H. injection H as <- <-. now right.
    + destruct (exc_cls e); try (unfold raise; discriminate).
      run. destruct (attempt =? max_retries (self (after_request s)) - 1)%Z;
        [discriminate|].
      intros H. eapply IH. exact H.
Qed.

End SecretFacts.



(** X6: when the first [k] requests for the secret are refused with a
    client error and the next one is answered, with more than [k] attempts
    allowed, [get_secret] returns the answer, stores it in
    [_db_credentials], and has slept 1, 2, ..., [2 ^ (k - 1)] seconds
    between its [k + 1] requests. *)
Theorem X6_secret_after_refusals (W : World) (s : St) (k : nat) (v : value) :
  (Z.of_nat k < max_retries (self s))%Z ->
  truthy (_db_credentials (self s)) = false ->
  (forall h, (secret_requests h <= secret_requests (log s) + k)%nat ->
             exists e, secret_value W h = Raise e /\ exc_cls e = ClientError) ->
  (forall h, secret_requests h = (secret_requests (log s) + S k)%nat ->
             secret_value W h = Ok v) ->
  exists s',
    get_secret W s = (Ok v, s') /\
    self s' = with_credentials (self s) v /\
    sleeps (log s') = sleeps (log s) ++ backoff 0 k /\
    secret_requests (log s') = (secret_requests (log s) + S k)%nat.
Proof.
  intros Hn Hcache Hfail Hok.
  unfold get_secret. unfold bind at 1. unfold read at 1. rewrite Hcache.
  unfold bind at 1. unfold read at 1.
  apply (get_secret_loop_succeeds W v (secret_requests (log s)) k);
    try assumption; try reflexivity; lia.
Qed.

Lemma X6_witness :
  exists s',
    get_secret world_slow_secret fresh = (Ok sample_secret, s') /\
    self s' = with_credentials (self fresh) sample_secret /\
    sleeps (log s') = sleeps (log fresh) ++ backoff 0 2 /\
    secret_requests (log s') = (secret_requests (log fresh) + 3)%nat.
Proof.
  apply (X6_secret_after_refusals world_slow_secret fresh 2 sample_secret).
  - reflexivity.
  - reflexivity.
  - intros h Hh. exists access_denied. split; [|reflexivity].
    cbn [world_slow_secret secret_value].
    rewrite (proj2 (Nat.leb_le _ _)); [reflexivity|exact Hh].
  - intros h Hh. cbn [world_slow_secret secret_value]. rewrite Hh.
    reflexivity.
Defined.

(** X7: once [get_secret] has returned credentials that are not empty, it
    returns the same credentials again without asking the backend and
    without changing anything. *)
Theorem X7_secret_is_cached (W : World) (s s1 : St) (v : value) :
  get_secret W s = (Ok v, s1) ->
  truthy v = true ->
  get_secret W s1 = (Ok v, s1).
Proof.
  intros Hrun Hv.
  assert (Hstored : _db_credentials (self s1) = v).
  { revert Hrun. unfold get_secret.
    unfold bind at 1. unfold read at 1.
    destruct (truthy (_db_credentials (self s))) eqn:Hc.
    - unfold ret. intros H. now injection H as <- <-.
    - unfold bind at 1. unfold read at 1. intros H.
      apply get_secret_loop_stores in H as [->|H]; [discriminate|exact H]. }
  unfold get_secret. unfold bind at 1. unfold read at 1.
  now rewrite Hstored, Hv.
Qed.

Lemma X7_witness :
  get_secret world_up (snd (get_secret world_up fresh))
  = (Ok sample_secret, snd (get_secret world_up fresh)).
Proof.
  apply (X7_secret_is_cached world_up fresh
           (snd (get_secret world_up fresh)) sample_secret);
    vm_compute; reflexivity.
Defined.

(** X8: a failure of the secrets backend that is not a client error is not
    retried: [get_secret] raises it as it is after the one request, without
    sleeping. *)
Theorem X8_other_secret_errors_not_retried (W : World) (s : St) (e : exc) :
  (1 <= max_retries (self s))%Z ->
  truthy (_db_credentials (self s)) = false ->
  secret_value W (log (after_request s)) = Raise e ->
  exc_class_eqb (exc_cls e) ClientError = false ->
  get_secret W s = (Raise e, after_request s).
Proof.
  intros Hn Hcache He Hc.
  unfold get_secret. unfold bind at 1. unfold read at 1. rewrite Hcache.
  unfold bind at 1. unfold read at 1.
  destruct (Z.to_nat (max_retries (self s))) as [|k] eqn:Hk; [lia|].
  now apply get_secret_loop_other.
Qed.

Lemma X8_witness :
  get_secret world_broken_secret fresh = (Raise timed_out, after_request fresh).
Proof.
  apply (X8_other_secret_errors_not_retried world_broken_secret fresh
           timed_out).
  - vm_compute; discriminate.
  - reflexivity.
  - reflexivity.
  - reflexivity.
Defined.


(* ================================================================== *)
(** * Further properties of the connection *)

Section ConnectionFacts.
Context (R : PyRuntime) (W : World).


Lemma has_key_get (d : list (str * value)) (key : str) :
  has_key d key = true ->
  getitem R (VDict d) key = Ok (get d key VNone).
Proof.
  unfold has_key, getitem, get. now destruct (dict_get d key).
Qed.

Lemma missing_key_get (d : list (str * value)) (key : str) :
  has_key d key = false ->
  getitem R (VDict d) key = Raise (mkExc KeyError (repr R (VStr key))).
Proof.
  unfold has_key, getitem. now destruct (dict_get d key).
Qed.

(** With every key there, the driver is called once. *)
Lemma open_connection_eq (d : list (str * value)) (s : St) :
  forallb (has_key d) REQUIRED_KEYS = true ->
  open_connection R W (VDict d) s
  = (connect W (log (after_connect s d)), after_connect s d).
Proof.
  intros H. cbn [forallb REQUIRED_KEYS map] in H.
  apply andb_true_iff in H as [H1 H]. apply andb_true_iff in H as [H2 H].
  apply andb_true_iff in H as [H3 H]. apply andb_true_iff in H as [H4 _].
  unfold open_connection.
  unfold bind at 1. unfold lift at 1. rewrite (has_key_get d _ H1).
  unfold bind at 1. unfold lift at 1. cbn [get_method].
  unfold bind at 1. unfold lift at 1. rewrite (has_key_get d _ H2).
  unfold bind at 1. unfold lift at 1. rewrite (has_key_get d _ H3).
  unfold bind at 1. unfold lift at 1. rewrite (has_key_get d _ H4).
  reflexivity.
Qed.

(** With a key missing, the driver is not called. *)
Lemma open_connection_missing (d : list (str * value)) (key : str) (s : St) :
  find (fun k => negb (has_key d k)) REQUIRED_KEYS = Some key ->
  open_connection R W (VDict d) s
  = (Raise (mkExc KeyError (repr R (VStr key))), s).
Proof.
  unfold REQUIRED_KEYS. cbn [find map]. unfold open_connection.
  destruct (has_key d (py "host")) eqn:H1; cbn [negb].
  2:{ intros H. injection H as <-.
      unfold bind at 1. unfold lift at 1.
      now rewrite (missing_key_get d _ H1). }
  unfold bind at 1. unfold lift at 1. rewrite (has_key_get d _ H1).
  unfold bind at 1. unfold lift at 1. cbn [get_method].
  destruct (has_key d (py "dbname")) eqn:H2; cbn [negb].
  2:{ intros H. injection H as <-.
      unfold bind at 1. unfold lift at 1.
      now rewrite (missing_key_get d _ H2). }
  unfold bind at 1. unfold lift at 1. rewrite (has_key_get d _ H2).
  destruct (has_key d (py "username")) eqn:H3; cbn [negb].
  2:{ intros H. injection H as <-.
      unfold bind at 1. unfold lift at 1.
      now rewrite (missing_key_get d _ H3). }
  unfold bind at 1. unfold lift at 1. rewrite (has_key_get d _ H3).
  destruct (has_key d (py "password")) eqn:H4; cbn [negb]; [discriminate|].
  intros H. injection H as <-.
  unfold bind at 1. unfold lift at 1.
  now rewrite (missing_key_get d _ H4).
Qed.



Lemma live_connection_none (s : St) :
  no_live_connection W s = true -> live_connection W s = (Ok None, s).
Proof.
  unfold no_live_connection, live_connection. run.
  destruct (_connection (self s)) as [c|]; [|reflexivity].
  now intros ->.
Qed.

Lemma get_secret_cached (s : St) :
  truthy (_db_credentials (self s)) = true ->
  get_secret W s = (Ok (_db_credentials (self s)), s).
Proof. intros H. unfold get_secret. run. now rewrite H. Qed.

(** [get_connection] when nothing live is stored and the credentials are
    cached: the loop is all that runs. *)
Lemma get_connection_cached (s : St) :
  no_live_connection W s = true ->
  truthy (_db_credentials (self s)) = true ->
  get_connection R W s
  = get_connection_loop R W (_db_credentials (self s))
      (Z.to_nat (max_retries (self s))) 0 s.
Proof.
  intros Hlive Hc. unfold get_connection.
  unfold bind at 1. rewrite (live_connection_none s Hlive).
  unfold bind at 1. rewrite (get_secret_cached s Hc). reflexivity.
Qed.

(** A connection the loop returns is the one it stored. *)
Lemma get_connection_loop_stores (credentials : value) :
  forall (remaining : nat) (attempt : Z) (s s1 : St) (c : conn),
    get_connection_loop R W credentials remaining attempt s
      = (Ok (Some c), s1) ->
    _connection (self s1) = Some c.
Proof.
  induction remaining as [|remaining IH]; intros attempt s s1 c.
  - cbn [get_connection_loop]. unfold ret. discriminate.
  - cbn [get_connection_loop]. unfold try_except. unfold bind at 1.
    destruct (open_connection R W credentials s) as [[c'|e] s'].
    + run. intros H. injection H as <- <-. reflexivity.
    + destruct (exc_cls e); try (unfold raise; discriminate).
      run. destruct (attempt =? max_retries (self s') - 1)%Z;
        [discriminate|].
      intros H. eapply IH. exact H.
Qed.

(** A connection [get_connection] returns is the one stored. *)
Lemma get_connection_stores (s s1 : St) (c : conn) :
  get_connection R W s = (Ok (Some c), s1) ->
  _connection (self s1) = Some c.
Proof.
  unfold get_connection. unfold bind at 1.
  unfold live_connection at 1. run.
  destruct (_connection (self s)) as [c0|] eqn:Hc0.
  - destruct (closed W (log s) c0).
    + destruct (get_secret W s) as [[v|e] s']; [|discriminate].
      intros H. eapply get_connection_loop_stores. exact H.
    + intros H. injection H as <- <-. exact Hc0.
  - destruct (get_secret W s) as [[v|e] s']; [|discriminate].
    intros H. eapply get_connection_loop_stores. exact H.
Qed.

End ConnectionFacts.



(** X10: a connection that [get_connection] has returned is stored, and as
    long as it does not report itself closed the next call returns it
    again with no call to the secrets backend or the driver. *)
Theorem X10_connection_is_reused (R : PyRuntime) (W : World) (s s1 : St)
    (c : conn) :
  get_connection R W s = (Ok (Some c), s1) ->
  closed W (log s1) c = false ->
  _connection (self s1) = Some c /\
  get_connection R W s1 = (Ok (Some c), s1).
Proof.
  intros Hrun Hopen.
  pose proof (get_connection_stores R W s s1 c Hrun) as Hst.
  split; [exact Hst|].
  unfold get_connection. unfold bind at 1. unfold live_connection. run.
  now rewrite Hst, Hopen.
Qed.

Lemma X10_witness :
  _connection (self (snd (get_connection ascii_runtime world_up fresh)))
    = Some 7%nat /\
  get_connection ascii_runtime world_up
    (snd (get_connection ascii_runtime world_up fresh))
  = (Ok (Some 7%nat), snd (get_connection ascii_runtime world_up fresh)).
Proof.
  apply (X10_connection_is_reused ascii_runtime world_up fresh
           (snd (get_connection ascii_runtime world_up fresh)) 7%nat);
    vm_compute; reflexivity.
Defined.

(** X11: when the cached credentials lack one of the keys [host],
    [dbname], [username], [password], [get_connection] raises the KeyError
    of the first missing one at once: the driver is not called, nothing is
    retried, nothing sleeps. *)
Theorem X11_missing_credential_key (R : PyRuntime) (W : World) (s : St)
    (d : list (str * value)) (key : str) :
  (1 <= max_retries (self s))%Z ->
  no_live_connection W s = true ->
  _db_credentials (self s) = VDict d ->
  truthy (VDict d) = true ->
  find (fun k => negb (has_key d k)) REQUIRED_KEYS = Some key ->
  get_connection R W s = (Raise (mkExc KeyError (repr R (VStr key))), s).
Proof.
  intros Hn Hlive Hcred Htruthy Hkey.
  rewrite (get_connection_cached R W s Hlive) by now rewrite Hcred.
  rewrite Hcred.
  destruct (Z.to_nat (max_retries (self s))) as [|k] eqn:Hk; [lia|].
  cbn [get_connection_loop]. unfold try_except. unfold bind at 1.
  now rewrite (open_connection_missing R W d key s Hkey).
Qed.

Lemma X11_witness :
  get_connection ascii_runtime world_up half_secret
  = (Raise (mkExc KeyError (repr ascii_runtime (VStr (py "password")))),
     half_secret).
Proof.
  apply (X11_missing_credential_key ascii_runtime world_up half_secret
           [ (py "host", VStr (py "db.internal"));
             (py "dbname", VStr (py "app"));
             (py "username", VStr (py "reader")) ] (py "password")).
  - vm_compute; discriminate.
  - reflexivity.
  - reflexivity.
  - reflexivity.
  - vm_compute; reflexivity.
Defined.

(** X12: a manager allowed no attempt at all ([max_retries <= 0]) with
    nothing cached gets [None] from [get_secret] and from
    [get_connection], and [execute_query] raises the AttributeError of
    [None.cursor()]; no call leaves the process. *)
Theorem X12_no_attempt_allowed (R : PyRuntime) (W : World) (s : St)
    (query : value) (params : option (list value)) (limit : value) :
  (max_retries (self s) <= 0)%Z ->
  no_live_connection W s = true ->
  truthy (_db_credentials (self s)) = false ->
  get_secret W s = (Ok VNone, s) /\
  get_connection R W s = (Ok None, s) /\
  execute_query R W query params limit s
    = (Raise (mkExc AttributeError
                (py "'NoneType' object has no attribute 'cursor'")), s).
Proof.
  intros Hn Hlive Hcache.
  assert (Hz : Z.to_nat (max_retries (self s)) = 0%nat) by lia.
  assert (Hsec : get_secret W s = (Ok VNone, s)).
  { unfold get_secret. run. now rewrite Hcache, Hz. }
  assert (Hconn : get_connection R W s = (Ok None, s)).
  { unfold get_connection. unfold bind at 1.
    rewrite (live_connection_none W s Hlive).
    unfold bind at 1. rewrite Hsec. run. now rewrite Hz. }
  repeat split; try assumption.
  unfold execute_query. unfold bind at 1. now rewrite Hconn.
Qed.

Lemma X12_witness :
  get_secret world_up (fresh_with 0) = (Ok VNone, fresh_with 0) /\
  get_connection ascii_runtime world_up (fresh_with 0)
    = (Ok None, fresh_with 0) /\
  execute_query ascii_runtime world_up (VStr (py "SELECT 1")) None (VInt 10)
    (fresh_with 0)
    = (Raise (mkExc AttributeError
                (py "'NoneType' object has no attribute 'cursor'")),
       fresh_with 0).
Proof.
  apply (X12_no_attempt_allowed ascii_runtime world_up (fresh_with 0)
           (VStr (py "SELECT 1")) None (VInt 10)).
  - vm_compute; discriminate.
  - reflexivity.
  - reflexivity.
Defined.


(* ================================================================== *)
(** * Further properties of query execution *)

Section MoreExecutionFacts.
Context (R : PyRuntime) (W : World).

Lemma rollbacks_app (a b : list Event) :
  rollbacks (a ++ b) = (rollbacks a + rollbacks b)%nat.
Proof. unfold rollbacks. now rewrite filter_app, length_app. Qed.

Lemma lifecycle_only_app (a b : list Event) :
  lifecycle_only (a ++ b) = lifecycle_only a && lifecycle_only b.
Proof. apply forallb_app. Qed.

Lemma lifecycle_executed (l : list Event) :
  lifecycle_only l = true -> executed l = [] /\ rollbacks l = 0%nat.
Proof.
  induction l as [|ev l IH]; [now split|].
  cbn [lifecycle_only forallb]. intros H.
  apply andb_true_iff in H as [Hev Hl]. destruct (IH Hl) as [He Hr].
  destruct ev; try discriminate; split; assumption.
Qed.

(** [execute_query] when the cursor cannot be opened. *)
Lemma execute_query_no_cursor (s s1 : St) (c : conn) (e : exc) (query : value)
    (params : option (list value)) (limit : value) :
  get_connection R W s = (Ok (Some c), s1) ->
  cursor W (log s1 ++ [Cursor c]) = Some e ->
  let s2 := {| self := self s1; log := log s1 ++ [Cursor c] |} in
  execute_query R W query params limit s =
  match exc_cls e with
  | PsycopgError =>
      match rollback W (log (after_rollback s2 c)) with
      | Some e' => (Raise e', after_rollback s2 c)
      | None => (Raise (execution_failure e), after_rollback s2 c)
      end
  | _ => (Raise e, s2)
  end.
Proof.
  intros Hconn Hcur s2. subst s2. unfold execute_query.
  unfold bind at 1. rewrite Hconn.
  unfold try_except, run_cursor.
  unfold bind at 1. unfold emit at 1. cbn [self log].
  unfold bind at 1. unfold history at 1. cbn [log]. rewrite Hcur.
  unfold raise at 1.
  destruct (exc_cls e); try reflexivity.
  unfold do_rollback. run. cbn [after_rollback log self].
  destruct (rollback W _); reflexivity.
Qed.

(** The secret loop adds lifecycle events only. *)
Lemma get_secret_loop_lifecycle :
  forall (remaining : nat) (attempt : Z) (s : St),
    exists added,
      log (snd (get_secret_loop W remaining attempt s)) = log s ++ added /\
      lifecycle_only added = true.
Proof.
  induction remaining as [|remaining IH]; intros attempt s.
  - exists []. cbn. now rewrite app_nil_r.
  - cbn [get_secret_loop]. unfold try_except. unfold bind at 1.
    rewrite fetch_secret_eq.
    destruct (secret_value W (log (after_request s))) as [v|e].
    + run. eexists. cbn [after_request log]. split; reflexivity.
    + destruct (exc_cls e);
        try (unfold raise; cbn [snd after_request log]; eexists;
             split; reflexivity).
      run. unfold emit.
      destruct (attempt =? max_retries (self (after_request s)) - 1)%Z.
      * cbn [snd after_request log]. eexists. split; reflexivity.
      * match goal with
        | |- context [get_secret_loop W remaining ?a ?st] =>
            destruct (IH a st) as (added & Hlog & Hadded)
        end.
        rewrite Hlog. cbn [log after_request].
        exists ([GetSecretValue (secret_arn (self s))] ++
                [Sleep (2 ^ attempt)] ++ added).
        split; [now rewrite <- !app_assoc|].
        rewrite !lifecycle_only_app, Hadded. reflexivity.
Qed.

Lemma get_secret_lifecycle (s : St) :
  exists added,
    log (snd (get_secret W s)) = log s ++ added /\
    lifecycle_only added = true.
Proof.
  unfold get_secret. run.
  destruct (truthy (_db_credentials (self s))).
  - exists []. cbn. now rewrite app_nil_r.
  - apply get_secret_loop_lifecycle.
Qed.

Lemma open_connection_lifecycle (credentials : value) (s : St) :
  exists added,
    log (snd (open_connection R W credentials s)) = log s ++ added /\
    lifecycle_only added = true.
Proof.
  unfold open_connection.
  unfold bind at 1. unfold lift at 1.
  destruct (getitem R credentials (py "host"));
    [|exists []; cbn; now rewrite app_nil_r].
  unfold bind at 1. unfold lift at 1.
  destruct (get_method credentials (py "port") (VInt 5432));
    [|exists []; cbn; now rewrite app_nil_r].
  unfold bind at 1. unfold lift at 1.
  destruct (getitem R credentials (py "dbname"));
    [|exists []; cbn; now rewrite app_nil_r].
  unfold bind at 1. unfold lift at 1.
  destruct (getitem R credentials (py "username"));
    [|exists []; cbn; now rewrite app_nil_r].
  unfold bind at 1. unfold lift at 1.
  destruct (getitem R credentials (py "password"));
    [|exists []; cbn; now rewrite app_nil_r].
  run. eexists. split; reflexivity.
Qed.

Lemma get_connection_loop_lifecycle (credentials : value) :
  forall (remaining : nat) (attempt : Z) (s : St),
    exists added,
      log (snd (get_connection_loop R W credentials remaining attempt s))
        = log s ++ added /\
      lifecycle_only added = true.
Proof.
  induction remaining as [|remaining IH]; intros attempt s.
  - exists []. cbn. now rewrite app_nil_r.
  - cbn [get_connection_loop]. unfold try_except. unfold bind at 1.
    destruct (open_connection_lifecycle credentials s)
      as (added & Hlog & Hadded).
    destruct (open_connection R W credentials s) as [[c|e] s'].
    + run. exists added. cbn [snd] in Hlog. now split.
    + cbn [snd] in Hlog.
      destruct (exc_cls e);
        try (unfold raise; cbn [snd]; exists added; now split).
      run. unfold emit.
      destruct (attempt =? max_retries (self s') - 1)%Z.
      * cbn [snd]. exists added. now split.
      * match goal with
        | |- context [get_connection_loop R W credentials remaining ?a ?st] =>
            destruct (IH a st) as (added' & Hlog' & Hadded')
        end.
        rewrite Hlog'. cbn [log]. rewrite Hlog.
        exists (added ++ [Sleep (2 ^ attempt)] ++ added').
        split; [now rewrite <- !app_assoc|].
        rewrite !lifecycle_only_app, Hadded, Hadded'. reflexivity.
Qed.

(** [get_connection] opens no cursor, runs no statement, rolls nothing
    back. *)
Lemma get_connection_lifecycle (s : St) :
  exists added,
    log (snd (get_connection R W s)) = log s ++ added /\
    lifecycle_only added = true.
Proof.
  unfold get_connection. unfold bind at 1.
  unfold live_connection at 1. run.
  assert (Hfetch : exists added,
             log (snd ((credentials <- get_secret W ;;
                        n <- read max_retries ;;
                        get_connection_loop R W credentials (Z.to_nat n) 0)
                         s))
             = log s ++ added /\ lifecycle_only added = true).
  { unfold bind at 1.
    destruct (get_secret_lifecycle s) as (added & Hlog & Hadded).
    destruct (get_secret W s) as [[v|e] s']; cbn [snd] in Hlog.
    - run.
      destruct (get_connection_loop_lifecycle v
                  (Z.to_nat (max_retries (self s'))) 0%Z s')
        as (added' & Hlog' & Hadded').
      rewrite Hlog', Hlog. exists (added ++ added').
      split; [now rewrite <- app_assoc|].
      now rewrite lifecycle_only_app, Hadded, Hadded'.
    - cbn [snd]. exists added. now split. }
  destruct (_connection (self s)) as [c|]; [|exact Hfetch].
  destruct (closed W (log s) c); [exact Hfetch|].
  exists []. cbn. now rewrite app_nil_r.
Qed.

(** The statements a call of [execute_query] hands to the driver: none, or
    the one it made of its query. *)
Lemma execute_query_executed (query : value) (params : option (list value))
    (limit : value) (s : St) :
  let s' := snd (execute_query R W query params limit s) in
  executed (log s') = executed (log s) \/
  exists q, query = VStr q /\
            executed (log s') = executed (log s) ++ [limited_query R q limit].
Proof.
  intros s'. subst s'.
  remember (execute_query R W query params limit s) as r eqn:Hr.
  revert Hr. unfold execute_query. unfold bind at 1.
  destruct (get_connection_lifecycle s) as (added & Hlog & Hadded).
  apply lifecycle_executed in Hadded as [Hex _].
  assert (Hs1 : executed (log (snd (get_connection R W s)))
                = executed (log s)).
  { rewrite Hlog, executed_app, Hex. apply app_nil_r. }
  clear Hlog Hex.
  destruct (get_connection R W s) as [[[c|]|e] s1]; cbn [snd] in Hs1.
  - unfold try_except, run_cursor.
    unfold bind at 1. unfold emit at 1. cbn [self log].
    unfold bind at 1. unfold history at 1. cbn [log].
    destruct (cursor W _) as [e|].
    { unfold raise.
      destruct (exc_cls e);
        try (intros ->; left; cbn [snd log];
             rewrite !executed_app, Hs1; cbn; now rewrite ?app_nil_r).
      unfold do_rollback. run. run.
      destruct (rollback W _); intros ->; left; cbn [snd log];
        rewrite !executed_app, Hs1; cbn; now rewrite ?app_nil_r. }
    unfold bind at 1. unfold lift at 1.
    destruct query as [| | |q| | |]; cbn [as_query];
      try (cbn [exc_cls]; unfold raise; intros ->; left; cbn [snd log];
           rewrite !executed_app, Hs1; cbn; now rewrite ?app_nil_r).
    run. run.
    destruct (execute W _) as [[columns rows]|e].
    + intros ->. right. exists q. split; [reflexivity|].
      cbn [snd log]. rewrite !executed_app, Hs1. cbn.
      now rewrite ?app_nil_r.
    + destruct (exc_cls e);
        try (intros ->; right; exists q; split; [reflexivity|];
             cbn [snd log]; rewrite !executed_app, Hs1; cbn;
             now rewrite ?app_nil_r).
      unfold do_rollback. run. run.
      destruct (rollback W _); intros ->; right; exists q;
        (split; [reflexivity|]); cbn [snd log];
        rewrite !executed_app, Hs1; cbn; now rewrite ?app_nil_r.
  - unfold raise. intros ->. left. exact Hs1.
  - intros ->. left. exact Hs1.
Qed.

End MoreExecutionFacts.


Section RowFacts.
Context (R : PyRuntime).

Lemma str_eqb_refl (a : str) : str_eqb a a = true.
Proof. now apply str_eqb_eq. Qed.

Lemma str_eqb_neq (a b : str) : a <> b -> str_eqb a b = false.
Proof.
  intros H. destruct (str_eqb a b) eqn:E; [|reflexivity].
  apply str_eqb_eq in E. contradiction.
Qed.

Lemma dict_get_set_same (d : list (str * value)) (k : str) (v : value) :
  dict_get (dict_set d k v) k = Some v.
Proof.
  induction d as [|[k' w] d IH]; cbn [dict_set dict_get].
  - now rewrite str_eqb_refl.
  - destruct (str_eqb k' k) eqn:E; cbn [dict_get]; rewrite E;
      [reflexivity|exact IH].
Qed.

Lemma dict_get_set_other (d : list (str * value)) (k k' : str) (v : value) :
  k' <> k -> dict_get (dict_set d k v) k' = dict_get d k'.
Proof.
  intros Hne. induction d as [|[k0 w] d IH]; cbn [dict_set dict_get].
  - now rewrite (str_eqb_neq k k') by congruence.
  - destruct (str_eqb k0 k) eqn:E; cbn [dict_get].
    + apply str_eqb_eq in E. subst k0.
      now rewrite (str_eqb_neq k k') by congruence.
    + destruct (str_eqb k0 k'); [reflexivity|exact IH].
Qed.

Lemma dict_zip_other (columns : list str) :
  forall (row : list value) (acc : list (str * value)) (k : str),
    ~ In k columns ->
    dict_get (dict_zip acc columns row) k = dict_get acc k.
Proof.
  induction columns as [|c cs IH]; intros row acc k Hk; [reflexivity|].
  destruct row as [|v vs]; [reflexivity|]. cbn [dict_zip].
  rewrite IH by (intros H; apply Hk; now right).
  apply dict_get_set_other. intros ->. apply Hk. now left.
Qed.

(** [dict(zip(columns, row))] maps each column to the cell under it when
    no column name is repeated. *)
Lemma dict_zip_get (columns : list str) :
  forall (row : list value) (acc : list (str * value)) (k : str) (v : value),
    NoDup columns ->
    In (k, v) (combine columns row) ->
    dict_get (dict_zip acc columns row) k = Some v.
Proof.
  induction columns as [|c cs IH]; intros row acc k v Hnd Hin;
    [now simpl in Hin|].
  destruct row as [|x xs]; [now simpl in Hin|].
  inversion Hnd as [|? ? Hc Hcs]; subst.
  cbn [dict_zip]. destruct Hin as [Heq|Hin].
  - injection Heq as <- <-.
    rewrite dict_zip_other by exact Hc. apply dict_get_set_same.
  - now apply IH.
Qed.

End RowFacts.

(** X13: when the driver raises a [psycopg.Error] on the cursor or on the
    statement, [execute_query] rolls back once and raises "Query execution
    failed: " followed by the driver's text; if the rollback raises, that
    exception is the one that comes out; an exception that is not a
    [psycopg.Error] comes out as it is, with no rollback; and a statement
    that succeeds is not followed by a rollback. *)
Theorem X13_rollback_on_driver_error (R : PyRuntime) (W : World) (s s1 : St)
    (c : conn) (q : str) (params : option (list value)) (limit : value) :
  get_connection R W s = (Ok (Some c), s1) ->
  let run := execute_query R W (VStr q) params limit s in
  let s2 := after_execute s1 c (limited_query R q limit) params in
  let opened := {| self := self s1; log := log s1 ++ [Cursor c] |} in
  (forall e, cursor W (log opened) = Some e -> exc_cls e = PsycopgError ->
     rollback W (log (after_rollback opened c)) = None ->
     run = (Raise (mkExc Exception_ (py "Query execution failed: " ++ exc_msg e)),
            after_rollback opened c)) /\
  (cursor W (log opened) = None ->
   (forall answer, execute W (log s2) = Ok answer ->
      run = (Ok (as_rows answer), s2) /\
      rollbacks (log s2) = rollbacks (log s1)) /\
   (forall e, execute W (log s2) = Raise e -> exc_cls e = PsycopgError ->
      rollback W (log (after_rollback s2 c)) = None ->
      run = (Raise (mkExc Exception_
                      (py "Query execution failed: " ++ exc_msg e)),
             after_rollback s2 c)) /\
   (forall e e', execute W (log s2) = Raise e -> exc_cls e = PsycopgError ->
      rollback W (log (after_rollback s2 c)) = Some e' ->
      run = (Raise e', after_rollback s2 c)) /\
   (forall e, execute W (log s2) = Raise e ->
      exc_class_eqb (exc_cls e) PsycopgError = false ->
      run = (Raise e, s2))).
Proof.
  intros Hconn run s2 opened. subst run. split.
  - intros e Hcur Hcls Hroll.
    rewrite (execute_query_no_cursor R W s s1 c e (VStr q) params limit
               Hconn Hcur).
    rewrite Hcls. fold opened. now rewrite Hroll.
  - intros Hcur.
    rewrite (execute_query_connected R W s s1 c q params limit Hconn Hcur).
    fold s2. split; [|split; [|split]].
    + intros answer Ha. rewrite Ha. split; [reflexivity|].
      subst s2. cbn [after_execute log]. rewrite !rollbacks_app. cbn. lia.
    + intros e He Hcls Hroll. now rewrite He, Hcls, Hroll.
    + intros e e' He Hcls Hroll. now rewrite He, Hcls, Hroll.
    + intros e He Hcls. rewrite He.
      destruct (exc_cls e); try reflexivity. discriminate.
Qed.

Lemma X13_witness :
  execute_query ascii_runtime world_no_cursor (VStr (py "SELECT 1")) None
    (VInt 5) (with_secret 3)
  = (Raise (mkExc Exception_
              (py "Query execution failed: " ++ exc_msg lost)),
     after_rollback
       {| self := self (snd (get_connection ascii_runtime world_no_cursor
                               (with_secret 3)));
          log := log (snd (get_connection ascii_runtime world_no_cursor
                             (with_secret 3))) ++ [Cursor 7%nat] |} 7%nat) /\
  execute_query ascii_runtime world_bad_sql (VStr (py "SELECT 1")) None
    (VInt 5) (with_secret 3)
  = (Raise (mkExc Exception_
              (py "Query execution failed: " ++ exc_msg no_such_table)),
     after_rollback
       (after_execute
          (snd (get_connection ascii_runtime world_bad_sql (with_secret 3)))
          7%nat (limited_query ascii_runtime (py "SELECT 1") (VInt 5)) None)
       7%nat) /\
  execute_query ascii_runtime world_lost (VStr (py "SELECT 1")) None
    (VInt 5) (with_secret 3)
  = (Raise lost,
     after_rollback
       (after_execute
          (snd (get_connection ascii_runtime world_lost (with_secret 3)))
          7%nat (limited_query ascii_runtime (py "SELECT 1") (VInt 5)) None)
       7%nat) /\
  execute_query ascii_runtime world_driver_fault (VStr (py "SELECT 1")) None
    (VInt 5) (with_secret 3)
  = (Raise timed_out,
     after_execute
       (snd (get_connection ascii_runtime world_driver_fault (with_secret 3)))
       7%nat (limited_query ascii_runtime (py "SELECT 1") (VInt 5)) None).
Proof.
  split; [|split; [|split]].
  - apply (proj1 (X13_rollback_on_driver_error ascii_runtime world_no_cursor
                    (with_secret 3)
                    (snd (get_connection ascii_runtime world_no_cursor
                            (with_secret 3)))
                    7%nat (py "SELECT 1") None (VInt 5) eq_refl) lost);
      reflexivity.
  - apply (proj1 (proj2 (proj2 (X13_rollback_on_driver_error ascii_runtime
                    world_bad_sql (with_secret 3)
                    (snd (get_connection ascii_runtime world_bad_sql
                            (with_secret 3)))
                    7%nat (py "SELECT 1") None (VInt 5) eq_refl) eq_refl))
             no_such_table);
      reflexivity.
  - apply (proj1 (proj2 (proj2 (proj2 (X13_rollback_on_driver_error
                    ascii_runtime world_lost (with_secret 3)
                    (snd (get_connection ascii_runtime world_lost
                            (with_secret 3)))
                    7%nat (py "SELECT 1") None (VInt 5) eq_refl) eq_refl)))
             no_such_table lost);
      reflexivity.
  - apply (proj2 (proj2 (proj2 (proj2 (X13_rollback_on_driver_error
                    ascii_runtime world_driver_fault (with_secret 3)
                    (snd (get_connection ascii_runtime world_driver_fault
                            (with_secret 3)))
                    7%nat (py "SELECT 1") None (VInt 5) eq_refl) eq_refl)))
             timed_out);
      reflexivity.
Defined.

(** X14: the rows [execute_query] returns are the driver's rows, in the
    driver's order, each turned into a mapping in which every column
    names the cell under it (when no column name is repeated). *)
Theorem X14_rows_by_column (R : PyRuntime) (W : World) (s s1 : St) (c : conn)
    (q : str) (params : option (list value)) (limit : value)
    (columns : list str) (rows : list (list value)) :
  get_connection R W s = (Ok (Some c), s1) ->
  cursor W (log s1 ++ [Cursor c]) = None ->
  execute W (log (after_execute s1 c (limited_query R q limit) params))
    = Ok (columns, rows) ->
  NoDup columns ->
  exists result,
    fst (execute_query R W (VStr q) params limit s) = Ok result /\
    List.length result = List.length rows /\
    (forall i row k v,
       nth_error rows i = Some row ->
       In (k, v) (combine columns row) ->
       exists mapping,
         nth_error result i = Some mapping /\ getitem R mapping k = Ok v).
Proof.
  intros Hconn Hcur Hex Hnd.
  rewrite (execute_query_connected R W s s1 c q params limit Hconn Hcur).
  cbv zeta. rewrite Hex. cbn [fst].
  exists (as_rows (columns, rows)). split; [reflexivity|]. split.
  - unfold as_rows. cbn [fst snd]. apply length_map.
  - intros i row k v Hrow Hin.
    exists (VDict (dict_zip [] columns row)). split.
    + unfold as_rows. cbn [fst snd]. now rewrite nth_error_map, Hrow.
    + cbn [getitem]. now rewrite (dict_zip_get columns row [] k v Hnd Hin).
Qed.

Lemma X14_witness :
  exists result,
    fst (execute_query ascii_runtime world_two_tables
           (VStr (py "SELECT table_name FROM t")) None (VInt 10)
           (with_secret 3)) = Ok result /\
    List.length result = 2%nat /\
    (forall i row k v,
       nth_error [[VStr (py "orders")]; [VStr (py "web_items")]] i = Some row ->
       In (k, v) (combine [py "table_name"] row) ->
       exists mapping,
         nth_error result i = Some mapping /\
         getitem ascii_runtime mapping k = Ok v).
Proof.
  apply (X14_rows_by_column ascii_runtime world_two_tables (with_secret 3)
           (snd (get_connection ascii_runtime world_two_tables
                   (with_secret 3)))
           7%nat (py "SELECT table_name FROM t") None (VInt 10)
           [py "table_name"]
           [[VStr (py "orders")]; [VStr (py "web_items")]]).
  - reflexivity.
  - reflexivity.
  - reflexivity.
  - repeat constructor. intros [].
Defined.

(* ================================================================== *)
(** * What the tools send to the database *)

Section StatementFacts.
Context (R : PyRuntime) (W : World) (config : Config).

Lemma snd_try_report (m : M (list TextContent)) (prefix : str) (s : St) :
  snd (try_except m (fun e => ret (text_content (prefix ++ exc_msg e))) s)
  = snd (m s).
Proof. rewrite try_report. now destruct (m s) as [[a|e] s']. Qed.

Lemma snd_bind_pure {A B} (m : M A) (k : A -> M B) (s : St) :
  (forall a s0, snd (k a s0) = s0) ->
  snd (bind m k s) = snd (m s).
Proof.
  intros Hk. unfold bind. destruct (m s) as [[a|e] s']; [apply Hk|reflexivity].
Qed.

(** The handler leaves the state where the tool left it. *)
Lemma snd_dispatch (tool : M (list TextContent)) (s : St) :
  snd (try_except tool (fun e => ret (text_content (py "Error: " ++ exc_msg e)))
         s)
  = snd (tool s).
Proof. apply snd_try_report. Qed.

(** Only a [str] can be accepted. *)
Lemma validate_query_accepted_str (query : value) (msg : str) :
  validate_query R query = Ok (true, msg) ->
  exists q, query = VStr q /\ msg = [].
Proof.
  destruct query as [| b | z | q | l | d | f].
  - discriminate.
  - unfold validate_query. cbn [truthy]. destruct b; discriminate.
  - unfold validate_query. cbn [truthy].
    destruct (negb (negb (z =? 0)%Z)); discriminate.
  - intros H. exists q. split; [reflexivity|].
    now apply validate_query_accepts in H.
  - unfold validate_query. cbn [truthy]. destruct l; discriminate.
  - unfold validate_query. cbn [truthy]. destruct d; discriminate.
  - unfold validate_query. cbn [truthy]. destruct f; discriminate.
Qed.

Lemma sanitize_accepted_str (table_name : value) (msg : str) :
  sanitize_table_name R table_name = Ok (true, msg) ->
  exists name, table_name = VStr name.
Proof.
  destruct table_name as [| b | z | name | l | d | f].
  - discriminate.
  - unfold sanitize_table_name. cbn [truthy]. destruct b; discriminate.
  - unfold sanitize_table_name. cbn [truthy].
    destruct (negb (negb (z =? 0)%Z)); discriminate.
  - intros _. now exists name.
  - unfold sanitize_table_name. cbn [truthy]. destruct l; discriminate.
  - unfold sanitize_table_name. cbn [truthy]. destruct d; discriminate.
  - unfold sanitize_table_name. cbn [truthy]. destruct f; discriminate.
Qed.

Lemma execute_select_state (arguments : list (str * value)) (s : St) :
  snd (_execute_select R W config arguments s) = s \/
  exists q limit,
    get arguments (py "query") (VStr []) = VStr q /\
    validate_query R (VStr q) = Ok (true, []) /\
    py_min (get arguments (py "limit") (VInt 1000)) (max_query_rows config)
      = Ok limit /\
    snd (_execute_select R W config arguments s)
      = snd (execute_query R W (VStr q) None limit s).
Proof.
  remember (_execute_select R W config arguments s) as r eqn:Hr.
  revert Hr. unfold _execute_select. unfold bind at 1. unfold lift at 1.
  destruct (py_min _ _) as [limit|e] eqn:Hmin; [|intros ->; now left].
  unfold bind at 1. unfold lift at 1.
  destruct (validate_query R _) as [[[|] msg]|e] eqn:Hv;
    [| intros ->; now left | intros ->; now left].
  destruct (validate_query_accepted_str _ _ Hv) as (q & Hq & ->).
  intros ->. right. exists q, limit. rewrite Hq in *.
  repeat split; try assumption.
  cbn [negb]. rewrite snd_try_report.
  apply snd_bind_pure. reflexivity.
Qed.

Lemma describe_table_state (arguments : list (str * value)) (s : St) :
  snd (_describe_table R W arguments s) = s \/
  snd (_describe_table R W arguments s)
  = snd (execute_query R W (VStr DESCRIBE_QUERY)
           (Some [get arguments (py "table_name") (VStr [])]) (VInt 1000) s).
Proof.
  remember (_describe_table R W arguments s) as r eqn:Hr.
  revert Hr. unfold _describe_table. unfold bind at 1. unfold lift at 1.
  destruct (sanitize_table_name R _) as [[[|] msg]|e];
    [| intros ->; now left | intros ->; now left].
  intros ->. right. cbn [negb]. rewrite snd_try_report.
  now rewrite snd_bind_pure by reflexivity.
Qed.

End StatementFacts.

(** X15: a call of [execute_select] hands the driver no statement at all,
    or exactly one: the text of a query that [validate_query] accepted,
    trimmed, with the clamped limit appended when it has no LIMIT of its
    own.  Nothing else this tool is given can reach the database. *)
Theorem X15_only_accepted_queries_run (R : PyRuntime) (W : World)
    (config : Config) (arguments : list (str * value)) (s : St) :
  let s' := snd (handle_call_tool R W config (py "execute_select")
                   arguments s) in
  executed (log s') = executed (log s) \/
  exists q limit,
    get arguments (py "query") (VStr []) = VStr q /\
    validate_query R (VStr q) = Ok (true, []) /\
    py_min (get arguments (py "limit") (VInt 1000)) (max_query_rows config)
      = Ok limit /\
    executed (log s') = executed (log s) ++ [limited_query R q limit].
Proof.
  intros s'. subst s'. unfold handle_call_tool. rewrite snd_dispatch.
  change (str_eqb (py "execute_select") (py "execute_select")) with true.
  cbv iota.
  destruct (execute_select_state R W config arguments s)
    as [->|(q & limit & Hq & Hv & Hmin & ->)]; [now left|].
  destruct (execute_query_executed R W (VStr q) None limit s)
    as [H|(q' & Hq' & H)]; [now left|].
  injection Hq' as <-. right. now exists q, limit.
Qed.

(** X16: [get_tables] and [describe_table] each hand the driver no
    statement or one fixed statement; the text sent by [describe_table]
    does not depend on the table name, which travels as a parameter. *)
Theorem X16_fixed_statements (R : PyRuntime) (W : World) (config : Config)
    (arguments : list (str * value)) (s : St) :
  (let s' := snd (handle_call_tool R W config (py "get_tables")
                    arguments s) in
   executed (log s') = executed (log s) \/
   executed (log s') = executed (log s) ++ [TABLE_NAMES_STATEMENT]) /\
  (let s' := snd (handle_call_tool R W config (py "describe_table")
                    arguments s) in
   executed (log s') = executed (log s) \/
   executed (log s') = executed (log s) ++ [DESCRIBE_STATEMENT]).
Proof.
  split.
  - cbv zeta. unfold handle_call_tool. rewrite snd_dispatch.
    change (str_eqb (py "get_tables") (py "execute_select")) with false.
    change (str_eqb (py "get_tables") (py "get_tables")) with true.
    cbv iota. unfold _get_tables. rewrite snd_try_report.
    rewrite snd_bind_pure by reflexivity.
    unfold get_table_names. rewrite snd_bind_pure by reflexivity.
    destruct (execute_query_executed R W (VStr TABLE_NAMES_QUERY) None
                (VInt 1000) s) as [H|(q & Hq & H)]; [now left|].
    injection Hq as <-. right. rewrite H. reflexivity.
  - cbv zeta. unfold handle_call_tool. rewrite snd_dispatch.
    change (str_eqb (py "describe_table") (py "execute_select")) with false.
    change (str_eqb (py "describe_table") (py "get_tables")) with false.
    change (str_eqb (py "describe_table") (py "describe_table")) with true.
    cbv iota.
    destruct (describe_table_state R W arguments s) as [->| ->]; [now left|].
    destruct (execute_query_executed R W (VStr DESCRIBE_QUERY)
                (Some [get arguments (py "table_name") (VStr [])])
                (VInt 1000) s) as [H|(q & Hq & H)]; [now left|].
    injection Hq as <-. right. rewrite H. reflexivity.
Qed.

Section CountFacts.
Context (R : PyRuntime) (W : World) (config : Config).

Lemma rstrip_with_keep (p : N -> bool) (l : str) (c : N) :
  p c = false -> rstrip_with p (l ++ [c]) = l ++ [c].
Proof.
  intros Hc. unfold rstrip_with. rewrite rev_unit. cbn [dropWhile].
  rewrite Hc. change (c :: rev l) with ([c] ++ rev l).
  now rewrite rev_app_distr, rev_involutive.
Qed.

Lemma rstrip_with_drop (p : N -> bool) (l : str) (c : N) :
  p c = true -> rstrip_with p (l ++ [c]) = rstrip_with p l.
Proof.
  intros Hc. unfold rstrip_with. rewrite rev_unit. cbn [dropWhile].
  now rewrite Hc.
Qed.

(** Nothing is stripped from a text that neither starts nor ends with
    whitespace. *)
Lemma strip_unchanged (c d : N) (l : str) :
  isspace R c = false -> isspace R d = false ->
  strip R (c :: l ++ [d]) = c :: l ++ [d].
Proof.
  intros Hc Hd. unfold strip, strip_with, lstrip_with. cbn [dropWhile].
  rewrite Hc. change (c :: l ++ [d]) with ((c :: l) ++ [d]).
  now apply rstrip_with_keep.
Qed.

Lemma identifier_char_not_semicolon (c : N) :
  identifier_char c = true -> (semicolon =? c)%N = false.
Proof.
  intros H. apply N.eqb_neq. intros <-. discriminate.
Qed.

Lemma identifier_last (name : str) :
  is_identifier name = true ->
  exists front last, name = front ++ [last] /\ identifier_char last = true.
Proof.
  intros Hid. pose proof (identifier_characters name Hid) as Hall.
  destruct name as [|c0 t0] eqn:E; [discriminate|]. rewrite <- E in *.
  assert (Hne : name <> []) by (rewrite E; discriminate).
  destruct (exists_last Hne) as (front & c & ->).
  exists front, c. split; [reflexivity|].
  apply (proj1 (forallb_forall _ _) Hall). apply in_or_app. right. now left.
Qed.

(** The statement made of the text [count_table_records] builds. *)
Lemma count_statement (name : str) :
  is_identifier name = true ->
  exists suffix,
    (suffix = [] \/ suffix = py " LIMIT 1000") /\
    limited_query R (COUNT_PREFIX ++ name ++ py ";") (VInt 1000)
      = COUNT_PREFIX ++ name ++ suffix.
Proof.
  intros Hid. destruct (identifier_last name Hid) as (front & last & -> & Hl).
  unfold limited_query.
  assert (Hstrip : strip R (COUNT_PREFIX ++ (front ++ [last]) ++ py ";")
                   = COUNT_PREFIX ++ (front ++ [last]) ++ py ";").
  { change (COUNT_PREFIX ++ (front ++ [last]) ++ py ";")
      with (83%N :: (tl COUNT_PREFIX ++ (front ++ [last])) ++ [semicolon]).
    apply strip_unchanged; reflexivity. }
  rewrite Hstrip.
  assert (Hr : rstrip_char semicolon
                 (COUNT_PREFIX ++ (front ++ [last]) ++ py ";")
               = COUNT_PREFIX ++ front ++ [last]).
  { unfold rstrip_char.
    change (py ";") with [semicolon]. rewrite !app_assoc.
    rewrite rstrip_with_drop by apply N.eqb_refl.
    apply rstrip_with_keep. now apply identifier_char_not_semicolon. }
  rewrite Hr.
  destruct (contains (py "LIMIT") (upper R (COUNT_PREFIX ++ front ++ [last])));
    cbn [negb].
  - exists []. split; [now left|]. now rewrite app_nil_r.
  - exists (py " LIMIT 1000"). split; [now right|].
    now rewrite <- !app_assoc.
Qed.

(** A name that passes both the validator and the check inside
    [count_table_records] is an identifier. *)
Lemma both_checks_identifier (name msg : str) :
  sanitize_table_name R (VStr name) = Ok (true, msg) ->
  isalnum R (remove_char underscore name) = true ->
  is_identifier name = true.
Proof.
  intros Hv Hal.
  apply sanitize_table_name_accepts in Hv as (_ & [Hid|(stem & -> & Hid)] & _);
    [exact Hid|].
  exfalso. unfold isalnum in Hal.
  destruct (remove_char underscore (stem ++ [newline])) as [|c t] eqn:Hrm;
    [discriminate|].
  assert (Hin : In newline (remove_char underscore (stem ++ [newline]))).
  { unfold remove_char. apply filter_In. split; [|reflexivity].
    apply in_or_app. right. now left. }
  rewrite Hrm in Hin.
  pose proof (proj1 (forallb_forall _ _) Hal newline Hin) as Hnl.
  discriminate.
Qed.

Lemma count_records_state (arguments : list (str * value)) (s : St) :
  snd (_count_records R W arguments s) = s \/
  exists name,
    get arguments (py "table_name") (VStr []) = VStr name /\
    is_identifier name = true /\ (List.length name <= 63)%nat /\
    snd (_count_records R W arguments s)
    = snd (execute_query R W (VStr (COUNT_PREFIX ++ name ++ py ";")) None
             (VInt 1000) s).
Proof.
  remember (_count_records R W arguments s) as r eqn:Hr.
  revert Hr. unfold _count_records. unfold bind at 1. unfold lift at 1.
  destruct (sanitize_table_name R _) as [[[|] msg]|e] eqn:Hv;
    [| intros ->; now left | intros ->; now left].
  destruct (sanitize_accepted_str R _ _ Hv) as (name & Hname).
  rewrite Hname in *. cbn [negb].
  intros ->. rewrite snd_try_report.
  rewrite snd_bind_pure by reflexivity.
  unfold count_table_records, as_table_name.
  change (bind (lift (Ok name)) ?k s) with (k name s). cbv beta.
  destruct (isalnum R (remove_char underscore name)) eqn:Hal; cbn [negb];
    [|now left].
  right. exists name. split; [reflexivity|].
  split; [exact (both_checks_identifier name msg Hv Hal)|].
  split; [now apply sanitize_table_name_accepts in Hv|].
  cbv zeta. apply snd_bind_pure.
  intros [|first rest] s0; [reflexivity|].
  unfold lift. now destruct (getitem _ first (py "count")).
Qed.

End CountFacts.

(** X17: [count_records] hands the driver no statement, or exactly one:
    "SELECT COUNT(*) as count FROM " followed by a table name made of a
    letter or underscore and then letters, digits and underscores only, of
    at most 63 characters, and then nothing or " LIMIT 1000".  No other
    text can be spliced into the statement. *)
Theorem X17_count_statement_is_safe (R : PyRuntime) (W : World)
    (config : Config) (arguments : list (str * value)) (s : St) :
  let s' := snd (handle_call_tool R W config (py "count_records")
                   arguments s) in
  executed (log s') = executed (log s) \/
  exists name suffix,
    get arguments (py "table_name") (VStr []) = VStr name /\
    is_identifier name = true /\ (List.length name <= 63)%nat /\
    (suffix = [] \/ suffix = py " LIMIT 1000") /\
    executed (log s') = executed (log s) ++ [COUNT_PREFIX ++ name ++ suffix].
Proof.
  intros s'. subst s'. unfold handle_call_tool. rewrite snd_dispatch.
  change (str_eqb (py "count_records") (py "execute_select")) with false.
  change (str_eqb (py "count_records") (py "get_tables")) with false.
  change (str_eqb (py "count_records") (py "describe_table")) with false.
  change (str_eqb (py "count_records") (py "count_records")) with true.
  cbv iota.
  destruct (count_records_state R W arguments s)
    as [->|(name & Hname & Hid & Hlen & ->)]; [now left|].
  destruct (execute_query_executed R W
              (VStr (COUNT_PREFIX ++ name ++ py ";")) None (VInt 1000) s)
    as [H|(q & Hq & H)]; [now left|].
  assert (Hq' : q = COUNT_PREFIX ++ name ++ py ";") by congruence.
  subst q. clear Hq.
  destruct (count_statement R name Hid) as (suffix & Hsuffix & Hstmt).
  right. exists name, suffix. rewrite H, Hstmt. now repeat split.
Qed.

Section OutcomeFacts.
Context (R : PyRuntime) (W : World) (config : Config).

(** An identifier with a character other than the underscore is
    alphanumeric once its underscores are taken out. *)
Lemma identifier_isalnum (name : str) :
  is_identifier name = true ->
  existsb (fun ch => negb (ch =? underscore)%N) name = true ->
  isalnum R (remove_char underscore name) = true.
Proof.
  intros Hid Hex. apply identifier_characters in Hid.
  apply existsb_exists in Hex as (x & Hx & Hnx).
  assert (Hin : In x (remove_char underscore name)).
  { unfold remove_char. apply filter_In. split; [exact Hx|].
    exact Hnx. }
  assert (Hall : forallb (isalnum_char R) (remove_char underscore name) = true).
  { apply forallb_forall. intros ch Hch.
    unfold remove_char in Hch. apply filter_In in Hch as [Hch Hne].
    pose proof (proj1 (forallb_forall _ _) Hid ch Hch) as Hc.
    unfold identifier_char in Hc.
    apply negb_true_iff in Hne. rewrite Hne, orb_false_r in Hc.
    unfold isalnum_char.
    assert (Ha : is_ascii ch = true).
    { revert Hc. unfold is_ascii, ascii_isalnum, ascii_isalpha, ascii_isupper,
        ascii_islower, ascii_isdigit.
      rewrite ?orb_true_iff, ?andb_true_iff, ?N.leb_le, ?N.ltb_lt. lia. }
    now rewrite Ha. }
  unfold isalnum. destruct (remove_char underscore name); [destruct Hin|].
  exact Hall.
Qed.

(** The tools, once their argument is accepted and a connection is at
    hand, in terms of the driver's answer. *)
Lemma count_table_records_connected (name : str) (s s1 : St) (c : conn) :
  isalnum R (remove_char underscore name) = true ->
  get_connection R W s = (Ok (Some c), s1) ->
  cursor W (log s1 ++ [Cursor c]) = None ->
  let s2 := after_execute s1 c
              (limited_query R (COUNT_PREFIX ++ name ++ py ";") (VInt 1000))
              None in
  forall answer, execute W (log s2) = Ok answer ->
  count_table_records R W (VStr name) s =
  match as_rows answer with
  | [] => (Raise (mkExc IndexError (py "list index out of range")), s2)
  | first :: _ =>
      match getitem R first (py "count") with
      | Ok n => (Ok n, s2)
      | Raise e => (Raise e, s2)
      end
  end.
Proof.
  intros Hal Hconn Hcur s2 answer Hex.
  unfold count_table_records, as_table_name.
  change (bind (lift (Ok name)) ?k s) with (k name s). cbv beta.
  rewrite Hal. cbn [negb]. cbv zeta. unfold bind.
  change (py "SELECT COUNT(*) as count FROM ") with COUNT_PREFIX.
  rewrite (execute_query_connected R W s s1 c _ None (VInt 1000) Hconn Hcur).
  cbv zeta. fold s2. rewrite Hex.
  destruct (as_rows answer) as [|first rest]; [reflexivity|].
  unfold lift. now destruct (getitem R first (py "count")).
Qed.

End OutcomeFacts.

(** X18: [describe_table], for an accepted name and with a connection at
    hand, hands the driver its fixed statement with the name as the one
    bound parameter, so the name is never part of the statement's text;
    when the driver answers, the tool's text is "Schema for table
    '<name>':" and, on the next line, the rows as Python prints them. *)
Theorem X18_describe_binds_the_name (R : PyRuntime) (W : World)
    (config : Config) (arguments : list (str * value)) (name : str)
    (s s1 : St) (c : conn) :
  get arguments (py "table_name") (VStr []) = VStr name ->
  sanitize_table_name R (VStr name) = Ok (true, []) ->
  get_connection R W s = (Ok (Some c), s1) ->
  cursor W (log s1 ++ [Cursor c]) = None ->
  let s2 := after_execute s1 c DESCRIBE_STATEMENT (Some [VStr name]) in
  let run := handle_call_tool R W config (py "describe_table") arguments s in
  (exists tail,
     log (snd run)
       = log s1 ++
         [Cursor c; Execute c DESCRIBE_STATEMENT (Some [VStr name])] ++ tail /\
     (tail = [] \/ tail = [Rollback c])) /\
  (forall answer, execute W (log s2) = Ok answer ->
     run = (Ok (text_content
                  (py "Schema for table '" ++ name ++ py "':" ++ line_feed ++
                   repr R (VList (as_rows answer)))), s2)).
Proof.
  intros Ha Hv Hconn Hcur s2 run. subst run.
  assert (Hstmt : limited_query R DESCRIBE_QUERY (VInt 1000)
                  = DESCRIBE_STATEMENT) by reflexivity.
  assert (E : handle_call_tool R W config (py "describe_table") arguments s
              = match execute_query R W (VStr DESCRIBE_QUERY)
                        (Some [VStr name]) (VInt 1000) s with
                | (Ok schema, s') =>
                    (Ok (text_content
                           (py "Schema for table '" ++ name ++ py "':" ++
                            line_feed ++ repr R (VList schema))), s')
                | (Raise e, s') =>
                    (Ok (text_content
                           (py "Failed to describe table: " ++ exc_msg e)), s')
                end).
  { rewrite dispatch_describe_table. unfold _describe_table.
    rewrite Ha. unfold bind at 1. unfold lift at 1. rewrite Hv.
    cbn [negb]. rewrite try_report. unfold bind, ret, describe_table.
    cbn [format].
    now destruct (execute_query R W (VStr DESCRIBE_QUERY) (Some [VStr name])
                    (VInt 1000) s) as [[schema|e] s']. }
  split.
  - destruct (execute_query_log R W s s1 c DESCRIBE_QUERY (Some [VStr name])
                (VInt 1000) Hconn Hcur) as (tail & Hlog & Htail).
    rewrite Hstmt in Hlog. exists tail. split; [|exact Htail].
    rewrite E, <- Hlog.
    now destruct (execute_query R W (VStr DESCRIBE_QUERY) (Some [VStr name])
                    (VInt 1000) s) as [[schema|e] s'].
  - intros answer Hex. rewrite E.
    rewrite (execute_query_connected R W s s1 c DESCRIBE_QUERY
               (Some [VStr name]) (VInt 1000) Hconn Hcur).
    cbv zeta. rewrite Hstmt. fold s2. now rewrite Hex.
Qed.

Lemma X18_witness :
  exists tail,
    log (snd (handle_call_tool ascii_runtime world_up sample_config
                (py "describe_table")
                [(py "table_name", VStr (py "web_items"))] fresh))
      = log (snd (get_connection ascii_runtime world_up fresh)) ++
        [Cursor 7%nat;
         Execute 7%nat DESCRIBE_STATEMENT (Some [VStr (py "web_items")])] ++
        tail /\
    (tail = [] \/ tail = [Rollback 7%nat]).
Proof.
  exact (proj1 (X18_describe_binds_the_name ascii_runtime world_up
                  sample_config [(py "table_name", VStr (py "web_items"))]
                  (py "web_items") fresh
                  (snd (get_connection ascii_runtime world_up fresh)) 7%nat
                  eq_refl eq_refl eq_refl eq_refl)).
Defined.

(** X19: [count_records], for a name that is an identifier of at most 63
    characters with a character other than the underscore, and with a
    connection at hand: when the driver answers with no row the tool's text
    is "Failed to count records: list index out of range"; when the first
    row has a cell under the column [count] the text is "Table '<name>' has
    <that cell> records", whatever rows follow. *)
Theorem X19_count_outcome (R : PyRuntime) (W : World) (config : Config)
    (arguments : list (str * value)) (name : str) (s s1 : St) (c : conn)
    (columns : list str) (rows : list (list value)) :
  get arguments (py "table_name") (VStr []) = VStr name ->
  is_identifier name = true -> (List.length name <= 63)%nat ->
  existsb (fun ch => negb (ch =? underscore)%N) name = true ->
  get_connection R W s = (Ok (Some c), s1) ->
  cursor W (log s1 ++ [Cursor c]) = None ->
  let s2 := after_execute s1 c
              (limited_query R (COUNT_PREFIX ++ name ++ py ";") (VInt 1000))
              None in
  execute W (log s2) = Ok (columns, rows) ->
  NoDup columns ->
  let run := handle_call_tool R W config (py "count_records") arguments s in
  (rows = [] ->
   run = (Ok (text_content
                (py "Failed to count records: list index out of range")),
          s2)) /\
  (forall row rest n,
     rows = row :: rest -> In (py "count", n) (combine columns row) ->
     run = (Ok (text_content
                  (py "Table '" ++ name ++ py "' has " ++ format R n ++
                   py " records")), s2)).
Proof.
  intros Ha Hid Hlen Hex Hconn Hcur s2 Hanswer Hnd run. subst run.
  pose proof (sanitize_table_name_accepts_identifier R name Hid Hlen) as Hv.
  pose proof (identifier_isalnum R name Hid Hex) as Hal.
  pose proof (count_table_records_connected R W name s s1 c Hal Hconn Hcur
                (columns, rows) Hanswer) as Hcount.
  fold s2 in Hcount.
  assert (E : handle_call_tool R W config (py "count_records") arguments s
              = match count_table_records R W (VStr name) s with
                | (Ok n, s') =>
                    (Ok (text_content
                           (py "Table '" ++ name ++ py "' has " ++
                            format R n ++ py " records")), s')
                | (Raise e, s') =>
                    (Ok (text_content
                           (py "Failed to count records: " ++ exc_msg e)), s')
                end).
  { rewrite dispatch_count_records. unfold _count_records.
    rewrite Ha. unfold bind at 1. unfold lift at 1. rewrite Hv.
    cbn [negb]. rewrite try_report. unfold bind, ret. cbn [format].
    now destruct (count_table_records R W (VStr name) s) as [[n|e] s']. }
  rewrite E, Hcount. split.
  - intros ->. reflexivity.
  - intros row rest n -> Hin. unfold as_rows. cbn [fst snd map getitem].
    now rewrite (dict_zip_get columns row [] (py "count") n Hnd Hin).
Qed.

Lemma X19_witness :
  handle_call_tool ascii_runtime world_empty sample_config
    (py "count_records") [(py "table_name", VStr (py "web_items"))] fresh
  = (Ok (text_content
           (py "Failed to count records: list index out of range")),
     after_execute (snd (get_connection ascii_runtime world_empty fresh))
       7%nat (py "SELECT COUNT(*) as count FROM web_items LIMIT 1000") None)
  /\
  handle_call_tool ascii_runtime world_up sample_config
    (py "count_records") [(py "table_name", VStr (py "web_items"))] fresh
  = (Ok (text_content (py "Table 'web_items' has 42 records")),
     after_execute (snd (get_connection ascii_runtime world_up fresh))
       7%nat (py "SELECT COUNT(*) as count FROM web_items LIMIT 1000") None).
Proof.
  split.
  - apply (proj1 (X19_count_outcome ascii_runtime world_empty sample_config
                    [(py "table_name", VStr (py "web_items"))]
                    (py "web_items") fresh
                    (snd (get_connection ascii_runtime world_empty fresh))
                    7%nat [py "count"] []
                    eq_refl eq_refl ltac:(vm_compute; lia) eq_refl eq_refl
                    eq_refl eq_refl
                    ltac:(repeat constructor; intros [])));
      reflexivity.
  - apply (proj2 (X19_count_outcome ascii_runtime world_up sample_config
                    [(py "table_name", VStr (py "web_items"))]
                    (py "web_items") fresh
                    (snd (get_connection ascii_runtime world_up fresh))
                    7%nat [py "count"] [[VInt 42]]
                    eq_refl eq_refl ltac:(vm_compute; lia) eq_refl eq_refl
                    eq_refl eq_refl
                    ltac:(repeat constructor; intros []))
             [VInt 42] [] (VInt 42) eq_refl);
      now left.
Defined.

(** X20: [get_tables], with a connection at hand, answers with the cells
    the driver returned under [table_name], in the driver's order, printed
    as a Python list after "Database tables:". *)
Theorem X20_tables_in_driver_order (R : PyRuntime) (W : World)
    (config : Config) (arguments : list (str * value)) (s s1 : St) (c : conn)
    (columns : list str) (rows : list (list value)) (names : list value) :
  get_connection R W s = (Ok (Some c), s1) ->
  cursor W (log s1 ++ [Cursor c]) = None ->
  let s2 := after_execute s1 c TABLE_NAMES_STATEMENT None in
  execute W (log s2) = Ok (columns, rows) ->
  NoDup columns ->
  Forall2 (fun row n => In (py "table_name", n) (combine columns row))
          rows names ->
  handle_call_tool R W config (py "get_tables") arguments s
  = (Ok (text_content
           (py "Database tables:" ++ line_feed ++ repr R (VList names))), s2).
Proof.
  intros Hconn Hcur s2 Hanswer Hnd Hrows.
  assert (Hstmt : limited_query R TABLE_NAMES_QUERY (VInt 1000)
                  = TABLE_NAMES_STATEMENT) by reflexivity.
  assert (Hcol : column R (py "table_name") (as_rows (columns, rows))
                 = Ok names).
  { unfold as_rows. cbn [fst snd]. clear Hanswer.
    induction Hrows as [|row n rows' names' Hin _ IH]; [reflexivity|].
    cbn [map column getitem].
    rewrite (dict_zip_get columns row [] (py "table_name") n Hnd Hin). now rewrite IH. }
  unfold handle_call_tool. rewrite try_report.
  change (str_eqb (py "get_tables") (py "execute_select")) with false.
  change (str_eqb (py "get_tables") (py "get_tables")) with true.
  cbv iota.
  assert (Hnames : get_table_names R W s = (Ok names, s2)); [|
    now rewrite (proj1 (get_tables_success R W arguments s s2 names Hnames))].
  unfold get_table_names, bind.
  rewrite (execute_query_connected R W s s1 c TABLE_NAMES_QUERY None
             (VInt 1000) Hconn Hcur).
  cbv zeta. rewrite Hstmt. fold s2. rewrite Hanswer.
  unfold lift. now rewrite Hcol.
Qed.

Lemma X20_witness :
  handle_call_tool ascii_runtime world_two_tables sample_config
    (py "get_tables") [] fresh
  = (Ok (text_content
           (py "Database tables:" ++ line_feed ++
            repr ascii_runtime
              (VList [VStr (py "orders"); VStr (py "web_items")]))),
     after_execute (snd (get_connection ascii_runtime world_two_tables fresh))
       7%nat TABLE_NAMES_STATEMENT None).
Proof.
  apply (X20_tables_in_driver_order ascii_runtime world_two_tables
           sample_config [] fresh
           (snd (get_connection ascii_runtime world_two_tables fresh)) 7%nat
           [py "table_name"]
           [[VStr (py "orders")]; [VStr (py "web_items")]]
           [VStr (py "orders"); VStr (py "web_items")]
           eq_refl eq_refl eq_refl).
  - repeat constructor. intros [].
  - repeat constructor.
Defined.



(** X22: the row limit is settled before the query is looked at.  A limit
    that is a text, [None], a list or a mapping makes [execute_select]
    answer "Error: '<' not supported between instances of 'int' and
    '<type>'", whatever the query is (also one the validator would turn
    down), with the manager and the log untouched.  A [float] is not
    refused: it is a number, compared as such with the configured maximum,
    and when it is the smaller an accepted query runs with the float as
    its limit; for a query with no LIMIT of its own the statement handed
    to the driver ends in " LIMIT " and the float as Python prints it. *)
Theorem X22_limit_checked_first (R : PyRuntime) (W : World) (config : Config)
    (arguments : list (str * value)) (s : St) :
  let limit := get arguments (py "limit") (VInt 1000) in
  (match limit with
   | VNone | VStr _ | VList _ | VDict _ => true
   | _ => false
   end = true ->
   handle_call_tool R W config (py "execute_select") arguments s
   = (Ok (text_content
            (py "Error: '<' not supported between instances of 'int' and '"
             ++ type_name limit ++ py "'")), s)) /\
  (forall f q,
     limit = VFloat f ->
     get arguments (py "query") (VStr []) = VStr q ->
     validate_query R (VStr q) = Ok (true, []) ->
     let clamped :=
       if int_lt_float (max_query_rows config) f
       then VInt (max_query_rows config) else VFloat f in
     _execute_select R W config arguments s
       = run_select R W (VStr q) clamped s /\
     (forall c s1,
        int_lt_float (max_query_rows config) f = false ->
        contains (py "LIMIT") (upper R (rstrip_char semicolon (strip R q)))
          = false ->
        get_connection R W s = (Ok (Some c), s1) ->
        cursor W (log s1 ++ [Cursor c]) = None ->
        exists tail,
          log (snd (_execute_select R W config arguments s))
          = log s1 ++
            [Cursor c;
             Execute c
               (rstrip_char semicolon (strip R q) ++ py " LIMIT " ++
                repr R (VFloat f)) None] ++ tail)).
Proof.
  intros limit. split.
  - intros Hl. subst limit.
    rewrite dispatch_execute_select. unfold _execute_select.
    unfold bind at 1. unfold lift at 1.
    destruct (get arguments (py "limit") (VInt 1000)); try discriminate Hl;
      reflexivity.
  - intros f q Hf Hq Hv clamped. subst limit.
    assert (Hrun : _execute_select R W config arguments s
                   = run_select R W (VStr q) clamped s).
    { unfold _execute_select. rewrite Hq, Hf. cbn [py_min].
      unfold bind at 1. unfold lift at 1.
      unfold bind at 1. unfold lift at 1. rewrite Hv. reflexivity. }
    split; [exact Hrun|].
    intros c s1 Hsmall Hnolimit Hconn Hcur.
    rewrite Hrun. subst clamped. rewrite Hsmall.
    destruct (execute_query_log R W s s1 c q None (VFloat f) Hconn Hcur)
      as (tail & Hlog & _).
    exists tail. unfold run_select. rewrite snd_try_report.
    rewrite snd_bind_pure by reflexivity.
    rewrite Hlog. unfold limited_query. rewrite Hnolimit. reflexivity.
Qed.

Lemma X22_witness :
  handle_call_tool ascii_runtime world_up sample_config (py "execute_select")
    [(py "query", VStr (py "DROP TABLE t")); (py "limit", VStr (py "5"))]
    fresh
  = (Ok (text_content
           (py "Error: '<' not supported between instances of 'int' and 'str'")),
     fresh) /\
  exists tail,
    log (snd (_execute_select ascii_runtime world_up sample_config
                [(py "query", VStr (py "SELECT 1"));
                 (py "limit", VFloat two_and_a_half)] fresh))
    = log (snd (get_connection ascii_runtime world_up fresh)) ++
      [Cursor 7%nat;
       Execute 7%nat
         (py "SELECT 1" ++ py " LIMIT " ++
          repr ascii_runtime (VFloat two_and_a_half)) None] ++ tail.
Proof.
  split.
  - apply (proj1 (X22_limit_checked_first ascii_runtime world_up sample_config
                    [(py "query", VStr (py "DROP TABLE t"));
                     (py "limit", VStr (py "5"))] fresh)).
    reflexivity.
  - apply (proj2 (proj2 (X22_limit_checked_first ascii_runtime world_up
                           sample_config
                           [(py "query", VStr (py "SELECT 1"));
                            (py "limit", VFloat two_and_a_half)] fresh)
                    two_and_a_half (py "SELECT 1") eq_refl eq_refl
                    ltac:(vm_compute; reflexivity))
             7%nat (snd (get_connection ascii_runtime world_up fresh)));
      vm_compute; reflexivity.
Defined.

Section UpperFacts.
Context (R : PyRuntime) (HR : upper_keeps_blanks R).

Lemma upper_char_blank (c : N) :
  isspace R c = true -> upper_char R c = [c].
Proof.
  unfold isspace, upper_char. destruct (is_ascii c) eqn:Ha.
  - intros Hs. f_equal. revert Hs.
    unfold ascii_isspace, ascii_upper, ascii_islower.
    destruct ((97 <=? c)%N && (c <=? 122)%N) eqn:Hl; [|reflexivity].
    apply andb_true_iff in Hl as [H1 H2].
    apply N.leb_le in H1. apply N.leb_le in H2.
    rewrite !orb_true_iff, !andb_true_iff, !N.leb_le, N.eqb_eq. lia.
  - intros Hs. specialize (HR c Ha). now rewrite Hs in HR.
Qed.

Lemma upper_char_not_blank (c : N) :
  isspace R c = false ->
  exists d rest,
    upper_char R c = d :: rest /\
    forallb (fun x => negb (isspace R x)) (d :: rest) = true.
Proof.
  unfold upper_char. intros Hs. destruct (is_ascii c) eqn:Ha.
  - exists (ascii_upper c), []. split; [reflexivity|].
    cbn [forallb]. rewrite andb_true_r. apply negb_true_iff.
    revert Hs. unfold isspace. rewrite Ha.
    assert (Hu : is_ascii (ascii_upper c) = true).
    { revert Ha. unfold is_ascii, ascii_upper, ascii_islower.
      destruct ((97 <=? c)%N && (c <=? 122)%N); rewrite !N.ltb_lt; lia. }
    rewrite Hu. unfold ascii_isspace, ascii_upper, ascii_islower.
    destruct ((97 <=? c)%N && (c <=? 122)%N) eqn:Hl; [|easy].
    apply andb_true_iff in Hl as [H1 H2].
    apply N.leb_le in H1. apply N.leb_le in H2. intros _.
    apply not_true_iff_false.
    rewrite !orb_true_iff, !andb_true_iff, !N.leb_le, N.eqb_eq. lia.
  - specialize (HR c Ha). unfold isspace in Hs. rewrite Ha in Hs.
    now rewrite Hs in HR.
Qed.

(** Dropping blanks commutes with a character-wise mapping that keeps
    blanks and makes no new ones at the front. *)
Lemma dropWhile_flat_map (p : N -> bool) (g : N -> str) :
  (forall c, p c = true -> g c = [c]) ->
  (forall c, p c = false -> exists d rest, g c = d :: rest /\ p d = false) ->
  forall s, dropWhile p (flat_map g s) = flat_map g (dropWhile p s).
Proof.
  intros Hb Hn. induction s as [|c s IH]; [reflexivity|].
  cbn [flat_map dropWhile]. destruct (p c) eqn:Hc.
  - rewrite (Hb c Hc). simpl app. cbn [dropWhile]. rewrite Hc. exact IH.
  - destruct (Hn c Hc) as (d & rest & Hg & Hd). cbn [flat_map]. rewrite Hg.
    simpl app. cbn [dropWhile]. now rewrite Hd.
Qed.

Lemma flat_map_rev (g : N -> str) (s : str) :
  rev (flat_map g s) = flat_map (fun c => rev (g c)) (rev s).
Proof.
  induction s as [|c s IH]; [reflexivity|].
  cbn [flat_map rev]. rewrite rev_app_distr, IH, flat_map_app.
  cbn [flat_map]. now rewrite app_nil_r.
Qed.

Lemma rev_flat_map_rev (g : N -> str) (s : str) :
  rev (flat_map (fun c => rev (g c)) s) = flat_map g (rev s).
Proof.
  rewrite flat_map_rev. apply flat_map_ext. intros c. apply rev_involutive.
Qed.

Lemma lstrip_upper (s : str) :
  lstrip_with (isspace R) (upper R s) = upper R (lstrip_with (isspace R) s).
Proof.
  apply dropWhile_flat_map.
  - apply upper_char_blank.
  - intros c Hc. destruct (upper_char_not_blank c Hc) as (d & rest & Hg & Hall).
    exists d, rest. split; [exact Hg|].
    cbn [forallb] in Hall. apply andb_true_iff in Hall as [Hd _].
    now apply negb_true_iff.
Qed.

Lemma rstrip_upper (s : str) :
  rstrip_with (isspace R) (upper R s) = upper R (rstrip_with (isspace R) s).
Proof.
  unfold rstrip_with, upper. rewrite flat_map_rev.
  rewrite dropWhile_flat_map.
  - apply rev_flat_map_rev.
  - intros c Hc. now rewrite (upper_char_blank c Hc).
  - intros c Hc. destruct (upper_char_not_blank c Hc) as (d & rest & Hg & Hall).
    rewrite Hg.
    assert (Hrev : forallb (fun x => negb (isspace R x)) (rev (d :: rest))
                   = true).
    { apply forallb_forall. intros x Hx. apply in_rev in Hx.
      exact (proj1 (forallb_forall _ _) Hall x Hx). }
    destruct (rev (d :: rest)) as [|e tail] eqn:Hr.
    { apply (f_equal (@List.length N)) in Hr. rewrite length_rev in Hr.
      discriminate. }
    exists e, tail. split; [reflexivity|].
    cbn [forallb] in Hrev. apply andb_true_iff in Hrev as [He _].
    now apply negb_true_iff.
Qed.

(** [query.upper().strip()] and [query.strip().upper()] are the same
    text. *)
Lemma strip_upper (s : str) : strip R (upper R s) = upper R (strip R s).
Proof.
  unfold strip, strip_with. now rewrite lstrip_upper, rstrip_upper.
Qed.

End UpperFacts.

Section PrefixFacts.

Lemma rstrip_with_split (p : N -> bool) (s : str) :
  exists dropped, s = rstrip_with p s ++ dropped /\ forallb p dropped = true.
Proof.
  unfold rstrip_with.
  assert (H : forall l, exists d, l = d ++ dropWhile p l /\ forallb p d = true).
  { induction l as [|c l (d & Hd & Hp)]; [now exists []|].
    cbn [dropWhile]. destruct (p c) eqn:Hc.
    - exists (c :: d). cbn [app forallb]. rewrite Hc, Hp. split; [|reflexivity].
      now f_equal.
    - now exists []. }
  destruct (H (rev s)) as (d & Hd & Hp).
  exists (rev d). split.
  - rewrite <- rev_app_distr, <- Hd. symmetry. apply rev_involutive.
  - apply forallb_forall. intros x Hx. apply in_rev in Hx.
    exact (proj1 (forallb_forall _ _) Hp x Hx).
Qed.

Lemma startswith_more (p a b : str) :
  startswith p a = true -> startswith p (a ++ b) = true.
Proof.
  intros H. destruct (startswith_inv p a H) as (t & ->).
  rewrite <- app_assoc. apply startswith_app.
Qed.

(** A prefix none of whose characters is in the tail is a prefix of the
    front. *)
Lemma startswith_front (q : N -> bool) (p a b : str) :
  forallb q b = true -> forallb (fun c => negb (q c)) p = true ->
  startswith p (a ++ b) = true -> startswith p a = true.
Proof.
  intros Hb. revert a. induction p as [|c p IH]; intros a Hp H;
    [reflexivity|].
  cbn [forallb] in Hp. apply andb_true_iff in Hp as [Hc Hp].
  destruct a as [|x a].
  - exfalso. cbn [app] in H. destruct b as [|y b]; [discriminate|].
    cbn [startswith] in H. apply andb_true_iff in H as [Hy _].
    apply N.eqb_eq in Hy. subst y.
    cbn [forallb] in Hb. apply andb_true_iff in Hb as [Hq _].
    rewrite Hq in Hc. discriminate.
  - cbn [app startswith] in *. apply andb_true_iff in H as [Hx H].
    rewrite Hx. now apply IH.
Qed.

End PrefixFacts.

Section SelectFacts.
Context (R : PyRuntime) (HR : upper_keeps_blanks R) (W : World)
        (config : Config).

(** The statement made of an accepted query begins with SELECT, in any
    letter case. *)
Lemma limited_select (q msg : str) (limit : value) :
  validate_query R (VStr q) = Ok (true, msg) ->
  startswith (py "SELECT") (upper R (limited_query R q limit)) = true.
Proof.
  intros Hv. apply validate_query_accepts in Hv as (_ & _ & Hs & _).
  unfold query_upper in Hs. rewrite (strip_upper R HR) in Hs.
  destruct (rstrip_with_split (N.eqb semicolon) (strip R q))
    as (dropped & Hsplit & Hdropped).
  fold (rstrip_char semicolon (strip R q)) in Hsplit.
  assert (Hfront : startswith (py "SELECT")
                     (upper R (rstrip_char semicolon (strip R q))) = true).
  { rewrite Hsplit in Hs. unfold upper in Hs. rewrite flat_map_app in Hs.
    assert (Hd : flat_map (upper_char R) dropped = dropped).
    { clear Hsplit Hs. induction dropped as [|c d IH]; [reflexivity|].
      cbn [forallb] in Hdropped.
      apply andb_true_iff in Hdropped as [Hc Hrest].
      apply N.eqb_eq in Hc. subst c. cbn [flat_map].
      now rewrite (IH Hrest). }
    rewrite Hd in Hs.
    now apply (startswith_front (N.eqb semicolon) _ _ dropped Hdropped). }
  unfold limited_query.
  destruct (negb (contains (py "LIMIT")
                    (upper R (rstrip_char semicolon (strip R q)))));
    [|exact Hfront].
  unfold upper. rewrite flat_map_app. now apply startswith_more.
Qed.

Lemma get_tables_state (arguments : list (str * value)) (s : St) :
  snd (_get_tables R W arguments s)
  = snd (execute_query R W (VStr TABLE_NAMES_QUERY) None (VInt 1000) s).
Proof.
  unfold _get_tables. rewrite snd_try_report.
  rewrite snd_bind_pure by reflexivity.
  unfold get_table_names. apply snd_bind_pure.
  intros rows s0. unfold lift. now destruct (column R _ rows).
Qed.

End SelectFacts.

(** X23: whatever tool is named and whatever arguments it is given, a call
    of the handler hands the driver at most one statement, and that
    statement, upper-cased, begins with SELECT.  (The interpreter's
    upper-casing is taken to leave blank characters alone and to make no
    blank, and no empty text, of another character, as Unicode's does.) *)
Theorem X23_only_select_statements (R : PyRuntime) (W : World)
    (config : Config) (name : str) (arguments : list (str * value))
    (s : St) :
  upper_keeps_blanks R ->
  let s' := snd (handle_call_tool R W config name arguments s) in
  exists sent,
    executed (log s') = executed (log s) ++ sent /\
    (List.length sent <= 1)%nat /\
    all_select R sent = true.
Proof.
  intros HR s'. subst s'.
  assert (Hnone : exists sent,
             executed (log s) = executed (log s) ++ sent /\
             (List.length sent <= 1)%nat /\ all_select R sent = true).
  { exists []. rewrite app_nil_r. repeat split. cbn. lia. }
  assert (Hone : forall statement,
             startswith (py "SELECT") (upper R statement) = true ->
             exists sent,
               executed (log s) ++ [statement] = executed (log s) ++ sent /\
               (List.length sent <= 1)%nat /\ all_select R sent = true).
  { intros statement H. exists [statement]. repeat split; [cbn; lia|].
    unfold all_select. cbn [forallb]. now rewrite H. }
  unfold handle_call_tool. rewrite snd_dispatch.
  destruct (str_eqb name (py "execute_select")).
  { destruct (execute_select_state R W config arguments s)
      as [->|(q & limit & Hq & Hv & Hmin & ->)]; [exact Hnone|].
    destruct (execute_query_executed R W (VStr q) None limit s)
      as [->|(q' & Hq' & ->)]; [exact Hnone|].
    assert (q' = q) by congruence. subst q'.
    apply Hone. exact (limited_select R HR q [] limit Hv). }
  destruct (str_eqb name (py "get_tables")).
  { rewrite get_tables_state.
    destruct (execute_query_executed R W (VStr TABLE_NAMES_QUERY) None
                (VInt 1000) s) as [->|(q' & Hq' & ->)]; [exact Hnone|].
    assert (q' = TABLE_NAMES_QUERY) by congruence. subst q'.
    apply Hone. reflexivity. }
  destruct (str_eqb name (py "describe_table")).
  { destruct (describe_table_state R W arguments s) as [->| ->];
      [exact Hnone|].
    destruct (execute_query_executed R W (VStr DESCRIBE_QUERY)
                (Some [get arguments (py "table_name") (VStr [])])
                (VInt 1000) s) as [->|(q' & Hq' & ->)]; [exact Hnone|].
    assert (q' = DESCRIBE_QUERY) by congruence. subst q'.
    apply Hone. reflexivity. }
  destruct (str_eqb name (py "count_records")); [|exact Hnone].
  destruct (count_records_state R W arguments s)
    as [->|(table & Htable & Hid & Hlen & ->)]; [exact Hnone|].
  destruct (execute_query_executed R W
              (VStr (COUNT_PREFIX ++ table ++ py ";")) None (VInt 1000) s)
    as [->|(q' & Hq' & ->)]; [exact Hnone|].
  assert (q' = COUNT_PREFIX ++ table ++ py ";") by congruence. subst q'.
  apply Hone.
  destruct (count_statement R table Hid) as (suffix & _ & ->).
  unfold upper. rewrite flat_map_app.
  change (flat_map (upper_char R) COUNT_PREFIX)
    with (py "SELECT" ++ py " COUNT(*) AS COUNT FROM ").
  rewrite <- app_assoc. apply startswith_app.
Qed.

Lemma ascii_runtime_keeps_blanks : upper_keeps_blanks ascii_runtime.
Proof.
  intros c Hc. cbn [isspace_ext upper_ext ascii_runtime].
  exists c, []. split; [reflexivity|].
  cbn [forallb]. unfold isspace. rewrite Hc. reflexivity.
Qed.

Lemma X23_witness :
  exists sent,
    executed (log (snd (handle_call_tool ascii_runtime world_up sample_config
                          (py "execute_select")
                          [(py "query", VStr (py "select 1;"))] fresh)))
      = executed (log fresh) ++ sent /\
    (List.length sent <= 1)%nat /\
    all_select ascii_runtime sent = true.
Proof.
  exact (X23_only_select_statements ascii_runtime world_up sample_config
           (py "execute_select") [(py "query", VStr (py "select 1;"))] fresh
           ascii_runtime_keeps_blanks).
Defined.

Section CloseFacts.
Context (R : PyRuntime) (W : World).

Lemma live_connection_some (s : St) (c : conn) :
  _connection (self s) = Some c -> closed W (log s) c = false ->
  live_connection W s = (Ok (Some c), s).
Proof.
  intros Hc Hopen. unfold live_connection. run. now rewrite Hc, Hopen.
Qed.

(** The loop's first try, when the driver answers. *)
Lemma get_connection_loop_opens (d : list (str * value)) (k : nat)
    (attempt : Z) (s : St) (c : conn) :
  forallb (has_key d) REQUIRED_KEYS = true ->
  connect W (log (after_connect s d)) = Ok c ->
  get_connection_loop R W (VDict d) (S k) attempt s
  = (Ok (Some c),
     {| self := with_connection (self s) c; log := log (after_connect s d) |}).
Proof.
  intros Hd Hc. cbn [get_connection_loop]. unfold try_except.
  unfold bind at 1. rewrite (open_connection_eq R W d s Hd), Hc.
  reflexivity.
Qed.

End CloseFacts.

(** X24: [close] tells a stored connection that is still open to close,
    once, and changes nothing else; with no connection stored, or one that
    reports itself closed, it does nothing, so closing twice closes once.
    The closed connection stays stored, and the next [get_connection]
    replaces it: it opens a new connection with the cached credentials,
    without asking the secrets backend again. *)
Theorem X24_close_then_reconnect (R : PyRuntime) (W : World) (s : St)
    (c c' : conn) (d : list (str * value)) :
  (no_live_connection W s = true -> close W s = (Ok tt, s)) /\
  (_connection (self s) = Some c -> closed W (log s) c = false ->
   let s1 := after_close s c in
   close W s = (Ok tt, s1) /\
   (closed W (log s1) c = true ->
    close W s1 = (Ok tt, s1) /\
    (_db_credentials (self s) = VDict d ->
     forallb (has_key d) REQUIRED_KEYS = true ->
     (1 <= max_retries (self s))%Z ->
     connect W (log (after_connect s1 d)) = Ok c' ->
     get_connection R W s1
       = (Ok (Some c'),
          {| self := with_connection (self s) c';
             log := log s ++ [Close c; connect_event d] |})))).
Proof.
  assert (Hidle : forall s0, no_live_connection W s0 = true ->
                             close W s0 = (Ok tt, s0)).
  { intros s0 H. unfold close, bind.
    now rewrite (live_connection_none W s0 H). }
  split; [apply Hidle|].
  intros Hc Hopen s1.
  assert (Hdead : closed W (log s1) c = true -> no_live_connection W s1 = true).
  { intros H. unfold no_live_connection. subst s1. cbn [after_close self].
    now rewrite Hc. }
  split; [|intros Hclosed; split].
  - unfold close, bind. now rewrite (live_connection_some W s c Hc Hopen).
  - apply Hidle. now apply Hdead.
  - intros Hcred Hd Hn Hconnect.
    rewrite (get_connection_cached R W s1 (Hdead Hclosed)).
    + subst s1. cbn [after_close self]. rewrite Hcred.
      destruct (Z.to_nat (max_retries (self s))) as [|k] eqn:Hk; [lia|].
      rewrite (get_connection_loop_opens R W d k 0 _ c' Hd Hconnect).
      cbn [after_connect after_close self log]. now rewrite <- app_assoc.
    + subst s1. cbn [after_close self]. rewrite Hcred.
      destruct d; [discriminate Hd|reflexivity].
Qed.

Lemma X24_witness :
  close world_closable connected_once
  = (Ok tt, after_close connected_once 1%nat) /\
  close world_closable (after_close connected_once 1%nat)
  = (Ok tt, after_close connected_once 1%nat) /\
  fst (get_connection ascii_runtime world_closable
         (after_close connected_once 1%nat))
  = Ok (Some 2%nat) /\
  secret_requests
    (log (snd (get_connection ascii_runtime world_closable
                 (after_close connected_once 1%nat))))
  = 1%nat.
Proof.
  pose proof (proj2 (X24_close_then_reconnect ascii_runtime world_closable
                       connected_once 1%nat 2%nat
                       [ (py "host", VStr (py "db.internal"));
                         (py "dbname", VStr (py "app"));
                         (py "username", VStr (py "reader"));
                         (py "password", VStr (py "s3cret")) ])
                    eq_refl eq_refl) as [H1 H2].
  split; [exact H1|].
  destruct (H2 eq_refl) as [H3 H4]. split; [exact H3|].
  rewrite (H4 eq_refl eq_refl ltac:(vm_compute; discriminate) eq_refl).
  split; reflexivity.
Defined.

Section ShapeFacts.
Context (R : PyRuntime).

Lemma ends_cat (a b : regex) (p p1 p2 : pos) :
  In p1 (ends R true a p) -> In p2 (ends R true b p1) ->
  In p2 (ends R true (Cat a b) p).
Proof.
  intros H1 H2. cbn [ends]. apply in_flat_map. now exists p1.
Qed.

(** A starred one-character pattern runs over any stretch of characters
    that all pass. *)
Lemma star_run (r : regex) (ok : N -> bool) (run rest : str) (n : nat) :
  (forall p, ends R true r p = step ok p) ->
  forallb ok run = true ->
  In ((n + List.length run)%nat, rest) (ends R true (Star r) (n, run ++ rest)).
Proof.
  intros Hr Hrun. cbn [ends snd].
  assert (E : forall fuel p,
             repeat_ends (ends R true r) fuel p = repeat_ends (step ok) fuel p).
  { induction fuel as [|fuel IH]; intros p; cbn [repeat_ends]; [reflexivity|].
    rewrite Hr. f_equal. apply flat_map_ext. intros p'. apply IH. }
  rewrite E. apply repeat_step_ends; [lia|].
  now exists run, rest.
Qed.

Lemma plus_run (r : regex) (ok : N -> bool) (run rest : str) (n : nat) :
  (forall p, ends R true r p = step ok p) ->
  run <> [] -> forallb ok run = true ->
  In ((n + List.length run)%nat, rest) (ends R true (Plus r) (n, run ++ rest)).
Proof.
  intros Hr Hne Hrun. destruct run as [|c run]; [congruence|].
  cbn [forallb] in Hrun. apply andb_true_iff in Hrun as [Hc Hrun].
  cbn [ends]. apply in_flat_map. exists (S n, run ++ rest). split.
  - rewrite Hr. unfold step. cbn [snd app]. rewrite Hc. now left.
  - replace (n + List.length (c :: run))%nat
      with (S n + List.length run)%nat by (cbn [List.length]; lia).
    exact (star_run r ok run rest (S n) Hr Hrun).
Qed.

Lemma lit_here (c : N) (rest : str) (n : nat) :
  is_ascii c = true ->
  In (S n, rest) (ends R true (Lit c) (n, c :: rest)).
Proof.
  intros Hc. cbn [ends]. unfold step. cbn [snd].
  rewrite (lit_matches_folded R c c Hc eq_refl). now left.
Qed.

Lemma found (r : regex) (a rest : str) (p : pos) :
  In p (ends R true r (List.length a, rest)) ->
  re_search R true r (a ++ rest) = true.
Proof.
  intros H. unfold re_search. apply search_from_later.
  apply matches_at_iff. now exists p.
Qed.

(** /\*.*\*/ *)
Lemma search_block_comment (a m b : str) :
  forallb (fun c => negb (c =? 10)%N) m = true ->
  re_search R true (Cat (lits (py "/*")) (Cat (Star Dot) (lits (py "*/"))))
    (a ++ py "/*" ++ m ++ py "*/" ++ b) = true.
Proof.
  intros Hm.
  apply (found _ a _ ((List.length a + 2 + List.length m + 2)%nat, b)).
  eapply ends_cat.
  - apply (lits_match R (py "/*") (py "/*") (m ++ py "*/" ++ b)
             (List.length a)); reflexivity.
  - eapply ends_cat.
    + apply (star_run Dot (fun c => negb (c =? 10)%N) m (py "*/" ++ b));
        [reflexivity|exact Hm].
    + exact (lits_match R (py "*/") (py "*/") b _ eq_refl eq_refl).
Qed.

(** UNION\s+SELECT *)
Lemma search_union_select (a u blanks sel b : str) :
  map ascii_lower u = py "union" ->
  blanks <> [] -> forallb (isspace R) blanks = true ->
  map ascii_lower sel = py "select" ->
  re_search R true
    (Cat (lits (py "UNION")) (Cat (Plus Space) (lits (py "SELECT"))))
    (a ++ u ++ blanks ++ sel ++ b) = true.
Proof.
  intros Hu Hne Hblanks Hsel.
  apply (found _ a _
           ((List.length a + List.length u + List.length blanks
             + List.length sel)%nat, b)).
  eapply ends_cat.
  - apply (lits_match R (py "UNION") u (blanks ++ sel ++ b) (List.length a));
      [reflexivity|]. now rewrite Hu.
  - eapply ends_cat.
    + apply (plus_run Space (isspace R) blanks (sel ++ b));
        [reflexivity|exact Hne|exact Hblanks].
    + apply (lits_match R (py "SELECT") sel b); [reflexivity|].
      now rewrite Hsel.
Qed.

(** '\s*;\s* *)
Lemma search_quote_semicolon (a blanks b : str) :
  forallb (isspace R) blanks = true ->
  re_search R true
    (Cat (Lit quote) (Cat (Star Space) (Cat (Lit semicolon) (Star Space))))
    (a ++ [quote] ++ blanks ++ [semicolon] ++ b) = true.
Proof.
  intros Hblanks.
  apply (found _ a _
           ((S (S (List.length a) + List.length blanks) + 0)%nat, b)).
  eapply ends_cat.
  - apply lit_here. reflexivity.
  - eapply ends_cat.
    + apply (star_run Space (isspace R) blanks ([semicolon] ++ b));
        [reflexivity|exact Hblanks].
    + eapply ends_cat.
      * apply lit_here. reflexivity.
      * apply (star_run Space (isspace R) [] b); reflexivity.
Qed.

(** '\s*OR\s*' *)
Lemma search_quote_or_quote (a bl1 o bl2 b : str) :
  forallb (isspace R) bl1 = true -> map ascii_lower o = py "or" ->
  forallb (isspace R) bl2 = true ->
  re_search R true
    (Cat (Lit quote)
       (Cat (Star Space)
          (Cat (lits (py "OR")) (Cat (Star Space) (Lit quote)))))
    (a ++ [quote] ++ bl1 ++ o ++ bl2 ++ [quote] ++ b) = true.
Proof.
  intros H1 Ho H2.
  apply (found _ a _
           (S (S (List.length a) + List.length bl1 + List.length o
               + List.length bl2)%nat, b)).
  eapply ends_cat.
  - apply lit_here. reflexivity.
  - eapply ends_cat.
    + apply (star_run Space (isspace R) bl1 (o ++ bl2 ++ [quote] ++ b));
        [reflexivity|exact H1].
    + eapply ends_cat.
      * apply (lits_match R (py "OR") o (bl2 ++ [quote] ++ b));
          [reflexivity|]. now rewrite Ho.
      * eapply ends_cat.
        -- apply (star_run Space (isspace R) bl2 ([quote] ++ b));
             [reflexivity|exact H2].
        -- apply lit_here. reflexivity.
Qed.

Lemma pattern_rejects (p : regex) (q : str) :
  In p INJECTION_PATTERNS -> re_search R true p q = true ->
  exists msg, validate_query R (VStr q) = Ok (false, msg).
Proof.
  intros Hp Hs.
  destruct (validate_query_total R q) as ([|] & msg & Hv); [|eauto].
  exfalso. apply validate_query_accepts in Hv as (_ & _ & _ & _ & Hpat & _).
  assert (existsb (fun pattern => re_search R true pattern q)
            INJECTION_PATTERNS = true)
    by (apply existsb_exists; now exists p).
  congruence.
Qed.

End ShapeFacts.

(** X25: [validate_query] rejects every text that has, anywhere in it: a
    block comment [/* ... */] with no line feed inside; the words UNION and
    SELECT, in any letter case, with one or more blanks between them; a
    quote followed, after any blanks, by a semicolon; or a quote, the word
    OR in any letter case, and a quote, with any blanks between them. *)
Theorem X25_injection_shapes_rejected (R : PyRuntime) (q : str) :
  (exists a m b,
     q = a ++ py "/*" ++ m ++ py "*/" ++ b /\
     forallb (fun c => negb (c =? newline)%N) m = true) \/
  (exists a u blanks sel b,
     q = a ++ u ++ blanks ++ sel ++ b /\
     map ascii_lower u = py "union" /\ map ascii_lower sel = py "select" /\
     blanks <> [] /\ forallb (isspace R) blanks = true) \/
  (exists a blanks b,
     q = a ++ [quote] ++ blanks ++ [semicolon] ++ b /\
     forallb (isspace R) blanks = true) \/
  (exists a blanks o blanks' b,
     q = a ++ [quote] ++ blanks ++ o ++ blanks' ++ [quote] ++ b /\
     map ascii_lower o = py "or" /\
     forallb (isspace R) blanks = true /\
     forallb (isspace R) blanks' = true) ->
  exists msg, validate_query R (VStr q) = Ok (false, msg).
Proof.
  intros [(a & m & b & -> & Hm)
         |[(a & u & blanks & sel & b & -> & Hu & Hsel & Hne & Hb)
         |[(a & blanks & b & -> & Hb)
         |(a & bl1 & o & bl2 & b & -> & Ho & H1 & H2)]]].
  - eapply pattern_rejects; [|exact (search_block_comment R a m b Hm)].
    unfold INJECTION_PATTERNS. do 2 right. now left.
  - eapply pattern_rejects;
      [|exact (search_union_select R a u blanks sel b Hu Hne Hb Hsel)].
    unfold INJECTION_PATTERNS. do 3 right. now left.
  - eapply pattern_rejects; [|exact (search_quote_semicolon R a blanks b Hb)].
    unfold INJECTION_PATTERNS. do 5 right. now left.
  - eapply pattern_rejects;
      [|exact (search_quote_or_quote R a bl1 o bl2 b H1 Ho H2)].
    unfold INJECTION_PATTERNS. do 4 right. now left.
Qed.

Lemma X25_witness :
  (exists msg,
     validate_query ascii_runtime (VStr (py "SELECT 1 /* hidden */"))
     = Ok (false, msg)) /\
  (exists msg,
     validate_query ascii_runtime
       (VStr (py "SELECT a FROM t Union  Select b FROM u"))
     = Ok (false, msg)) /\
  (exists msg,
     validate_query ascii_runtime (VStr (py "SELECT * FROM t WHERE a = 'x' ;"))
     = Ok (false, msg)) /\
  (exists msg,
     validate_query ascii_runtime
       (VStr (py "SELECT * FROM t WHERE a = '' or '' = ''"))
     = Ok (false, msg)).
Proof.
  split; [|split; [|split]].
  - apply (X25_injection_shapes_rejected ascii_runtime
             (py "SELECT 1 /* hidden */")).
    left. exists (py "SELECT 1 "), (py " hidden "), []. split; reflexivity.
  - apply (X25_injection_shapes_rejected ascii_runtime
             (py "SELECT a FROM t Union  Select b FROM u")).
    right. left.
    exists (py "SELECT a FROM t "), (py "Union"), (py "  "), (py "Select"),
      (py " b FROM u").
    repeat split. discriminate.
  - apply (X25_injection_shapes_rejected ascii_runtime
             (py "SELECT * FROM t WHERE a = 'x' ;")).
    right. right. left.
    exists (py "SELECT * FROM t WHERE a = 'x"), (py " "), [].
    split; reflexivity.
  - apply (X25_injection_shapes_rejected ascii_runtime
             (py "SELECT * FROM t WHERE a = '' or '' = ''")).
    right. right. right.
    exists (py "SELECT * FROM t WHERE a = '"), (py " "), (py "or"), (py " "),
      (py "' = ''").
    repeat split.
Defined.

(** X26: the tools [handle_list_tools] lists and the ones
    [handle_call_tool] serves are the same.  A name that is not listed is
    answered "Error: Unknown tool: <name>" with the manager and the log
    untouched; a listed name is answered by one of the four tool methods,
    an exception that leaves it being reported as "Error: " and its text.
    When an argument that a listed tool's schema marks as required is
    missing from a call, the call ends in a text that reports the failure,
    again with the manager and the log untouched. *)
Theorem X26_listed_tools_and_required_arguments (R : PyRuntime) (W : World)
    (config : Config) (arguments : list (str * value)) (s : St) :
  (forall tool, is_listed tool = false ->
     handle_call_tool R W config tool arguments s
     = (Ok (text_content (py "Error: Unknown tool: " ++ tool)), s)) /\
  (forall t, In t handle_list_tools ->
     exists method,
       In method [_execute_select R W config; _get_tables R W;
                  _describe_table R W; _count_records R W] /\
       handle_call_tool R W config (name t) arguments s
       = match method arguments s with
         | (Ok a, s') => (Ok a, s')
         | (Raise e, s') => (Ok (text_content (py "Error: " ++ exc_msg e)), s')
         end) /\
  (forall t key,
     In t handle_list_tools -> In key (required_arguments t) ->
     dict_get arguments key = None ->
     let r := handle_call_tool R W config (name t) arguments s in
     snd r = s /\ reports_error (fst r) = true).
Proof.
  split; [|split].
  - intros tool H. apply unknown_tool. exact H.
  - intros t [<-|[<-|[<-|[<-|[]]]]].
    + exists (_execute_select R W config). split; [now left|].
      apply dispatch_execute_select.
    + exists (_get_tables R W). split; [right; now left|].
      unfold handle_call_tool. now rewrite try_report.
    + exists (_describe_table R W). split; [do 2 right; now left|].
      apply dispatch_describe_table.
    + exists (_count_records R W). split; [do 3 right; now left|].
      apply dispatch_count_records.
  - intros t key Ht Hkey Hmissing.
    assert (Hq : forall reason,
               validation R (name t) arguments = Ok (false, reason) ->
               let r := handle_call_tool R W config (name t) arguments s in
               snd r = s /\ reports_error (fst r) = true).
    { intros reason. apply rejected_arguments_reported. }
    destruct Ht as [<-|[<-|[<-|[<-|[]]]]].
    + destruct Hkey as [<-|[]].
      apply (Hq (py "Empty query not allowed")).
      unfold validation, get. cbn [name]. now rewrite Hmissing.
    + destruct Hkey.
    + destruct Hkey as [<-|[]].
      apply (Hq (py "Table name cannot be empty")).
      unfold validation, get. cbn [name]. now rewrite Hmissing.
    + destruct Hkey as [<-|[]].
      apply (Hq (py "Table name cannot be empty")).
      unfold validation, get. cbn [name]. now rewrite Hmissing.
Qed.

Lemma X26_witness :
  handle_call_tool ascii_runtime world_up sample_config (py "drop_table")
    [] fresh
  = (Ok (text_content (py "Error: Unknown tool: drop_table")), fresh) /\
  snd (handle_call_tool ascii_runtime world_up sample_config
         (py "describe_table") [(py "table", VStr (py "users"))] fresh)
  = fresh /\
  reports_error
    (fst (handle_call_tool ascii_runtime world_up sample_config
            (py "describe_table") [(py "table", VStr (py "users"))] fresh))
  = true.
Proof.
  split.
  - apply (proj1 (X26_listed_tools_and_required_arguments ascii_runtime
                    world_up sample_config [] fresh) (py "drop_table")).
    reflexivity.
  - apply (proj2 (proj2 (X26_listed_tools_and_required_arguments
                           ascii_runtime world_up sample_config
                           [(py "table", VStr (py "users"))] fresh))
             (nth 2 handle_list_tools
                {| name := []; description := []; inputSchema := VNone |})
             (py "table_name")).
    + right. right. left. reflexivity.
    + left. reflexivity.
    + reflexivity.
Defined.

Section ChatFacts.
Context (R : PyRuntime) (W : World) (config : Config).
Variable str_lower : str -> str.

(** The loop over a set stops at the one member that passes. *)
Lemma find_only {A} (f : A -> bool) (l l' : list A) (k : A) :
  Permutation l l' -> In k l -> f k = true ->
  (forall x, In x l -> f x = true -> x = k) ->
  find f l' = Some k.
Proof.
  intros Hperm Hin Hk Honly.
  destruct (find f l') as [x|] eqn:Hf.
  - apply find_some in Hf as [Hx Hfx].
    apply (Permutation_in _ (Permutation_sym Hperm)) in Hx.
    now rewrite (Honly x Hx Hfx).
  - exfalso. apply (Permutation_in _ Hperm) in Hin.
    pose proof (find_none _ _ Hf k Hin) as H. congruence.
Qed.

Lemma recent_query_refused :
  validate_query R (VStr RECENT_QUERY)
  = Ok (false, blocked_message (py "CREATE")).
Proof.
  unfold validate_query.
  assert (Hu : query_upper R RECENT_QUERY
               = py "SELECT TITLE, URL, CREATED_AT FROM WEB_ITEMS ORDER BY CREATED_AT DESC LIMIT 5")
    by reflexivity.
  assert (Hs : strip R RECENT_QUERY = RECENT_QUERY) by reflexivity.
  rewrite Hs, Hu.
  change (negb (truthy (VStr RECENT_QUERY))) with false. cbv iota.
  change (negb (startswith (py "SELECT")
                  (py "SELECT TITLE, URL, CREATED_AT FROM WEB_ITEMS ORDER BY CREATED_AT DESC LIMIT 5")))
    with false. cbv iota.
  rewrite (find_only _ BLOCKED_KEYWORDS (set_iter R BLOCKED_KEYWORDS)
             (py "CREATE")
             (Permutation_sym (set_iter_perm R BLOCKED_KEYWORDS))).
  - reflexivity.
  - unfold BLOCKED_KEYWORDS. cbn [map In]. do 4 right. now left.
  - vm_compute. reflexivity.
  - intros x Hx. unfold BLOCKED_KEYWORDS in Hx. cbn [map In] in Hx.
    repeat (destruct Hx as [<-|Hx]; [vm_compute; try discriminate; reflexivity|]).
    destruct Hx.
Qed.

Lemma titles_query_accepted :
  validate_query R (VStr TITLES_QUERY) = Ok (true, []).
Proof.
  apply validate_query_accepts.
  split; [reflexivity|]. split; [vm_compute; discriminate|].
  repeat split; try (vm_compute; reflexivity). vm_compute. lia.
Qed.

(** Which query [detect_database_intent] builds. *)
Lemma detected_query (tables : list str) (input : str)
    (params : list (str * value)) :
  detect_database_intent str_lower tables input
    = (Some (py "execute_select"), params) ->
  params = [(py "query",
             VStr (if asks_recent (str_lower input) then RECENT_QUERY
                   else TITLES_QUERY))].
Proof.
  unfold detect_database_intent, asks_recent. cbv zeta.
  destruct (_ || str_eqb _ _); [discriminate|].
  destruct (any_in _ _).
  { destruct (any_in _ _); [discriminate|].
    destruct (find _ _); discriminate. }
  destruct (_ && negb _).
  { destruct (find _ _); discriminate. }
  destruct (any_in _ _); [|discriminate].
  intros H. injection H as <-.
  destruct (contains (py "title") (str_lower input)); [reflexivity|].
  now destruct (_ || _).
Qed.

Lemma execute_select_refused (params : list (str * value)) (q reason : str)
    (s : St) :
  params = [(py "query", VStr q)] ->
  validate_query R (VStr q) = Ok (false, reason) ->
  _execute_select R W config params s
  = (Ok (text_content (py "Query validation failed: " ++ reason)), s).
Proof.
  intros -> Hv. unfold _execute_select.
  change (get [(py "query", VStr q)] (py "query") (VStr [])) with (VStr q).
  change (get [(py "query", VStr q)] (py "limit") (VInt 1000))
    with (VInt 1000).
  rewrite py_min_int. unfold bind, lift. now rewrite Hv.
Qed.

End ChatFacts.

(** X27: when [detect_database_intent] picks [execute_select], the query
    it hands over is one of two fixed texts.  The one it builds for
    questions about recent or latest items selects the column
    [created_at], whose name contains the blocked keyword CREATE: the
    server's validator refuses it, so [_execute_select] answers "Query
    validation failed: Blocked keyword 'CREATE' found in query" and nothing
    reaches the database.  The other text is accepted. *)
Theorem X27_recent_items_query_is_refused (str_lower : str -> str)
    (R : PyRuntime) (W : World) (config : Config) (tables : list str)
    (input : str) (params : list (str * value)) (s : St) :
  detect_database_intent str_lower tables input
    = (Some (py "execute_select"), params) ->
  if asks_recent (str_lower input) then
    (params = [(py "query", VStr RECENT_QUERY)] /\
     _execute_select R W config params s
     = (Ok (text_content
              (py "Query validation failed: Blocked keyword 'CREATE' found in query")),
        s))
  else
    (params = [(py "query", VStr TITLES_QUERY)] /\
     validate_query R (VStr TITLES_QUERY) = Ok (true, [])).
Proof.
  intros H. apply detected_query in H.
  destruct (asks_recent (str_lower input)).
  - split; [exact H|].
    exact (execute_select_refused R W config params RECENT_QUERY _ s H
             (recent_query_refused R)).
  - split; [exact H|]. apply titles_query_accepted.
Qed.

Lemma X27_witness :
  detect_database_intent (map ascii_lower) [] (py "Show me the latest items")
  = (Some (py "execute_select"), [(py "query", VStr RECENT_QUERY)]) /\
  _execute_select ascii_runtime world_up sample_config
    [(py "query", VStr RECENT_QUERY)] fresh
  = (Ok (text_content
           (py "Query validation failed: Blocked keyword 'CREATE' found in query")),
     fresh).
Proof.
  split; [reflexivity|].
  exact (proj2 (X27_recent_items_query_is_refused (map ascii_lower)
                  ascii_runtime world_up sample_config []
                  (py "Show me the latest items")
                  [(py "query", VStr RECENT_QUERY)] fresh eq_refl)).
Defined.


Section ChatTableFacts.
Context (R : PyRuntime) (W : World).
Variable str_lower : str -> str.

Lemma initialize_tables (s s' : St) (tables : list str) :
  initialize R W s = (Ok tables, s') ->
  tables = [] \/
  tables = map py ["web_items"; "web_raw_content";
                   "web_translated_content"]%string.
Proof.
  unfold initialize, try_except. unfold bind.
  destruct (_get_tables R W [] s) as [[[|first rest]|e] s0].
  - unfold raise, ret. intros H. injection H as <- _. now left.
  - destruct (contains _ _); unfold ret; intros H; injection H as <- _;
      [now right|now left].
  - unfold ret. intros H. injection H as <- _. now left.
Qed.

Lemma initialize_returns (s : St) :
  exists tables s', initialize R W s = (Ok tables, s').
Proof.
  unfold initialize, try_except. unfold bind.
  destruct (_get_tables R W [] s) as [[[|first rest]|e] s0];
    unfold raise, ret; eauto.
  destruct (contains _ _); eauto.
Qed.

(** The table name [detect_database_intent] hands over. *)
Lemma detected_table (tables : list str) (input : str) (tool : str)
    (key : str) (table : value) :
  detect_database_intent str_lower tables input
    = (Some tool, [(key, table)]) ->
  (tool = py "execute_select" /\ key = py "query") \/
  (key = py "table_name" /\
   (tool = py "describe_table" \/ tool = py "count_records") /\
   exists name, table = VStr name /\
     (name = py "web_items" \/
      In name tables /\ contains name (str_lower input) = true)).
Proof.
  unfold detect_database_intent. cbv zeta.
  assert (Hloop : forall t,
            match find (fun table => contains table (str_lower input)) tables
            with
            | Some name => (Some t, [(py "table_name", VStr name)])
            | None => (Some t, [(py "table_name", VStr (py "web_items"))])
            end = (Some tool, [(key, table)]) ->
            tool = t /\ key = py "table_name" /\
            exists name, table = VStr name /\
              (name = py "web_items" \/
               In name tables /\ contains name (str_lower input) = true)).
  { intros t. destruct (find _ tables) as [name|] eqn:Hf.
    - apply find_some in Hf. intros H. injection H as <- <- <-.
      repeat split. exists name. auto.
    - intros H. injection H as <- <- <-. repeat split.
      exists (py "web_items"). auto. }
  destruct (_ || str_eqb _ _); [discriminate|].
  destruct (any_in _ _).
  { destruct (any_in _ _); [discriminate|].
    intros H. apply Hloop in H as (-> & -> & H). right. auto. }
  destruct (_ && negb _).
  { intros H. apply Hloop in H as (-> & -> & H). right. auto. }
  destruct (any_in _ _); [|discriminate].
  intros H. injection H as <- <- _. now left.
Qed.

End ChatTableFacts.

(** X28: [initialize] always returns a list of known tables.  With that
    list, whatever the user's text is, a table name that
    [detect_database_intent] hands over is one of the three fixed names
    [web_items], [web_raw_content], [web_translated_content], and it
    passes both [sanitize_table_name] and the check of
    [count_table_records]. *)
Theorem X28_chat_table_names_pass (R : PyRuntime) (W : World)
    (str_lower : str -> str) (s : St) (input tool name : str) :
  exists tables s',
    initialize R W s = (Ok tables, s') /\
    (detect_database_intent str_lower tables input
       = (Some tool, [(py "table_name", VStr name)]) ->
     In name (map py ["web_items"; "web_raw_content";
                      "web_translated_content"]%string) /\
     sanitize_table_name R (VStr name) = Ok (true, []) /\
     isalnum R (remove_char underscore name) = true).
Proof.
  destruct (initialize_returns R W s) as (tables & s' & Hinit).
  exists tables, s'. split; [exact Hinit|].
  intros Hd.
  assert (Hin : In name (map py ["web_items"; "web_raw_content";
                                 "web_translated_content"]%string)).
  { apply detected_table in Hd as [[_ Hk]|(_ & _ & n & Hn & Hwhich)];
      [discriminate Hk|].
    injection Hn as ->.
    destruct Hwhich as [->|[Hin _]]; [now left|].
    destruct (initialize_tables R W s s' tables Hinit) as [->| ->];
      [destruct Hin|exact Hin]. }
  split; [exact Hin|].
  cbn [map In] in Hin.
  destruct Hin as [<-|[<-|[<-|[]]]]; split;
    try (apply sanitize_table_name_accepts_identifier;
         [reflexivity|vm_compute; lia]);
    reflexivity.
Qed.

Lemma X28_witness :
  sanitize_table_name ascii_runtime (VStr (py "web_items")) = Ok (true, []) /\
  isalnum ascii_runtime (remove_char underscore (py "web_items")) = true.
Proof.
  destruct (X28_chat_table_names_pass ascii_runtime world_two_tables
              (map ascii_lower) fresh (py "Describe it")
              (py "describe_table") (py "web_items"))
    as (tables & s' & Hinit & H).
  apply H.
  destruct (initialize_tables ascii_runtime world_two_tables fresh s' tables
              Hinit) as [->| ->]; reflexivity.
Defined.
